(** * ClickUp sync service: a shallow embedding of the field-sync core

    The development follows the JavaScript sources:
    - [services/clickup.js]   the remote client ([retryRequest], [getTaskDetails]);
    - [services/sync.js]      the merge engine ([syncTaskCustomFields],
                              [normalizeFieldValue], [mapFieldName]);
    - [services/taskTypeSync.js] the type side-sync ([syncTaskTypes],
                              [updateTaskTypeRelationships]);
    - [db/index.js]           the storage layer ([updateTaskField],
                              [checkTaskExists], [updateTaskCustomFields],
                              [getTaskById]).

    JavaScript values are a small tagged universe [jsval]; strings are
    sequences of Unicode code points; a table is a finite map from its
    primary key to a row, and a row is a finite map from column names to
    cells (an absent column is SQL NULL). *)

From Stdlib Require Import ZArith NArith Ascii String List Bool.
From stdpp Require Import base option list gmap strings fin_maps.
From stdpp Require Import sorting.

Local Open Scope Z_scope.

(** ** Strings as code-point sequences *)

Abbreviation ustring := (list N) (only parsing).

(** An ASCII literal read as a code-point sequence. *)
Definition u (s : string) : ustring :=
  List.map N_of_ascii (list_ascii_of_string s).

(** ** JavaScript values *)

#[local] Set Warnings "-register-all".

Inductive jsval : Type :=
  | JUndefined
  | JNull
  | JBool (b : bool)
  | JNum (n : Z)
  | JStr (s : ustring)
  | JDate (t : Z)                         (* a Date object: ms since the epoch *)
  | JArr (l : list jsval)
  | JObj (props : list (ustring * jsval)) (* own properties, insertion order *).

(** [!!v]: the falsy values are undefined, null, false, 0 and the empty string. *)
Definition truthy (v : jsval) : bool :=
  match v with
  | JUndefined | JNull => false
  | JBool b => b
  | JNum n => negb (n =? 0)
  | JStr s => match s with [] => false | _ => true end
  | JDate _ | JArr _ | JObj _ => true
  end.

(** [a || b] *)
Definition js_or (a b : jsval) : jsval := if truthy a then a else b.

(** [v === null || v === undefined] *)
Definition nullish (v : jsval) : bool :=
  match v with JUndefined | JNull => true | _ => false end.

(** Own-property lookup in a property list. *)
Fixpoint assoc (k : ustring) (l : list (ustring * jsval)) : option jsval :=
  match l with
  | [] => None
  | (k', v) :: l' => if decide (k = k') then Some v else assoc k l'
  end.

(** [o.k] on a non-nullish receiver: the own property of an object, and
    undefined on every other value (none of the property names the service
    reads is a member of [Object.prototype], [Array.prototype] or
    [String.prototype]). *)
Definition get (o : jsval) (k : string) : jsval :=
  match o with
  | JObj l => default JUndefined (assoc (u k) l)
  | _ => JUndefined
  end.

(** [o?.k] *)
Definition get_opt (o : jsval) (k : string) : jsval :=
  if nullish o then JUndefined else get o k.

(** [{...o, k: v}]: an existing key keeps its position, a new one is appended. *)
Fixpoint obj_set (k : ustring) (v : jsval) (l : list (ustring * jsval))
  : list (ustring * jsval) :=
  match l with
  | [] => [(k, v)]
  | (k', v') :: l' =>
      if decide (k = k') then (k, v) :: l' else (k', v') :: obj_set k v l'
  end.

(** ** The built-in functions the service relies on

    [String(v)], [new Date(v)], [parseInt(v, 10)] and
    [Date.prototype.toISOString] belong to the language runtime, not to the
    repository; they are parameters of the development.  [None] stands for a
    thrown exception; the [Date] constructor is also called outside any
    [try] block and returns a (possibly invalid) date for every value. *)

Class JsBuiltins := {
  js_String : jsval -> option jsval;
  js_new_Date : jsval -> jsval;
  js_parseInt10 : jsval -> option jsval;
  toISOString : Z -> ustring
}.

(** ** [JSON.stringify] *)

Fixpoint uint_digits (d : Decimal.uint) : ustring :=
  match d with
  | Decimal.Nil => []
  | Decimal.D0 d => 48%N :: uint_digits d
  | Decimal.D1 d => 49%N :: uint_digits d
  | Decimal.D2 d => 50%N :: uint_digits d
  | Decimal.D3 d => 51%N :: uint_digits d
  | Decimal.D4 d => 52%N :: uint_digits d
  | Decimal.D5 d => 53%N :: uint_digits d
  | Decimal.D6 d => 54%N :: uint_digits d
  | Decimal.D7 d => 55%N :: uint_digits d
  | Decimal.D8 d => 56%N :: uint_digits d
  | Decimal.D9 d => 57%N :: uint_digits d
  end.

(** The decimal rendering of a number; numbers are integers here, of a
    magnitude that JavaScript prints without an exponent. *)
Definition number_to_string (n : Z) : ustring :=
  match Z.to_int n with
  | Decimal.Pos d => uint_digits d
  | Decimal.Neg d => 45%N :: uint_digits d
  end.

Definition hex_digit (n : N) : N :=
  if (n <? 10)%N then (48 + n)%N else (87 + n)%N.

(** [\uXXXX] with lower-case hexadecimal digits. *)
Definition unicode_escape (c : N) : ustring :=
  [92%N; 117%N;
   hex_digit (N.shiftr c 12 mod 16); hex_digit (N.shiftr c 8 mod 16);
   hex_digit (N.shiftr c 4 mod 16); hex_digit (c mod 16)].

(** One code point of a quoted JSON string (QuoteJSONString). *)
Definition quote_char (c : N) : ustring :=
  if (c =? 8)%N then u "\b"
  else if (c =? 9)%N then u "\t"
  else if (c =? 10)%N then u "\n"
  else if (c =? 12)%N then u "\f"
  else if (c =? 13)%N then u "\r"
  else if (c =? 34)%N then [92%N; 34%N]
  else if (c =? 92)%N then [92%N; 92%N]
  else if (c <? 32)%N then unicode_escape c
  else if ((55296 <=? c) && (c <=? 57343))%N then unicode_escape c
  else [c].

Definition quote (s : ustring) : ustring :=
  34%N :: List.concat (List.map quote_char s) ++ [34%N].

Fixpoint join (sep : ustring) (l : list ustring) : ustring :=
  match l with
  | [] => []
  | [x] => x
  | x :: l' => x ++ sep ++ join sep l'
  end.

Section Stringify.
Context `{JsBuiltins}.

(** [JSON.stringify(v)]; [None] is the result [undefined].  A property
    whose value serialises to undefined is left out, and such an array
    element is written [null]. *)
Fixpoint stringify (v : jsval) : option ustring :=
  match v with
  | JUndefined => None
  | JNull => Some (u "null")
  | JBool true => Some (u "true")
  | JBool false => Some (u "false")
  | JNum n => Some (number_to_string n)
  | JStr s => Some (quote s)
  | JDate t => Some (quote (toISOString t))
  | JArr l =>
      Some (u "[" ++
            join (u ",") (List.map (fun x => default (u "null") (stringify x)) l) ++
            u "]")
  | JObj props =>
      Some (u "{" ++
            join (u ",")
              (List.concat
                 (List.map (fun p =>
                    match stringify (snd p) with
                    | Some s => [quote (fst p) ++ u ":" ++ s]
                    | None => []
                    end) props)) ++
            u "}")
  end.
End Stringify.

(** ** Exceptions and outcomes *)

Inductive exn : Type :=
  | HttpError (status : option Z)   (* [error.response?.status] *)
  | TypeError                       (* a call on a value that lacks the method *)
  | DbError (sqlstate : string).    (* a statement rejected by the database *)

Inductive outcome (A : Type) : Type :=
  | Ok (a : A)
  | Throw (e : exn).
Arguments Ok {A} a.
Arguments Throw {A} e.

(** * The remote client (services/clickup.js) *)

(** What the retry loop does, in order. *)
Inductive event : Type :=
  | Attempt (i : nat)     (* the call [fn()] of iteration [i] *)
  | Sleep (ms : Z).       (* [setTimeout(resolve, ms)] *)

(** [error.response?.status === 502 || error.response?.status === 429] *)
Definition transient (e : exn) : bool :=
  match e with
  | HttpError (Some st) => (st =? 502) || (st =? 429)
  | _ => false
  end.

(** The body of [for (let i = 0; i < retries; i++)], with [todo] iterations
    left.  [fn i] is the outcome of the call made in iteration [i]; when the
    loop runs out the function returns undefined ([Ok None]). *)
Fixpoint retry_loop {A} (fn : nat -> outcome A) (retries : nat) (delay : Z)
    (todo i : nat) : outcome (option A) * list event :=
  match todo with
  | O => (Ok None, [])
  | S todo' =>
      match fn i with
      | Ok r => (Ok (Some r), [Attempt i])
      | Throw error =>
          if transient error && (Z.of_nat i <? Z.of_nat retries - 1) then
            let '(res, evs) := retry_loop fn retries delay todo' (S i) in
            (res, Attempt i :: Sleep (delay * (Z.of_nat i + 1)) :: evs)
          else (Throw error, [Attempt i])
      end
  end.

Definition retryRequest {A} (fn : nat -> outcome A) (retries : nat) (delay : Z)
  : outcome (option A) * list event :=
  retry_loop fn retries delay retries 0.

(** The object [getTaskDetails] returns for a response body [data]. *)
Definition normalizeTaskDetails (data : list (ustring * jsval)) : jsval :=
  let d := JObj data in
  let custom_type := get d "custom_type" in
  JObj
    (obj_set (u "custom_type")
       (if truthy custom_type
        then JObj [(u "id", get custom_type "id");
                   (u "name", get custom_type "name");
                   (u "color", get custom_type "color")]
        else JNull)
    (obj_set (u "parent") (js_or (get d "parent") JNull)
    (obj_set (u "custom_fields") (js_or (get d "custom_fields") (JArr []))
       data))).

(** [getTaskDetails(taskId)], against an endpoint whose [i]-th GET answers
    [endpoint i] (the body of a 2xx response, or the rejection).  An error is
    logged and thrown again. *)
Definition getTaskDetails (endpoint : nat -> outcome (list (ustring * jsval)))
  : outcome jsval * list event :=
  match retryRequest endpoint 3 2000 with
  | (Ok (Some data), evs) => (Ok (normalizeTaskDetails data), evs)
  | (Ok None, evs) => (Throw TypeError, evs)      (* [response.status] of undefined *)
  | (Throw error, evs) => (Throw error, evs)
  end.

(** * The field catalog and name mapper (services/sync.js) *)

(** The code points removed by the name-cleaning expression
    [/[\u{1F300}-\u{1F9FF}]|[\u{1F600}-\u{1F64F}]|[\u{1F680}-\u{1F6FF}]|
      [\u{2600}-\u{26FF}]|[\u{2700}-\u{27BF}]|[\u{1F900}-\u{1F9FF}]|
      [\u{1F1E0}-\u{1F1FF}]/gu]. *)
Definition decorative (c : N) : bool :=
  ((127744 <=? c) && (c <=? 129535)       (* 1F300-1F9FF *)
   || (128512 <=? c) && (c <=? 128591)    (* 1F600-1F64F *)
   || (128640 <=? c) && (c <=? 128767)    (* 1F680-1F6FF *)
   || (9728 <=? c) && (c <=? 9983)        (* 2600-26FF *)
   || (9984 <=? c) && (c <=? 10175)       (* 2700-27BF *)
   || (129280 <=? c) && (c <=? 129535)    (* 1F900-1F9FF *)
   || (127456 <=? c) && (c <=? 127487))%N (* 1F1E0-1F1FF *).

(** White space and line terminators, as [String.prototype.trim] sees them. *)
Definition is_space (c : N) : bool :=
  ((9 <=? c) && (c <=? 13) || (c =? 32) || (c =? 160) || (c =? 5760)
   || (8192 <=? c) && (c <=? 8202) || (c =? 8232) || (c =? 8233)
   || (c =? 8239) || (c =? 8287) || (c =? 12288) || (c =? 65279))%N.

Fixpoint trim_start (s : ustring) : ustring :=
  match s with
  | c :: s' => if is_space c then trim_start s' else s
  | [] => []
  end.

Definition trim (s : ustring) : ustring :=
  List.rev (trim_start (List.rev (trim_start s))).

(** [field.name.replace(/.../gu, '').trim()] *)
Definition clean_name (raw : ustring) : ustring :=
  trim (List.filter (fun c => negb (decorative c)) raw).

(** An entry of the [fieldMap] table. *)
Record field_mapping : Type := {
  column : option ustring;
  type : ustring;
  transform : jsval -> option jsval   (* [None]: the transform throws *)
}.

(** What [mapFieldName] returns: [{name, type, transform}]. *)
Record mapped_field : Type := {
  m_name : ustring;
  m_type : option ustring;
  m_transform : option (jsval -> option jsval)
}.

(** The members every object literal inherits from [Object.prototype];
    [fieldMap[cleanName]] finds them as well. *)
Definition object_prototype_keys : list ustring :=
  List.map u
    ["constructor"; "__defineGetter__"; "__defineSetter__"; "hasOwnProperty";
     "__lookupGetter__"; "__lookupSetter__"; "isPrototypeOf";
     "propertyIsEnumerable"; "toString"; "valueOf"; "__proto__";
     "toLocaleString"]%string.

(** [obj[k] = v] on a plain object used as a map: the key [__proto__] sets
    the prototype and creates no own property. *)
Definition obj_assign (k : ustring) (v : jsval) (m : gmap ustring jsval)
  : gmap ustring jsval :=
  if decide (k = u "__proto__") then m else <[k := v]> m.

(** The property key an object is converted to: [String({...})]. *)
Definition object_property_key : ustring := u "[object Object]".

Section Mapper.
Context `{JsBuiltins}.

Definition text_transform (value : jsval) : option jsval := js_String value.
Definition timestamp_transform (value : jsval) : option jsval :=
  Some (if truthy value then js_new_Date value else JNull).
Definition decimal_transform (value : jsval) : option jsval :=
  Some (match value with JNum _ => value | _ => JNull end).
Definition integer_transform (value : jsval) : option jsval :=
  js_parseInt10 value.

Definition promoted (col ty : string) (f : jsval -> option jsval) : field_mapping :=
  {| column := Some (u col); type := u ty; transform := f |}.
Definition bagged (ty : string) (f : jsval -> option jsval) : field_mapping :=
  {| column := None; type := u ty; transform := f |}.

Definition fieldMap : list (ustring * field_mapping) :=
  [ (u "Status Updates", promoted "status_updates" "text" text_transform);
    (u "Client", promoted "client" "text" text_transform);
    (u "Start Job!", promoted "start_job" "timestamp" timestamp_transform);
    (u "Est. Revenue", promoted "est_revenue" "decimal" decimal_transform);
    (u "Est. Cost", promoted "est_cost" "decimal" decimal_transform);
    (u "Reason for Closed", promoted "reason_for_closed" "text" text_transform);
    (u "Job Name", promoted "job_name" "text" text_transform);
    (u "Milestone Date", promoted "milestone_date" "timestamp" timestamp_transform);
    (u "Hours per Day", promoted "hours_per_day" "integer" integer_transform);
    (u "Expected Revenue", bagged "decimal" decimal_transform);
    (u "Current Fee", bagged "decimal" decimal_transform);
    (u "Fee", bagged "decimal" decimal_transform);
    (u "Time Left", bagged "text" text_transform);
    (u "Estimated Fee", bagged "decimal" decimal_transform);
    (u "Update Email", bagged "text" text_transform);
    (u "Job Budget", bagged "decimal" decimal_transform) ].

Fixpoint lookup_mapping (k : ustring) (l : list (ustring * field_mapping))
  : option field_mapping :=
  match l with
  | [] => None
  | (k', m) :: l' => if decide (k = k') then Some m else lookup_mapping k l'
  end.

(** [mapFieldName(cleanName)] *)
Definition mapFieldName (cleanName : ustring) : option mapped_field :=
  match lookup_mapping cleanName fieldMap with
  | Some mapping =>
      Some {| m_name := match column mapping with
                        | Some c => match c with [] => cleanName | _ => c end
                        | None => cleanName
                        end;
              m_type := Some (type mapping);
              m_transform := Some (transform mapping) |}
  | None =>
      if decide (cleanName ∈ object_prototype_keys)
      then Some {| m_name := cleanName; m_type := None; m_transform := None |}
      else None
  end.

(** [normalizeFieldValue(field, mapping)]; a missing argument is [None]. *)
Definition normalizeFieldValue (field : jsval) (mapping : option mapped_field)
  : jsval :=
  match mapping with
  | None => JNull
  | Some m =>
      match m_transform m with
      | None => JNull
      | Some f =>
          match f (get field "value") with
          | Some v => v
          | None => JNull        (* caught and logged *)
          end
      end
  end.
End Mapper.

(** * Storage (db/index.js and the migrations)

    A cell holds what the statement assigned to the column; SQL NULL is the
    absence of the column from the row.  Of the schema the model keeps the
    primary keys, the NOT NULL columns of [task_types] and the foreign key
    [clickup_task.task_type_id REFERENCES task_types(id)] that the migration
    adds; the types of the columns are not modelled. *)

Inductive cell : Type :=
  | CVal (v : jsval)     (* a non-null query parameter, as handed to the driver *)
  | CJson (v : jsval)    (* the document [JSON.stringify(v)] *)
  | CTime (t : Z).       (* [CURRENT_TIMESTAMP] *)

(** An appended [field_changes] record; the values are the JSON texts, NULL
    when [JSON.stringify] gave undefined. *)
Record change : Type := {
  task_id : ustring;
  field_name : string;
  old_value : option ustring;
  new_value : option ustring
}.

Record db : Type := {
  clickup_task : gmap ustring (gmap string cell);
  task_types : gmap ustring (gmap string cell);
  field_changes : list change
}.

Definition with_tasks (s : db) (t : gmap ustring (gmap string cell)) : db :=
  {| clickup_task := t; task_types := task_types s;
     field_changes := field_changes s |}.
Definition with_types (s : db) (t : gmap ustring (gmap string cell)) : db :=
  {| clickup_task := clickup_task s; task_types := t;
     field_changes := field_changes s |}.

(** A query parameter: null and undefined are sent as NULL. *)
Definition param (v : jsval) : option cell :=
  if nullish v then None else Some (CVal v).

(** [SET c = o] *)
Definition set_col (c : string) (o : option cell) (r : gmap string cell)
  : gmap string cell :=
  match o with
  | Some x => <[c := x]> r
  | None => delete c r
  end.

(** [SET c = COALESCE(o, c)] *)
Definition coalesce_col (c : string) (o : option cell) (r : gmap string cell)
  : gmap string cell :=
  match o with
  | Some x => <[c := x]> r
  | None => r
  end.

(** The row an INSERT builds from its column list; the columns it does not
    name are NULL. *)
Definition make_row (l : list (string * option cell)) : gmap string cell :=
  List.fold_right (fun p r => set_col (fst p) (snd p) r) ∅ l.


(** ** A state-and-exception monad for the storage operations *)

Definition M (A : Type) : Type := db -> outcome A * db.

Definition ret {A} (a : A) : M A := fun s => (Ok a, s).
Definition bind {A B} (m : M A) (k : A -> M B) : M B :=
  fun s =>
    match m s with
    | (Ok a, s') => k a s'
    | (Throw e, s') => (Throw e, s')
    end.
Definition lift {A} (o : outcome A) : M A := fun s => (o, s).
Definition read {A} (f : db -> A) : M A := fun s => (Ok (f s), s).
Definition write (f : db -> db) : M unit := fun s => (Ok tt, f s).

Notation "'let*' x ':=' m 'in' k" := (bind m (fun x => k))
  (at level 10, x name, m at level 100, k at level 200, only parsing).

(** [BEGIN; ...; COMMIT], with [ROLLBACK] in the [catch] block: an exception
    restores the state the transaction started from and is thrown again. *)
Definition transaction {A} (m : M A) : M A :=
  fun s =>
    match m s with
    | (Ok a, s') => (Ok a, s')
    | (Throw e, _) => (Throw e, s)
    end.

(** [for (const x of l) { await f(x) }] *)
Fixpoint for_each {A} (f : A -> M unit) (l : list A) : M unit :=
  match l with
  | [] => ret tt
  | x :: l' => let* _ := f x in for_each f l'
  end.

(** ** The environment of one invocation *)

Record env : Type := {
  (** the successive answers of [GET /task/:id] *)
  task_endpoint : nat -> outcome (list (ustring * jsval));
  (** the answer of [GET /workspace/:id/task_type] *)
  task_type_endpoint : outcome (list (ustring * jsval));
  (** [config.clickup.workspaceId] *)
  workspaceId : jsval;
  (** the instant read by [new Date()] and [CURRENT_TIMESTAMP] *)
  now : Z;
  (** another writer deletes the task row after [getTaskById] has seen it
      and before the field-data UPDATE runs *)
  row_vanishes : bool
}.

Section Service.
Context `{JsBuiltins}.

(** The text the driver sends for a parameter of a TEXT column; NULL for
    null and undefined.  (Type identifiers are strings or numbers; for
    the sake of totality a date is rendered by [toISOString] and an
    array or object by [JSON.stringify].) *)
Definition pg_text (v : jsval) : option ustring :=
  match v with
  | JUndefined | JNull => None
  | JStr s => Some s
  | JBool true => Some (u "true")
  | JBool false => Some (u "false")
  | JNum n => Some (number_to_string n)
  | JDate t => Some (toISOString t)
  | JArr _ | JObj _ => stringify v
  end.

(** *** db/index.js *)

(** [checkTaskExists(taskId)] *)
Definition checkTaskExists (taskId : ustring) (s : db) : bool :=
  bool_decide (is_Some (clickup_task s !! taskId)).

(** [getTaskById(taskId)]: [rows[0] || null] *)
Definition getTaskById (taskId : ustring) (s : db) : option (gmap string cell) :=
  clickup_task s !! taskId.

(** [INSERT INTO clickup_task ... RETURNING *]; the primary key rejects a
    second row with the same id. *)
Definition insert_task (taskId : ustring) (r : gmap string cell)
  : M (gmap string cell) :=
  fun s =>
    match clickup_task s !! taskId with
    | Some _ => (Throw (DbError "23505"), s)
    | None => (Ok r, with_tasks s (<[taskId := r]> (clickup_task s)))
    end.

(** The [fieldData] object handed to [updateTaskCustomFields]. *)
Record FieldData : Type := {
  customFields : gmap ustring jsval;
  relationships : jsval;
  fieldValues : gmap ustring jsval;
  fd_name : jsval;
  fd_status : jsval;
  fd_description : jsval
}.

(** A plain object used as a map, as a JSON document. *)
Definition doc (m : gmap ustring jsval) : jsval := JObj (map_to_list m).

(** The SET clause of the field-data UPDATE, applied to the row found. *)
Definition apply_field_update (t : Z) (fieldData : FieldData)
    (r : gmap string cell) : gmap string cell :=
  set_col "updated_at" (Some (CTime t))
  (set_col "_airbyte_extracted_at" (Some (CTime t))
  (set_col "date_updated" (Some (CTime t))
  (coalesce_col "description" (param (fd_description fieldData))
  (coalesce_col "name" (param (fd_name fieldData))
  (coalesce_col "status" (param (fd_status fieldData))
  (set_col "field_values" (Some (CJson (doc (fieldValues fieldData))))
  (set_col "relationships" (Some (CJson (relationships fieldData)))
  (set_col "custom_fields" (Some (CJson (doc (customFields fieldData))))
     r)))))))).

(** [updateTaskCustomFields(taskId, fieldData)]: when no row matches,
    ROLLBACK and return null; otherwise COMMIT and return the row. *)
Definition updateTaskCustomFields (t : Z) (taskId : ustring)
    (fieldData : FieldData) : M (option (gmap string cell)) :=
  fun s =>
    match clickup_task s !! taskId with
    | None => (Ok None, s)
    | Some r =>
        let r' := apply_field_update t fieldData r in
        (Ok (Some r'), with_tasks s (<[taskId := r']> (clickup_task s)))
    end.



(** *** services/taskTypeSync.js *)

(** [getCustomTaskTypes(workspaceId)]: [response.data.task_types || []] *)
Definition getCustomTaskTypes (endpoint : outcome (list (ustring * jsval)))
  : outcome jsval :=
  match endpoint with
  | Ok data => Ok (js_or (get (JObj data) "task_types") (JArr []))
  | Throw e => Throw e
  end.

(** The values [for (const type of types)] visits. *)
Definition iterate (types : jsval) : outcome (list jsval) :=
  match types with
  | JArr l => Ok l
  | JStr s => Ok (List.map (fun c => JStr [c]) s)
  | _ => Throw TypeError
  end.

(** The key and the row written by the upsert of one type; [id], [name]
    and [workspace_id] are NOT NULL. *)
Definition type_row (e : env) (type : jsval)
  : outcome (ustring * gmap string cell) :=
  if nullish type then Throw TypeError
  else
    match pg_text (get type "id"), param (get type "name"),
          param (workspaceId e) with
    | Some k, Some n, Some w =>
        Ok (k, make_row
                 [ ("id", Some (CVal (JStr k)));
                   ("name", Some n);
                   ("color", param (js_or (get type "color") JNull));
                   ("status", param (js_or (get type "status") (JStr (u "active"))));
                   ("orderindex", param (js_or (get type "orderindex") (JNum 0)));
                   ("workspace_id", Some w);
                   ("updated_at", Some (CTime (now e))) ]%string)
    | _, _, _ => Throw (DbError "23502")
    end.

(** [INSERT INTO task_types ... ON CONFLICT (id) DO UPDATE SET ...]: every
    column but the key is overwritten. *)
Definition upsert_type (e : env) (type : jsval) : M unit :=
  let* kr := lift (type_row e type) in
  write (fun s => with_types s (<[fst kr := snd kr]> (task_types s))).

(** The type a task row points to ([task_type_id REFERENCES task_types(id)]). *)
Definition type_ref (r : gmap string cell) : option ustring :=
  match r !! "task_type_id"%string with
  | Some (CVal v) => pg_text v
  | _ => None
  end.

Definition references (doomed : gmap ustring (gmap string cell))
    (r : gmap string cell) : Prop :=
  match type_ref r with
  | Some k => is_Some (doomed !! k)
  | None => False
  end.

#[global] Instance references_dec doomed r : Decision (references doomed r).
Proof. unfold references. destruct (type_ref r); apply _. Defined.

(** [DELETE FROM task_types WHERE id NOT IN (...)]; the foreign key of
    [clickup_task.task_type_id] rejects the deletion of a type that a task
    row still points to. *)
Definition delete_types_not_in (keys : list ustring) : M unit :=
  fun s =>
    let doomed := filter (fun kv => fst kv ∉ keys) (task_types s) in
    if decide (map_Exists (fun _ r => references doomed r) (clickup_task s))
    then (Throw (DbError "23503"), s)
    else (Ok tt, with_types s (filter (fun kv => fst kv ∈ keys) (task_types s))).

(** [syncTaskTypes()] *)
Definition syncTaskTypes (e : env) : M jsval :=
  transaction (
    let* types := lift (getCustomTaskTypes (task_type_endpoint e)) in
    let* l := lift (iterate types) in
    let* _ := for_each (upsert_type e) l in
    let typeIds := omap (fun t => pg_text (get t "id")) l in
    let* _ := (if (0 <? length l)%nat then delete_types_not_in typeIds
               else ret tt) in
    ret types).

(** [updateTaskTypeRelationships(taskId, typeId)]: the type name is looked
    up by id; the foreign key rejects an id that is not in [task_types]. *)
Definition updateTaskTypeRelationships (taskId : ustring) (typeId : jsval)
  : M (option (gmap string cell)) :=
  transaction (fun s =>
    match clickup_task s !! taskId with
    | None => (Ok None, s)
    | Some r =>
        match pg_text typeId with
        | None =>
            let r' := delete "task_type_name"%string
                        (delete "task_type_id"%string r) in
            (Ok (Some r'), with_tasks s (<[taskId := r']> (clickup_task s)))
        | Some k =>
            match task_types s !! k with
            | None => (Throw (DbError "23503"), s)
            | Some ty =>
                let r' := set_col "task_type_name" (ty !! "name"%string)
                            (set_col "task_type_id" (Some (CVal (JStr k))) r) in
                (Ok (Some r'), with_tasks s (<[taskId := r']> (clickup_task s)))
            end
        end
    end).
(** *** services/sync.js *)

(** The row of the placeholder INSERT. *)
Definition placeholderRow (e : env) (taskId : ustring) (taskDetails : jsval)
  : gmap string cell :=
  make_row
    [ ("id", param (JStr taskId));
      ("_airbyte_raw_id", param (JStr (u "manual_" ++ taskId)));
      ("_airbyte_extracted_at", param (JStr (toISOString (now e))));
      ("name", param (get taskDetails "name"));
      ("text_content", param (get taskDetails "text_content"));
      ("description", param (get taskDetails "description"));
      ("status", param (get taskDetails "status"));
      ("date_created",
        param (if truthy (get taskDetails "date_created")
               then js_new_Date (get taskDetails "date_created") else JNull));
      ("date_updated",
        param (if truthy (get taskDetails "date_updated")
               then js_new_Date (get taskDetails "date_updated") else JNull));
      ("creator", Some (CJson (js_or (get taskDetails "creator") (JObj []))));
      ("custom_fields", Some (CJson (JObj [])));
      ("relationships", Some (CJson (JObj [])));
      ("field_values", Some (CJson (JObj [])));
      ("custom_type", Some (CJson (js_or (get taskDetails "custom_type") (JObj []))));
      ("updated_at", Some (CTime (now e))) ]%string.

(** The argument of the "Custom fields received" log line,
    [taskDetails.custom_fields?.map(f => ({name: f.name, ...}))]: it
    throws when the value has no [map] method or an element is null or
    undefined. *)
Definition log_custom_fields (custom_fields : jsval) : outcome unit :=
  match custom_fields with
  | JUndefined | JNull => Ok tt
  | JArr l => if forallb (fun f => negb (nullish f)) l then Ok tt
              else Throw TypeError
  | _ => Throw TypeError
  end.

(** [fieldData] as first built, before the fields are processed. *)
Definition initialFieldData (taskDetails : jsval) : FieldData :=
  {| customFields := ∅;
     relationships :=
       JObj [ (u "parent_id", get taskDetails "parent");
              (u "custom_type",
                js_or (get_opt (get taskDetails "custom_type") "name") JNull) ];
     fieldValues := ∅;
     fd_name := get taskDetails "name";
     fd_status :=
       js_or (get_opt (get taskDetails "status") "status")
             (get taskDetails "status");
     fd_description := get taskDetails "description" |}.

Definition set_customFields (fd : FieldData) (m : gmap ustring jsval) : FieldData :=
  {| customFields := m; relationships := relationships fd;
     fieldValues := fieldValues fd; fd_name := fd_name fd;
     fd_status := fd_status fd; fd_description := fd_description fd |}.
Definition set_fieldValues (fd : FieldData) (m : gmap ustring jsval) : FieldData :=
  {| customFields := customFields fd; relationships := relationships fd;
     fieldValues := m; fd_name := fd_name fd;
     fd_status := fd_status fd; fd_description := fd_description fd |}.

(** One iteration of [for (const field of taskDetails.custom_fields)]. *)
Definition processField (e : env) (fieldData : FieldData) (field : jsval)
  : outcome FieldData :=
  if negb (truthy field) || negb (truthy (get field "name")) then Ok fieldData
  else
    match get field "name" with
    | JStr raw =>
        let cleanName := clean_name raw in
        let fieldData1 :=
          set_customFields fieldData
            (obj_assign cleanName
               (JObj [ (u "id", get field "id");
                       (u "type", get field "type");
                       (u "config", js_or (get field "type_config") (JObj []));
                       (u "original_name", get field "name") ])
               (customFields fieldData)) in
        if negb (nullish (get field "value")) then
          let normalizedValue := normalizeFieldValue field None in
          match normalizedValue with
          | JNull => Ok fieldData1
          | _ =>
              match mapFieldName cleanName with
              | Some mappedField =>
                  Ok (set_fieldValues fieldData1
                        (obj_assign object_property_key
                           (JObj [ (u "value", normalizedValue);
                                   (u "updated_at", JStr (toISOString (now e)));
                                   (u "field_id", get field "id");
                                   (u "original_name", get field "name") ])
                           (fieldValues fieldData1)))
              | None => Ok fieldData1
              end
          end
        else Ok fieldData1
    | _ => Throw TypeError       (* [field.name.replace] is not a function *)
    end.

Fixpoint processFields (e : env) (fieldData : FieldData) (fields : list jsval)
  : outcome FieldData :=
  match fields with
  | [] => Ok fieldData
  | field :: rest =>
      match processField e fieldData field with
      | Ok fieldData' => processFields e fieldData' rest
      | Throw ex => Throw ex
      end
  end.

(** Lines 124-178: the field data of a task.  A value that is not an
    array is left alone. *)
Definition buildFieldData (e : env) (taskDetails : jsval) : outcome FieldData :=
  match get taskDetails "custom_fields" with
  | JArr fields => processFields e (initialFieldData taskDetails) fields
  | _ => Ok (initialFieldData taskDetails)
  end.

(** The result object of [syncTaskCustomFields]. *)
Inductive failure : Type :=
  | TaskNotFoundInClickUp
  | FailedToCreateOrFindTask
  | Caught (ex : exn).

Inductive sync_result : Type :=
  | Success (task : option (gmap string cell))   (* [{success: true, task}] *)
  | Failed (error : failure).                    (* [{success: false, error}] *)

Definition success (r : sync_result) : bool :=
  match r with Success _ => true | Failed _ => false end.

(** The deletion by another writer that [row_vanishes] announces. *)
Definition interference (e : env) (taskId : ustring) : M unit :=
  write (fun s =>
    if row_vanishes e then with_tasks s (delete taskId (clickup_task s))
    else s).

(** Lines 33-88: the existence check and the placeholder INSERT. *)
Definition ensureTaskRow (e : env) (taskId : ustring) (taskDetails : jsval)
  : M unit :=
  let* taskExists := read (checkTaskExists taskId) in
  if taskExists : bool then ret tt
  else let* _ := insert_task taskId (placeholderRow e taskId taskDetails) in
       ret tt.

(** Lines 102-202: everything after the row has been verified. *)
Definition syncVerifiedTask (e : env) (taskId : ustring) (taskDetails : jsval)
  : M sync_result :=
  let* _ := syncTaskTypes e in
  let* _ := (if truthy (get_opt (get taskDetails "custom_type") "id")
             then let* _ := updateTaskTypeRelationships taskId
                              (get (get taskDetails "custom_type") "id") in
                  ret tt
             else ret tt) in
  let* _ := lift (log_custom_fields (get taskDetails "custom_fields")) in
  let* fieldData := lift (buildFieldData e taskDetails) in
  let* _ := interference e taskId in
  let* updatedTask := updateTaskCustomFields (now e) taskId fieldData in
  ret (Success updatedTask).

(** The [try] block of [syncTaskCustomFields]. *)
Definition syncTaskBody (e : env) (taskId : ustring) : M sync_result :=
  let* taskDetails := lift (fst (getTaskDetails (task_endpoint e))) in
  if negb (truthy taskDetails) then ret (Failed TaskNotFoundInClickUp)
  else
    let* _ := ensureTaskRow e taskId taskDetails in
    let* verifyTask := read (getTaskById taskId) in
    match verifyTask with
    | None => ret (Failed FailedToCreateOrFindTask)
    | Some _ => syncVerifiedTask e taskId taskDetails
    end.

(** [syncTaskCustomFields(taskId)]: whatever is thrown is caught and
    reported as a failure; what was committed before stays committed. *)
Definition syncTaskCustomFields (e : env) (taskId : ustring) (s : db)
  : sync_result * db :=
  match syncTaskBody e taskId s with
  | (Ok r, s') => (r, s')
  | (Throw ex, s') => (Failed (Caught ex), s')
  end.
(** *** db/index.js, continued: the relationship updater *)

(** [SELECT id FROM task_types WHERE name = $3 LIMIT 1]; of several
    types with that name the first in storage order is taken. *)
Definition type_id_by_name (types : gmap ustring (gmap string cell))
    (name : jsval) : option cell :=
  match pg_text name with
  | None => None
  | Some n =>
      match List.find
              (fun kr => match snd kr !! "name"%string with
                         | Some (CVal v) => bool_decide (pg_text v = Some n)
                         | _ => false
                         end)
              (map_to_list types) with
      | Some kr => Some (CVal (JStr (fst kr)))
      | None => None
      end
  end.

(** [updateTaskRelationships(taskId, relationships)]: a parent that has
    no row is replaced by null before the UPDATE. *)
Definition updateTaskRelationships (t : Z) (taskId : ustring)
    (relationships : jsval) : M (option (gmap string cell)) :=
  fun s =>
    match clickup_task s !! taskId with
    | None => (Ok None, s)
    | Some r =>
        let parent_id := get relationships "parent_id" in
        let parent_id' :=
          if truthy parent_id then
            match pg_text parent_id ≫= (fun k => clickup_task s !! k) with
            | Some _ => parent_id
            | None => JNull
            end
          else parent_id in
        let r' :=
          set_col "updated_at" (Some (CTime t))
          (set_col "task_type_id"
             (type_id_by_name (task_types s) (get relationships "custom_type"))
          (set_col "parent_id" (param parent_id') r)) in
        (Ok (Some r'), with_tasks s (<[taskId := r']> (clickup_task s)))
    end.

(** ** The operations the service exports *)

Inductive operation : Type :=
  | OpSyncTaskCustomFields (taskId : ustring)
  | OpSyncTaskTypes
  | OpUpdateTaskTypeRelationships (taskId : ustring) (typeId : jsval)
  | OpUpdateTaskCustomFields (taskId : ustring) (fieldData : FieldData)
  | OpUpdateTaskRelationships (taskId : ustring) (relationships : jsval).

(** The storage an operation leaves behind. *)
Definition run (e : env) (op : operation) (s : db) : db :=
  match op with
  | OpSyncTaskCustomFields taskId => snd (syncTaskCustomFields e taskId s)
  | OpSyncTaskTypes => snd (syncTaskTypes e s)
  | OpUpdateTaskTypeRelationships taskId typeId =>
      snd (updateTaskTypeRelationships taskId typeId s)
  | OpUpdateTaskCustomFields taskId fieldData =>
      snd (updateTaskCustomFields (now e) taskId fieldData s)
  | OpUpdateTaskRelationships taskId relationships =>
      snd (updateTaskRelationships (now e) taskId relationships s)
  end.

(** ** Notions used by the statements *)

(** The same upstream and configuration, observed at another instant. *)
Definition at_time (e : env) (t : Z) : env :=
  {| task_endpoint := task_endpoint e;
     task_type_endpoint := task_type_endpoint e;
     workspaceId := workspaceId e;
     now := t;
     row_vanishes := row_vanishes e |}.

(** A column of the row of a task; [None] when the row is absent or the
    column is NULL. *)
Definition stored (s : db) (taskId : ustring) (c : string) : option cell :=
  clickup_task s !! taskId ≫= (fun r => r !! c).

(** The three structured maps of a task, as stored. *)
Definition stored_maps (s : db) (taskId : ustring)
  : option cell * option cell * option cell :=
  (stored s taskId "custom_fields", stored s taskId "relationships",
   stored s taskId "field_values").

(** The table a refresh builds from the fetched definitions alone. *)
Definition catalog (e : env) (l : list jsval) : gmap ustring (gmap string cell) :=
  List.fold_left
    (fun m t => match type_row e t with
                | Ok kr => <[fst kr := snd kr]> m
                | Throw _ => m
                end)
    l ∅.
End Service.


(** ** A runtime for the examples

    Exact on strings and integers, arbitrary elsewhere; the theorems hold
    for every runtime. *)
Definition sample_runtime : JsBuiltins :=
  {| js_String v :=
       Some (match v with
             | JStr _ => v
             | JNum n => JStr (number_to_string n)
             | JBool true => JStr (u "true")
             | JBool false => JStr (u "false")
             | JNull => JStr (u "null")
             | JUndefined => JStr (u "undefined")
             | JDate t => JStr (number_to_string t)
             | JArr _ => JStr []
             | JObj _ => JStr (u "[object Object]")
             end);
     js_new_Date v := match v with JNum n => JDate n | JDate t => v | _ => JDate 0 end;
     js_parseInt10 v := Some (match v with JNum _ => v | _ => JNum 0 end);
     toISOString t := number_to_string t |}.

(** * Notions used by the proofs *)

(** The events of a run whose first [n] attempts fail transiently, from
    iteration [i] on. *)
Fixpoint attempts_from (delay : Z) (i n : nat) : list event :=
  match n with
  | O => [Attempt i]
  | S n' =>
      Attempt i :: Sleep (delay * (Z.of_nat i + 1)) :: attempts_from delay (S i) n'
  end.

Definition promote {A} (o : outcome A) : outcome (option A) :=
  match o with Ok a => Ok (Some a) | Throw e => Throw e end.

Section Notions.
Context `{JsBuiltins}.

(** The storage after the existence check and the placeholder INSERT. *)
Definition ensured (e : env) (taskId : ustring) (taskDetails : jsval) (s : db) : db :=
  match clickup_task s !! taskId with
  | Some _ => s
  | None =>
      with_tasks s (<[taskId := placeholderRow e taskId taskDetails]> (clickup_task s))
  end.

(** The keys and rows of all the upserts of a refresh, or the first error. *)
Fixpoint type_rows (e : env) (l : list jsval)
  : outcome (list (ustring * gmap string cell)) :=
  match l with
  | [] => Ok []
  | t :: l' =>
      match type_row e t with
      | Ok kr => match type_rows e l' with
                 | Ok krs => Ok (kr :: krs)
                 | Throw ex => Throw ex
                 end
      | Throw ex => Throw ex
      end
  end.

Definition upserted (krs : list (ustring * gmap string cell))
    (T : gmap ustring (gmap string cell)) : gmap ustring (gmap string cell) :=
  List.fold_left (fun m kr => <[fst kr := snd kr]> m) krs T.

(** [types.map(t => t.id)], as sent to the database. *)
Definition type_keys (l : list jsval) : list ustring :=
  omap (fun t => pg_text (get t "id")) l.

(** A catalog refresh in closed form. *)
Definition refreshed (e : env) (s : db) : outcome jsval * db :=
  match getCustomTaskTypes (task_type_endpoint e) with
  | Throw ex => (Throw ex, s)
  | Ok types =>
      match iterate types with
      | Throw ex => (Throw ex, s)
      | Ok l =>
          match type_rows e l with
          | Throw ex => (Throw ex, s)
          | Ok krs =>
              let T1 := upserted krs (task_types s) in
              if (0 <? length l)%nat then
                if decide (map_Exists
                             (fun _ r => references
                                (filter (fun kv => fst kv ∉ type_keys l) T1) r)
                             (clickup_task s))
                then (Throw (DbError "23503"), s)
                else (Ok types,
                      with_types s (filter (fun kv => fst kv ∈ type_keys l) T1))
              else (Ok types, with_types s T1)
          end
      end
  end.

(** The two columns the type linkage writes. *)
Definition link_row (x y : option cell) (r : gmap string cell) : gmap string cell :=
  set_col "task_type_name" x (set_col "task_type_id" y r).

Definition linkable (rs r0 : gmap string cell) : Prop :=
  r0 = rs \/ exists x y, r0 = link_row x y rs.

(** The type-linkage step of [syncVerifiedTask]. *)
Definition link_step (taskId : ustring) (d : jsval) : M unit :=
  if truthy (get_opt (get d "custom_type") "id")
  then bind (updateTaskTypeRelationships taskId (get (get d "custom_type") "id"))
            (fun _ => ret tt)
  else ret tt.

(** Whether the linkage passes the foreign key, given the types stored. *)
Definition link_ok (d : jsval) (T : gmap ustring (gmap string cell)) : bool :=
  if truthy (get_opt (get d "custom_type") "id") then
    match pg_text (get (get d "custom_type") "id") with
    | Some k => bool_decide (k ∈ dom T)
    | None => true
    end
  else true.

(** The field data of a task, unless the log line throws first. *)
Definition prepared (e : env) (d : jsval) : outcome FieldData :=
  match log_custom_fields (get d "custom_fields") with
  | Ok _ => buildFieldData e d
  | Throw ex => Throw ex
  end.

(** What follows the linkage: the log line, the field processing and the
    UPDATE. *)
Definition persist (e : env) (taskId : ustring) (d : jsval) : M sync_result :=
  bind (lift (log_custom_fields (get d "custom_fields"))) (fun _ =>
  bind (lift (buildFieldData e d)) (fun fieldData =>
  bind (interference e taskId) (fun _ =>
  bind (updateTaskCustomFields (now e) taskId fieldData) (fun updatedTask =>
  ret (Success updatedTask))))).

(** The operations that run the field-data UPDATE on the row of [id]. *)
Definition writes_fields (op : operation) (id : ustring) : Prop :=
  match op with
  | OpSyncTaskCustomFields taskId => taskId = id
  | OpUpdateTaskCustomFields taskId _ => taskId = id
  | _ => False
  end.
End Notions.

(** * Sample data *)

(** A custom field named "Client" followed by U+1F3AF, with a value. *)
Definition sample_field : jsval :=
  JObj [ (u "id", JStr (u "f1"));
         (u "name", JStr (u "Client " ++ [127919%N]));
         (u "type", JStr (u "text"));
         (u "value", JStr (u "Acme")) ].

Definition sample_body (name : jsval) : list (ustring * jsval) :=
  [ (u "id", JStr (u "t1"));
    (u "name", name);
    (u "status", JObj [(u "status", JStr (u "open"))]);
    (u "custom_fields", JArr [sample_field]) ].

Definition sample_env (name : jsval) (types : list jsval) (vanishes : bool) : env :=
  {| task_endpoint := fun _ => Ok (sample_body name);
     task_type_endpoint := Ok [(u "task_types", JArr types)];
     workspaceId := JStr (u "ws");
     now := 1000;
     row_vanishes := vanishes |}.

(** A task row as the importer left it. *)
Definition sample_row : gmap string cell :=
  make_row
    [ ("id", Some (CVal (JStr (u "t1"))));
      ("_airbyte_raw_id", Some (CVal (JStr (u "raw-1"))));
      ("_airbyte_extracted_at", Some (CTime 5));
      ("name", Some (CVal (JStr (u "Old"))));
      ("priority", Some (CJson (JObj [ (u "id", JStr (u "1"));
                                       (u "priority", JStr (u "urgent")) ]))) ]%string.


(** A type that is no longer in the remote catalog. *)
Definition stale_type : gmap string cell :=
  make_row
    [ ("id", Some (CVal (JStr (u "9"))));
      ("name", Some (CVal (JStr (u "Retired"))));
      ("workspace_id", Some (CVal (JStr (u "ws")))) ]%string.

Definition bug_type : jsval := JObj [(u "id", JNum 7); (u "name", JStr (u "Bug"))].

Definition sample_db : db :=
  {| clickup_task := {[ u "t1" := sample_row ]};
     task_types := {[ u "9" := stale_type ]};
     field_changes := [] |}.


(** * Further operations of the service *)

(** ** The listing calls of the remote client (services/clickup.js) *)

(** [getListTasks(listId)]: the same retry as the detail fetch; a final 502
    is turned into an empty list, every other error is thrown again. *)
Definition getListTasks (endpoint : nat -> outcome (list (ustring * jsval)))
  : outcome jsval * list event :=
  match retryRequest endpoint 3 2000 with
  | (Ok (Some data), evs) => (Ok (get (JObj data) "tasks"), evs)
  | (Ok None, evs) => (Throw TypeError, evs)      (* [response.data] of undefined *)
  | (Throw error, evs) =>
      match error with
      | HttpError (Some 502) => (Ok (JArr []), evs)
      | _ => (Throw error, evs)
      end
  end.

(** [getCustomFields(taskId)] *)
Definition getCustomFields (endpoint : nat -> outcome (list (ustring * jsval)))
  : outcome jsval * list event :=
  match getTaskDetails endpoint with
  | (Ok taskDetails, evs) =>
      (Ok (if negb (truthy taskDetails) then JArr []
           else js_or (get taskDetails "custom_fields") (JArr [])), evs)
  | (Throw error, evs) => (Throw error, evs)
  end.

(** What the pagination loop does, in order. *)
Inductive page_event : Type :=
  | Request (page : nat)   (* [GET /space/:id/task?page=...] *)
  | Pause (ms : Z).        (* the delay between two pages *)

(** [s.length]: the number of UTF-16 code units of a string. *)
Definition utf16_length (s : ustring) : nat :=
  List.fold_right (fun c n => ((if (65536 <=? c)%N then 2 else 1) + n)%nat) O s.

(** The values [...tasks] spreads and [tasks.length], for the values that
    can be iterated. *)
Definition spread (tasks : jsval) : outcome (list jsval * nat) :=
  match tasks with
  | JArr l => Ok (l, length l)
  | JStr s => Ok (List.map (fun c => JStr [c]) s, utf16_length s)
  | _ => Throw TypeError
  end.

(** The [while (hasMore)] loop of [getSpaceTasks], entered with [page] and
    [allTasks]; [fuel] bounds the number of iterations and [None] says that
    it did not suffice. *)
Fixpoint getSpaceTasks_loop (fuel : nat)
    (endpoint : nat -> outcome (list (ustring * jsval)))
    (page : nat) (allTasks : list jsval)
  : option (outcome (list jsval) * list page_event) :=
  match fuel with
  | O => None
  | S fuel' =>
      match endpoint page with
      | Throw error => Some (Throw error, [Request page])
      | Ok data =>
          match spread (get (JObj data) "tasks") with
          | Throw error => Some (Throw error, [Request page])
          | Ok (tasks, len) =>
              if (len =? 100)%nat then
                match getSpaceTasks_loop fuel' endpoint (S page) (allTasks ++ tasks) with
                | Some (res, evs) => Some (res, Request page :: Pause 200 :: evs)
                | None => None
                end
              else Some (Ok (allTasks ++ tasks), [Request page])
          end
      end
  end.

(** [getSpaceTasks(spaceId)] *)
Definition getSpaceTasks (fuel : nat)
    (endpoint : nat -> outcome (list (ustring * jsval)))
  : option (outcome (list jsval) * list page_event) :=
  getSpaceTasks_loop fuel endpoint 0 [].

(** The attempts and the waiting time of a run of the retry loop. *)
Fixpoint attempts (evs : list event) : nat :=
  match evs with
  | [] => O
  | Attempt _ :: evs' => S (attempts evs')
  | Sleep _ :: evs' => attempts evs'
  end.

Fixpoint slept (evs : list event) : Z :=
  match evs with
  | [] => 0
  | Attempt _ :: evs' => slept evs'
  | Sleep ms :: evs' => ms + slept evs'
  end.

(** ** Readings of the storage (db/index.js) *)

(** The instant a cell of a timestamp column holds; every statement of the
    service writes [updated_at] as [CURRENT_TIMESTAMP]. *)
Definition cell_instant (c : cell) : option Z :=
  match c with
  | CTime t => Some t
  | CVal (JDate t) => Some t
  | _ => None
  end.

Definition updated_at (r : gmap string cell) : option Z :=
  r !! "updated_at"%string ≫= cell_instant.

(** [updated_at < cutoff]; NULL compares as unknown and the row stays. *)
Definition expired (cutoff : Z) (r : gmap string cell) : bool :=
  match updated_at r with
  | Some t => t <? cutoff
  | None => false
  end.

(** [updated_at >= cutoff] *)
Definition recent (cutoff : Z) (r : gmap string cell) : bool :=
  match updated_at r with
  | Some t => cutoff <=? t
  | None => false
  end.

(** [ORDER BY updated_at DESC], on rows that have an instant. *)
Definition newer_first (r1 r2 : gmap string cell) : Prop :=
  match updated_at r1, updated_at r2 with
  | Some t1, Some t2 => t2 <= t1
  | Some _, None => True
  | None, Some _ => False
  | None, None => True
  end.

#[global] Instance newer_first_dec r1 r2 : Decision (newer_first r1 r2).
Proof.
  unfold newer_first. destruct (updated_at r1), (updated_at r2); apply _.
Defined.

(** The columns [getRecentChanges] selects. *)
Definition recent_columns : list string :=
  ["id"; "custom_fields"; "field_values"; "relationships"; "updated_at";
   "_airbyte_extracted_at"]%string.

Definition project (cols : list string) (r : gmap string cell) : gmap string cell :=
  filter (fun kv => fst kv ∈ cols) r.

(** [getRecentChanges(minutes)]; [cutoff] is the instant that
    [NOW() - INTERVAL 'minutes minutes'] denotes.  The rows updated at or
    after the cutoff, newest first. *)
Definition getRecentChanges (cutoff : Z) (s : db) : list (gmap string cell) :=
  List.map (project recent_columns)
    (merge_sort newer_first
       (List.filter (recent cutoff)
          (List.map snd (map_to_list (clickup_task s))))).

Section MoreService.
Context `{JsBuiltins}.

(** [getTaskTypeById(typeId)]: [rows[0] || null] *)
Definition getTaskTypeById (typeId : jsval) (s : db) : option (gmap string cell) :=
  pg_text typeId ≫= (fun k => task_types s !! k).

(** [cleanOldData(daysToKeep)]; [cutoff] is the instant that
    [NOW() - INTERVAL 'daysToKeep days'] denotes.  The task rows older than
    the cutoff go first, then every type that no remaining task row points
    to. *)
Definition cleanOldData (cutoff : Z) : M bool :=
  transaction (fun s =>
    let tasks := filter (fun kv => expired cutoff (snd kv) = false) (clickup_task s) in
    let types :=
      filter (fun kv => map_Exists (fun _ r => type_ref r = Some (fst kv)) tasks)
             (task_types s) in
    (Ok true,
     {| clickup_task := tasks; task_types := types;
        field_changes := field_changes s |})).

(** [syncTaskRelationships(taskId)] of the sync service: what is thrown is
    logged and thrown again. *)
Definition syncTaskRelationships (e : env) (taskId : ustring) : M unit :=
  let* taskDetails := lift (fst (getTaskDetails (task_endpoint e))) in
  if negb (truthy taskDetails) then ret tt
  else
    let relationships :=
      JObj [ (u "parent_id", get taskDetails "parent");
             (u "custom_type", get_opt (get taskDetails "custom_type") "name");
             (u "updated_at", JStr (toISOString (now e))) ] in
    let* _ := updateTaskRelationships (now e) taskId relationships in
    ret tt.

(** The NOT NULL columns of [task_types]; the row proposed for insertion is
    checked before a conflict on the key is looked for. *)
Definition not_null_ok (r : gmap string cell) : bool :=
  bool_decide (is_Some (r !! "id"%string))
  && bool_decide (is_Some (r !! "name"%string))
  && bool_decide (is_Some (r !! "workspace_id"%string)).

(** [types.length === 0] *)
Definition has_no_elements (types : jsval) : bool :=
  match types with
  | JArr l => (length l =? 0)%nat
  | JStr s => (utf16_length s =? 0)%nat
  | JObj _ => match get types "length" with JNum 0 => true | _ => false end
  | _ => false
  end.
End MoreService.

(** *** The catalog refresh of the sync service itself (services/sync.js) *)

Module SyncService.
Section Refresh.
Context `{JsBuiltins}.

(** The row of the INSERT: it names no [workspace_id]. *)
Definition type_row (e : env) (type : jsval) : gmap string cell :=
  make_row
    [ ("id", option_map (fun k => CVal (JStr k)) (pg_text (get type "id")));
      ("name", param (get type "name"));
      ("color", param (get type "color"));
      ("status", param (get type "status"));
      ("orderindex", param (get type "orderindex"));
      ("updated_at", Some (CTime (now e))) ]%string.

(** [INSERT INTO task_types (id, name, color, status, orderindex, updated_at)
    ... ON CONFLICT (id) DO UPDATE SET ...]: on a conflict the five other
    columns of the stored row are overwritten. *)
Definition upsert_type (e : env) (type : jsval) : M unit :=
  if nullish type then lift (Throw TypeError)
  else
    let r := type_row e type in
    if negb (not_null_ok r) then lift (Throw (DbError "23502"))
    else
      match pg_text (get type "id") with
      | None => lift (Throw (DbError "23502"))
      | Some k =>
          write (fun s =>
            with_types s
              (<[k := match task_types s !! k with
                      | Some old =>
                          set_col "updated_at" (r !! "updated_at"%string)
                          (set_col "orderindex" (r !! "orderindex"%string)
                          (set_col "status" (r !! "status"%string)
                          (set_col "color" (r !! "color"%string)
                          (set_col "name" (r !! "name"%string) old))))
                      | None => r
                      end]> (task_types s)))
      end.

(** [SyncService.syncTaskTypes()]: an empty catalog ends the call at once;
    [CREATE TABLE IF NOT EXISTS] finds the table of the migration and does
    nothing; whatever is thrown is logged and dropped. *)
Definition syncTaskTypes (e : env) : M unit :=
  fun s =>
    let body : M unit :=
      let* types := lift (getCustomTaskTypes (task_type_endpoint e)) in
      if has_no_elements types then ret tt
      else
        transaction (
          let* l := lift (iterate types) in
          let* _ := for_each (upsert_type e) l in
          let typeIds := omap (fun t => pg_text (get t "id")) l in
          let* _ := delete_types_not_in typeIds in
          ret tt) in
    match body s with
    | (Ok _, s') => (Ok tt, s')
    | (Throw _, s') => (Ok tt, s')
    end.
End Refresh.
End SyncService.

(** ** Notions used by the further statements *)


(** An operation that leaves the change ledger as it was. *)
Definition silent {A} (m : M A) : Prop :=
  forall s, field_changes (snd (m s)) = field_changes s.

Section MoreNotions.
Context `{JsBuiltins}.

(** The clean names under which the fields of a list get a definition. *)
Fixpoint defined_names (fields : list jsval) : list ustring :=
  match fields with
  | [] => []
  | field :: rest =>
      match get field "name" with
      | JStr raw =>
          if truthy field && truthy (JStr raw) &&
             negb (bool_decide (clean_name raw = u "__proto__"))
          then clean_name raw :: defined_names rest
          else defined_names rest
      | _ => defined_names rest
      end
  end.

(** A field whose name is neither missing nor a string: [field.name.replace]
    is not a function. *)
Definition bad_name (field : jsval) : bool :=
  truthy field && truthy (get field "name") &&
  match get field "name" with JStr _ => false | _ => true end.

(** Every type a task row points to is stored: what the foreign key of
    [clickup_task.task_type_id] asks of a state. *)
Definition ref_integrity (s : db) : Prop :=
  forall id r k,
    clickup_task s !! id = Some r -> type_ref r = Some k ->
    is_Some (task_types s !! k).

(** An operation that keeps the references to types intact. *)
Definition keeps {A} (m : M A) : Prop :=
  forall s, ref_integrity s -> ref_integrity (snd (m s)).
End MoreNotions.

(** The requests and pauses of a listing that reads the pages
    [page], ..., [page + k]. *)
Fixpoint page_trace (page k : nat) : list page_event :=
  match k with
  | O => [Request page]
  | S k' => Request page :: Pause 200 :: page_trace (S page) k'
  end.

(** The body of a page of a space listing that holds [n] tasks. *)
Definition task_page (n : nat) : list (ustring * jsval) :=
  [(u "tasks", JArr (List.repeat (JObj []) n))].

(** A parent reference to a task that has no row. *)
Definition orphan_relationships : jsval :=
  JObj [ (u "parent_id", JStr (u "gone")); (u "custom_type", JStr (u "Retired")) ].

(** A space whose first two pages are full and whose third holds seven
    tasks. *)
Definition paged_tasks (j : nat) : list jsval :=
  List.repeat (JObj []) (if (j <? 2)%nat then 100 else 7).

Definition paged_endpoint (j : nat) : outcome (list (ustring * jsval)) :=
  Ok (task_page (if (j <? 2)%nat then 100 else 7)).

(** A space whose second page request is answered 502. *)
Definition failing_endpoint (j : nat) : outcome (list (ustring * jsval)) :=
  if (j <? 1)%nat then Ok (task_page 100) else Throw (HttpError (Some 502)).

(** An environment whose type catalog cannot be fetched. *)
Definition offline_env : env :=
  {| task_endpoint := fun _ => Ok (sample_body (JStr (u "Fix pump")));
     task_type_endpoint := Throw (HttpError (Some 500));
     workspaceId := JStr (u "ws");
     now := 1000;
     row_vanishes := false |}.

(** [sample_row] after its relationships were set to
    [orphan_relationships] at the instant 7. *)
Definition orphan_row : gmap string cell :=
  <["updated_at"%string := CTime 7]>
    (<["task_type_id"%string := CVal (JStr (u "9"))]>
       (delete "parent_id"%string sample_row)).

(** A field whose name is the clean name of [sample_field]. *)
Definition plain_field : jsval :=
  JObj [ (u "id", JStr (u "f2"));
         (u "name", JStr (u "Client"));
         (u "type", JStr (u "text")) ].

Definition colliding_details : jsval :=
  JObj [ (u "custom_fields", JArr [sample_field; plain_field]) ].

(** An upstream whose task has the type [bug_type], with that type in the
    catalog. *)
Definition typed_env : env :=
  {| task_endpoint := fun _ =>
       Ok (sample_body (JStr (u "Fix pump"))
           ++ [ (u "parent", JStr (u "p0"));
                (u "custom_type", JObj [ (u "id", JNum 7);
                                         (u "name", JStr (u "Bug")) ]) ]);
     task_type_endpoint := Ok [(u "task_types", JArr [bug_type])];
     workspaceId := JStr (u "ws");
     now := 1000;
     row_vanishes := false |}.

(** A storage whose only task is linked to the only type. *)
Definition linked_db : db :=
  {| clickup_task :=
       {[ u "t1" := <["task_type_id"%string := CVal (JStr (u "9"))]>
                      (<["updated_at"%string := CTime 100]> sample_row) ]};
     task_types := {[ u "9" := stale_type ]};
     field_changes := [] |}.

(** * The retry policy of the detail fetch *)

#[local] Set Warnings "-clear-no-such-hyp".

Lemma retry_loop_final {A} (fn : nat -> outcome A) retries delay :
  forall k todo i,
    (k < todo)%nat ->
    (forall j, (j < k)%nat ->
       exists e, fn (i + j)%nat = Throw e /\ transient e = true /\
                 (i + j + 1 < retries)%nat) ->
    (forall e, fn (i + k)%nat = Throw e ->
       transient e = false \/ (retries <= i + k + 1)%nat) ->
    retry_loop fn retries delay todo i
    = (promote (fn (i + k)%nat), attempts_from delay i k).
Proof.
  induction k as [|k IH]; intros todo i Hk Hpre Hfin.
  - destruct todo as [|todo]; [lia|]. simpl. rewrite Nat.add_0_r in *.
    destruct (fn i) as [r|e] eqn:E; [reflexivity|].
    destruct (Hfin e eq_refl) as [Ht|Hr].
    + rewrite Ht. reflexivity.
    + replace (Z.of_nat i <? Z.of_nat retries - 1) with false
        by (symmetry; apply Z.ltb_ge; lia).
      rewrite andb_false_r. reflexivity.
  - destruct todo as [|todo]; [lia|]. simpl.
    destruct (Hpre 0%nat ltac:(lia)) as (e & E & Ht & Hr). rewrite Nat.add_0_r in E.
    rewrite E, Ht.
    replace (Z.of_nat i <? Z.of_nat retries - 1) with true
      by (symmetry; apply Z.ltb_lt; lia).
    simpl. rewrite (IH todo (S i)).
    + replace (S i + k)%nat with (i + S k)%nat by lia. reflexivity.
    + lia.
    + intros j Hj. destruct (Hpre (S j) ltac:(lia)) as (e' & E' & Ht' & Hr').
      exists e'. replace (S i + j)%nat with (i + S j)%nat by lia.
      repeat split; [assumption..|lia].
    + intros e' E'. replace (S i + k)%nat with (i + S k)%nat in E' by lia.
      destruct (Hfin e' E'); [left; assumption|right; lia].
Qed.

(** The attempt that decides a run of three: the first that does not fail
    transiently, or the third. *)
Lemma deciding_attempt {A} (fn : nat -> outcome A) :
  exists k : nat,
    (k < 3)%nat /\
    (forall j, (j < k)%nat -> exists e, fn j = Throw e /\ transient e = true) /\
    (k = 2%nat \/ forall e, fn k = Throw e -> transient e = false).
Proof.
  destruct (fn 0%nat) as [d0|e0] eqn:E0.
  { exists 0%nat. repeat split; [lia|intros; lia|right; intros; congruence]. }
  destruct (transient e0) eqn:T0.
  2:{ exists 0%nat. repeat split; [lia|intros; lia|right; intros; congruence]. }
  destruct (fn 1%nat) as [d1|e1] eqn:E1.
  { exists 1%nat. repeat split; [lia| |right; intros; congruence].
    intros j Hj. assert (j = 0%nat) by lia. subst. eauto. }
  destruct (transient e1) eqn:T1.
  2:{ exists 1%nat. repeat split; [lia| |right; intros; congruence].
      intros j Hj. assert (j = 0%nat) by lia. subst. eauto. }
  exists 2%nat. repeat split; [lia| |left; reflexivity].
  intros j Hj. destruct j as [|[|j]]; [eauto|eauto|lia].
Qed.

(** C7: in every run of the detail fetch there is a deciding attempt
    number [k + 1], at most 3: the attempts before it failed with 502 or
    429, each followed by a sleep of 2000 ms times its attempt number and by
    the next attempt; the deciding attempt is the third, or it did not fail
    with 502 or 429; its outcome is the outcome of the call (its error is
    thrown, its body is normalised) and nothing is attempted after it.  Only
    502 and 429 are retried, and three 502 responses in a row make the call
    throw that error after sleeps of 2000 and 4000 ms. *)
Theorem C7_detail_fetch_retry_policy :
  (forall fn : nat -> outcome (list (ustring * jsval)),
     exists k : nat,
       (k < 3)%nat /\
       (forall j, (j < k)%nat -> exists e, fn j = Throw e /\ transient e = true) /\
       (k = 2%nat \/ forall e, fn k = Throw e -> transient e = false) /\
       getTaskDetails fn =
         (match fn k with
          | Ok data => Ok (normalizeTaskDetails data)
          | Throw e => Throw e
          end, attempts_from 2000 0 k)) /\
  (forall st, transient (HttpError (Some st)) = true <-> st = 502 \/ st = 429) /\
  (forall fn : nat -> outcome (list (ustring * jsval)),
     getTaskDetails
       (fun i => if (i <? 3)%nat then Throw (HttpError (Some 502)) else fn i) =
     (Throw (HttpError (Some 502)),
      [Attempt 0; Sleep 2000; Attempt 1; Sleep 4000; Attempt 2])).
Proof.
  split; [|split].
  - intros fn. destruct (deciding_attempt fn) as (k & Hk & Hpre & Hfin).
    exists k. repeat split; try assumption.
    unfold getTaskDetails, retryRequest.
    rewrite (retry_loop_final fn 3 2000 k 3 0 Hk).
    + simpl. destruct (fn k); reflexivity.
    + intros j Hj. destruct (Hpre j Hj) as (e & E & T). exists e. simpl.
      repeat split; [assumption..|lia].
    + intros e E. simpl in E. destruct Hfin as [->|Hfin]; [right; lia|left; eauto].
  - intros st. simpl. rewrite orb_true_iff, !Z.eqb_eq. reflexivity.
  - intros fn. reflexivity.
Qed.

(** * The merge engine and the storage layer *)

Section Proofs.
Context `{JsBuiltins}.

Lemma lookup_set_col_eq c o (r : gmap string cell) : set_col c o r !! c = o.
Proof. destruct o; simpl; [apply lookup_insert_eq|apply lookup_delete_eq]. Qed.

Lemma lookup_set_col_ne c c' o (r : gmap string cell) :
  c <> c' -> set_col c o r !! c' = r !! c'.
Proof. intros. destruct o; simpl; [by apply lookup_insert_ne|by apply lookup_delete_ne]. Qed.

Lemma lookup_coalesce_col_eq c o (r : gmap string cell) :
  coalesce_col c o r !! c = match o with Some x => Some x | None => r !! c end.
Proof. destruct o; simpl; [apply lookup_insert_eq|reflexivity]. Qed.

Lemma lookup_coalesce_col_ne c c' o (r : gmap string cell) :
  c <> c' -> coalesce_col c o r !! c' = r !! c'.
Proof. intros. destruct o; simpl; [by apply lookup_insert_ne|reflexivity]. Qed.

Ltac cols :=
  repeat first
    [ rewrite lookup_set_col_eq
    | rewrite lookup_coalesce_col_eq
    | rewrite lookup_set_col_ne by discriminate
    | rewrite lookup_coalesce_col_ne by discriminate
    | rewrite lookup_insert_eq
    | rewrite lookup_delete_eq
    | rewrite lookup_insert_ne by discriminate
    | rewrite lookup_delete_ne by discriminate ].

Lemma ensureTaskRow_spec e taskId d s :
  ensureTaskRow e taskId d s = (Ok tt, ensured e taskId d s).
Proof.
  unfold ensureTaskRow, ensured, bind, read, ret, checkTaskExists, insert_task.
  destruct (clickup_task s !! taskId) eqn:E.
  - rewrite bool_decide_eq_true_2 by eauto. reflexivity.
  - rewrite bool_decide_eq_false_2 by (intros [? ?]; congruence).
    rewrite E. reflexivity.
Qed.


Lemma upsert_type_eq e t s :
  upsert_type e t s =
    match type_row e t with
    | Ok kr => (Ok tt, with_types s (<[fst kr := snd kr]> (task_types s)))
    | Throw ex => (Throw ex, s)
    end.
Proof. unfold upsert_type, bind, lift, write. destruct (type_row e t); reflexivity. Qed.

Lemma for_each_upsert e l s :
  match type_rows e l with
  | Ok krs => for_each (upsert_type e) l s
              = (Ok tt, with_types s (upserted krs (task_types s)))
  | Throw ex => exists s', for_each (upsert_type e) l s = (Throw ex, s')
  end.
Proof.
  revert s. induction l as [|t l IH]; intros s; simpl.
  - unfold ret, with_types, upserted. simpl. destruct s; reflexivity.
  - unfold bind. rewrite upsert_type_eq.
    destruct (type_row e t) as [kr|ex] eqn:E.
    + specialize (IH (with_types s (<[fst kr := snd kr]> (task_types s)))).
      destruct (type_rows e l) as [krs|ex].
      * rewrite IH. reflexivity.
      * destruct IH as [s' IH]. exists s'. rewrite IH. reflexivity.
    + eauto.
Qed.

Lemma syncTaskTypes_refreshed e s : syncTaskTypes e s = refreshed e s.
Proof.
  unfold syncTaskTypes, refreshed, transaction, bind, lift.
  destruct (getCustomTaskTypes _) as [types|ex]; [|reflexivity].
  destruct (iterate types) as [l|ex]; [|reflexivity].
  pose proof (for_each_upsert e l s) as Hf.
  destruct (type_rows e l) as [krs|ex].
  - rewrite Hf. fold (type_keys l).
    destruct (0 <? length l)%nat.
    + unfold delete_types_not_in. simpl.
      case_decide; reflexivity.
    + unfold ret. reflexivity.
  - destruct Hf as [s' ->]. reflexivity.
Qed.

Lemma upserted_lookup_notin krs T k :
  k ∉ List.map fst krs -> upserted krs T !! k = T !! k.
Proof.
  revert T. induction krs as [|kr krs IH]; intros T Hk; [reflexivity|].
  simpl in *. unfold upserted in *. simpl.
  rewrite IH by (intros ?; apply Hk; by right).
  apply lookup_insert_ne. intros E. apply Hk. rewrite <- E. by left.
Qed.

Lemma upserted_lookup_in krs T T' k :
  k ∈ List.map fst krs -> upserted krs T !! k = upserted krs T' !! k.
Proof.
  revert T T'. induction krs as [|kr krs IH]; intros T T' Hk.
  - inversion Hk.
  - destruct (decide (k ∈ List.map fst krs)) as [Hin|Hout].
    + unfold upserted in *. simpl. by apply IH.
    + assert (k = fst kr) as -> by (simpl in Hk; inversion Hk; subst; done).
      unfold upserted at 1 2. simpl. fold (upserted krs (<[kr.1:=kr.2]> T)).
      fold (upserted krs (<[kr.1:=kr.2]> T')).
      rewrite !upserted_lookup_notin by assumption.
      by rewrite !lookup_insert_eq.
Qed.

Lemma type_row_key e t k r :
  type_row e t = Ok (k, r) -> pg_text (get t "id") = Some k.
Proof.
  unfold type_row. destruct (nullish t); [discriminate|].
  destruct (pg_text (get t "id")); [|discriminate].
  destruct (param (get t "name")); [|discriminate].
  destruct (param (workspaceId e)); [|discriminate].
  intros [= <- _]. reflexivity.
Qed.

Lemma type_rows_keys e l krs :
  type_rows e l = Ok krs -> List.map fst krs = type_keys l.
Proof.
  revert krs. induction l as [|t l IH]; intros krs; simpl.
  - intros [= <-]. reflexivity.
  - destruct (type_row e t) as [[k r]|] eqn:E; [|discriminate].
    destruct (type_rows e l) as [krs'|]; [|discriminate].
    intros [= <-]. unfold type_keys. simpl.
    rewrite (type_row_key _ _ _ _ E). simpl. f_equal. by apply IH.
Qed.

Lemma catalog_upserted e l krs :
  type_rows e l = Ok krs -> catalog e l = upserted krs ∅.
Proof.
  unfold catalog, upserted. generalize (∅ : gmap (list N) (gmap string cell)).
  revert krs. induction l as [|t l IH]; intros krs T; simpl.
  - intros [= <-]. reflexivity.
  - destruct (type_row e t) as [kr|] eqn:E; [|discriminate].
    destruct (type_rows e l) as [krs'|]; [|discriminate].
    intros [= <-]. simpl. by apply IH.
Qed.

Lemma filter_upserted krs T keys :
  List.map fst krs = keys ->
  filter (fun kv : list N * gmap string cell => fst kv ∈ keys) (upserted krs T)
  = upserted krs ∅.
Proof.
  intros <-. apply map_eq. intros k.
  destruct (decide (k ∈ List.map fst krs)) as [Hin|Hout].
  - rewrite (upserted_lookup_in krs ∅ T k Hin).
    destruct (upserted krs T !! k) as [r|] eqn:E.
    + apply map_lookup_filter_Some. split; [assumption|exact Hin].
    + apply map_lookup_filter_None. left. assumption.
  - rewrite (upserted_lookup_notin krs ∅ k Hout), lookup_empty.
    apply map_lookup_filter_None. right. intros r _ Hin. exact (Hout Hin).
Qed.

Lemma getCustomTaskTypes_string e s :
  getCustomTaskTypes (task_type_endpoint e) = Ok (JStr s) -> s <> [].
Proof.
  unfold getCustomTaskTypes. destruct (task_type_endpoint e) as [data|]; [|discriminate].
  unfold js_or. generalize (get (JObj data) "task_types"). intros g.
  destruct (truthy g) eqn:T; [|discriminate].
  intros [= ->]. destruct s; [discriminate|discriminate].
Qed.

Lemma type_rows_string e c s : type_rows e (List.map (fun c => JStr [c]) (c :: s)) <> Ok [] /\
   forall krs, type_rows e (List.map (fun c => JStr [c]) (c :: s)) <> Ok krs.
Proof.
  simpl. unfold type_row. simpl. split; [discriminate|intros; discriminate].
Qed.

(** C6, as amended: a catalog refresh that commits returns the fetched
    array; when that array is not empty the table [task_types] is exactly
    the table built from the fetched definitions alone (every fetched type
    upserted with its current attributes, every other stored type deleted);
    when it is empty no stored type is deleted and the table is left as it
    was.  Task rows and the ledger are not touched. *)
Theorem C6_refresh_amended e s v s' :
  syncTaskTypes e s = (Ok v, s') ->
  exists l, v = JArr l /\
    (l <> [] -> task_types s' = catalog e l) /\
    (l = [] -> task_types s' = task_types s) /\
    clickup_task s' = clickup_task s /\ field_changes s' = field_changes s.
Proof.
  rewrite syncTaskTypes_refreshed. unfold refreshed.
  destruct (getCustomTaskTypes _) as [types|] eqn:Eg; [|discriminate].
  destruct (iterate types) as [l0|] eqn:Ei; [|discriminate].
  destruct (type_rows e l0) as [krs|] eqn:Er; [|discriminate].
  assert (types = JArr l0) as ->.
  { destruct types; try discriminate.
    - simpl in Ei. injection Ei as <-. destruct s0 as [|c s0].
      + by apply getCustomTaskTypes_string in Eg.
      + by apply type_rows_string in Er.
    - simpl in Ei. congruence. }
  destruct l0 as [|t l0].
  - simpl in Er. injection Er as <-. simpl. intros [= <- <-].
    exists []. repeat split; try done.
  - change (0 <? length (t :: l0))%nat with true. cbv iota.
    case_decide; [discriminate|]. intros [= <- <-].
    exists (t :: l0). repeat split; try done.
    intros _. simpl task_types.
    rewrite (filter_upserted krs _ _ (type_rows_keys _ _ _ Er)).
    symmetry. by apply catalog_upserted.
Qed.

(** When a refresh commits: the endpoint answers with an array, every
    fetched type has an id and a name, the workspace is configured, and no
    task row points to a stored type that the fetched set lacks. *)
Lemma syncTaskTypes_commits e s data l krs :
  task_type_endpoint e = Ok data ->
  get (JObj data) "task_types" = JArr l ->
  type_rows e l = Ok krs ->
  (forall i r k, clickup_task s !! i = Some r -> type_ref r = Some k ->
     k ∈ type_keys l \/ l = []) ->
  exists s', syncTaskTypes e s = (Ok (JArr l), s').
Proof.
  intros He Hg Hrows Hfk. rewrite syncTaskTypes_refreshed. unfold refreshed.
  unfold getCustomTaskTypes. rewrite He. unfold js_or. rewrite Hg.
  change (truthy (JArr l)) with true. cbv iota.
  change (iterate (JArr l)) with (Ok l). cbv iota. rewrite Hrows.
  destruct (0 <? length l)%nat eqn:El; [|eauto].
  rewrite decide_False; [eauto|].
  intros (i & r & Hi & Href). unfold references in Href.
  destruct (type_ref r) as [k|] eqn:Hk; [|done].
  destruct Href as [ty Hty]. apply map_lookup_filter_Some in Hty as [_ Hnot].
  destruct (Hfk i r k Hi Hk) as [Hin| ->]; [by apply Hnot|discriminate].
Qed.

Lemma syncTaskTypes_frame e s o s' :
  syncTaskTypes e s = (o, s') ->
  clickup_task s' = clickup_task s /\ field_changes s' = field_changes s /\
  (forall ex, o = Throw ex -> s' = s).
Proof.
  rewrite syncTaskTypes_refreshed. unfold refreshed.
  destruct (getCustomTaskTypes _) as [types|]; [|by intros [= <- <-]].
  destruct (iterate types) as [l0|]; [|by intros [= <- <-]].
  destruct (type_rows e l0) as [krs|]; [|by intros [= <- <-]].
  destruct (0 <? length l0)%nat.
  - case_decide; intros [= <- <-]; repeat split; try done.
  - intros [= <- <-]; repeat split; try done.
Qed.

Lemma updateTaskTypeRelationships_cases taskId typeId s o s' :
  updateTaskTypeRelationships taskId typeId s = (o, s') ->
  (exists ex, o = Throw ex /\ s' = s) \/
  (o = Ok None /\ s' = s /\ clickup_task s !! taskId = None) \/
  (exists r x y, clickup_task s !! taskId = Some r /\
     o = Ok (Some (link_row x y r)) /\
     s' = with_tasks s (<[taskId := link_row x y r]> (clickup_task s))).
Proof.
  unfold updateTaskTypeRelationships, transaction.
  destruct (clickup_task s !! taskId) as [r|] eqn:E.
  - destruct (pg_text typeId) as [k|].
    + destruct (task_types s !! k) as [ty|].
      * intros [= <- <-]. right. right. by exists r, (ty !! "name"%string), (Some (CVal (JStr k))).
      * intros [= <- <-]. left. eauto.
    + intros [= <- <-]. right. right. by exists r, None, None.
  - intros [= <- <-]. right. left. done.
Qed.

Lemma syncVerifiedTask_shape e taskId d x rs res x' :
  clickup_task x !! taskId = Some rs ->
  syncVerifiedTask e taskId d x = (res, x') ->
  (forall id', id' <> taskId -> clickup_task x' !! id' = clickup_task x !! id') /\
  field_changes x' = field_changes x /\
  exists r0, linkable rs r0 /\
    ((exists ex, res = Throw ex /\ clickup_task x' !! taskId = Some r0) \/
     (res = Ok (Success None) /\ clickup_task x' !! taskId = None /\
      row_vanishes e = true) \/
     (exists fd, buildFieldData e d = Ok fd /\
        res = Ok (Success (Some (apply_field_update (now e) fd r0))) /\
        clickup_task x' !! taskId = Some (apply_field_update (now e) fd r0) /\
        row_vanishes e = false)).
Proof.
  intros Hrow. unfold syncVerifiedTask. unfold bind at 1.
  destruct (syncTaskTypes e x) as [[v|ex] xB] eqn:ET;
    destruct (syncTaskTypes_frame _ _ _ _ ET) as (Ht & Hc & Hthrow).
  2:{ intros [= <- <-]. rewrite (Hthrow ex eq_refl).
      split; [done|]. split; [done|].
      exists rs. split; [by left|]. left. eauto. }
  assert (HrowB : clickup_task xB !! taskId = Some rs) by (by rewrite Ht).
  unfold bind at 1.
  assert (Hlink : forall o xC,
    (if truthy (get_opt (get d "custom_type") "id")
     then bind (updateTaskTypeRelationships taskId (get (get d "custom_type") "id"))
               (fun _ => ret tt)
     else ret tt) xB = (o, xC) ->
    (exists ex, o = Throw ex /\ xC = xB) \/
    (o = Ok tt /\ exists r0, linkable rs r0 /\
       clickup_task xC = <[taskId := r0]> (clickup_task xB) /\
       field_changes xC = field_changes xB)).
  { intros o xC. destruct (truthy _).
    - unfold bind. destruct (updateTaskTypeRelationships _ _ xB) as [o1 x1] eqn:EL.
      destruct (updateTaskTypeRelationships_cases _ _ _ _ _ EL)
        as [(ex & -> & ->)|[(-> & -> & Hn)|(r & a & b & Hr & -> & ->)]].
      + intros [= <- <-]. left. eauto.
      + congruence.
      + intros [= <- <-]. right. split; [done|].
        assert (r = rs) as -> by congruence.
        exists (link_row a b rs). split; [right; eauto|]. done.
    - intros [= <- <-]. right. split; [done|]. exists rs. split; [by left|].
      split; [|done]. symmetry. by apply insert_id. }
  destruct (_ xB) as [o xC] eqn:EL in |- *.
  destruct (Hlink _ _ EL) as [(ex & -> & ->)|(-> & r0 & Hr0 & HtC & HcC)].
  { intros [= <- <-].
    split; [intros; by rewrite Ht|]. split; [done|].
    exists rs. split; [by left|]. left. eauto. }
  assert (Hother : forall id', id' <> taskId ->
             clickup_task xC !! id' = clickup_task x !! id').
  { intros id' Hne. rewrite HtC, lookup_insert_ne by done. by rewrite Ht. }
  assert (HrowC : clickup_task xC !! taskId = Some r0)
    by (rewrite HtC; apply lookup_insert_eq).
  assert (HchC : field_changes xC = field_changes x) by congruence.
  unfold bind at 1, lift at 1.
  destruct (log_custom_fields _) as [[]|ex].
  2:{ intros [= <- <-]. split; [done|]. split; [done|].
      exists r0. split; [done|]. left. eauto. }
  unfold bind at 1, lift at 1.
  destruct (buildFieldData e d) as [fd|ex] eqn:EB.
  2:{ intros [= <- <-]. split; [done|]. split; [done|].
      exists r0. split; [done|]. left. eauto. }
  unfold bind, interference, write, updateTaskCustomFields, ret.
  destruct (row_vanishes e) eqn:EV.
  - simpl. rewrite lookup_delete_eq. intros [= <- <-]. simpl.
    split; [|split; [done|]].
    + intros id' Hne. rewrite lookup_delete_ne by done. by apply Hother.
    + exists r0. split; [done|]. right. left. rewrite lookup_delete_eq. done.
  - rewrite HrowC. intros [= <- <-]. simpl.
    split; [|split; [done|]].
    + intros id' Hne. rewrite lookup_insert_ne by done. by apply Hother.
    + exists r0. split; [done|]. right. right. exists fd.
      rewrite lookup_insert_eq. done.
Qed.

Lemma getTaskDetails_Ok fn d :
  fst (getTaskDetails fn) = Ok d -> exists data, d = normalizeTaskDetails data.
Proof.
  unfold getTaskDetails. destruct (retryRequest fn 3 2000) as [[[data|]|ex] evs]; simpl.
  - intros [= <-]. eauto.
  - discriminate.
  - discriminate.
Qed.

Lemma syncTaskBody_fetched e taskId d s :
  fst (getTaskDetails (task_endpoint e)) = Ok d ->
  syncTaskBody e taskId s = syncVerifiedTask e taskId d (ensured e taskId d s)
  /\ exists rs, clickup_task (ensured e taskId d s) !! taskId = Some rs /\
       rs = default (placeholderRow e taskId d) (clickup_task s !! taskId).
Proof.
  intros Hd. destruct (getTaskDetails_Ok _ _ Hd) as [data ->].
  unfold syncTaskBody, bind at 1, lift. rewrite Hd.
  change (truthy (normalizeTaskDetails data)) with true.
  change (negb true) with false. cbv iota.
  unfold bind at 1. rewrite ensureTaskRow_spec.
  unfold bind at 1, read, getTaskById.
  assert (exists rs, clickup_task (ensured e taskId (normalizeTaskDetails data) s) !! taskId = Some rs /\
       rs = default (placeholderRow e taskId (normalizeTaskDetails data)) (clickup_task s !! taskId))
    as (rs & Hrs & Hdef).
  { unfold ensured. destruct (clickup_task s !! taskId) as [r|] eqn:E.
    - exists r. by rewrite E.
    - eexists. split; [|reflexivity]. simpl. apply lookup_insert_eq. }
  rewrite Hrs. split; [reflexivity|eauto].
Qed.

Lemma ensured_other e taskId d s id' :
  id' <> taskId -> clickup_task (ensured e taskId d s) !! id' = clickup_task s !! id'.
Proof.
  intros. unfold ensured. destruct (clickup_task s !! taskId); [done|].
  simpl. by apply lookup_insert_ne.
Qed.

Lemma ensured_changes e taskId d s :
  field_changes (ensured e taskId d s) = field_changes s
  /\ task_types (ensured e taskId d s) = task_types s.
Proof. unfold ensured. by destruct (clickup_task s !! taskId). Qed.

Lemma sync_shape e taskId s res s' :
  syncTaskCustomFields e taskId s = (res, s') ->
  (exists ex, fst (getTaskDetails (task_endpoint e)) = Throw ex /\
     res = Failed (Caught ex) /\ s' = s) \/
  (exists d, fst (getTaskDetails (task_endpoint e)) = Ok d /\
     (forall id', id' <> taskId -> clickup_task s' !! id' = clickup_task s !! id') /\
     field_changes s' = field_changes s /\
     exists r0,
       linkable (default (placeholderRow e taskId d) (clickup_task s !! taskId)) r0 /\
       ((exists f, res = Failed f /\ clickup_task s' !! taskId = Some r0) \/
        (res = Success None /\ clickup_task s' !! taskId = None /\
         row_vanishes e = true) \/
        (exists fd, buildFieldData e d = Ok fd /\
           res = Success (Some (apply_field_update (now e) fd r0)) /\
           clickup_task s' !! taskId = Some (apply_field_update (now e) fd r0) /\
           row_vanishes e = false))).
Proof.
  unfold syncTaskCustomFields.
  destruct (fst (getTaskDetails (task_endpoint e))) as [d|ex] eqn:Hd.
  - destruct (syncTaskBody_fetched e taskId d s Hd) as (-> & rs & Hrs & Hdef).
    destruct (syncVerifiedTask e taskId d _) as [o x'] eqn:EV.
    destruct (syncVerifiedTask_shape _ _ _ _ _ _ _ Hrs EV)
      as (Hother & Hch & r0 & Hl & Hcases).
    intros Hres. right. exists d. split; [done|].
    assert (s' = x') as -> by (destruct o; congruence).
    split; [intros id' Hne; rewrite Hother by done; by apply ensured_other|].
    split; [rewrite Hch; apply ensured_changes|].
    exists r0. rewrite <- Hdef. split; [done|].
    destruct Hcases as [(ex & -> & Hr)|[(-> & Hr & Hv)|(fd & Hb & -> & Hr & Hv)]].
    + left. injection Hres as <-. eauto.
    + right. left. injection Hres as <-. done.
    + right. right. injection Hres as <-. exists fd. done.
  - intros Hres. left. exists ex. split; [done|].
    unfold syncTaskBody, bind, lift in Hres. rewrite Hd in Hres.
    by injection Hres as <- <-.
Qed.

Lemma processField_frame e fd f fd' :
  processField e fd f = Ok fd' ->
  fieldValues fd' = fieldValues fd /\ relationships fd' = relationships fd /\
  fd_name fd' = fd_name fd /\ fd_status fd' = fd_status fd /\
  fd_description fd' = fd_description fd.
Proof.
  unfold processField.
  destruct (negb (truthy f) || negb (truthy (get f "name"))); [by intros [= <-]|].
  destruct (get f "name"); try discriminate.
  destruct (negb (nullish (get f "value"))); simpl; by intros [= <-].
Qed.

Lemma processFields_frame e l : forall fd fd',
  processFields e fd l = Ok fd' ->
  fieldValues fd' = fieldValues fd /\ relationships fd' = relationships fd /\
  fd_name fd' = fd_name fd /\ fd_status fd' = fd_status fd /\
  fd_description fd' = fd_description fd.
Proof.
  induction l as [|f l IH]; intros fd fd'; simpl.
  - by intros [= <-].
  - destruct (processField e fd f) as [fd1|] eqn:E; [|discriminate].
    intros Hl. apply IH in Hl. apply processField_frame in E.
    intuition congruence.
Qed.

Lemma buildFieldData_frame e d fd :
  buildFieldData e d = Ok fd ->
  fieldValues fd = ∅ /\
  relationships fd = relationships (initialFieldData d) /\
  fd_name fd = get d "name" /\
  fd_status fd = js_or (get_opt (get d "status") "status") (get d "status") /\
  fd_description fd = get d "description".
Proof.
  unfold buildFieldData.
  destruct (get d "custom_fields"); try (by intros [= <-]).
  intros Hp. by apply processFields_frame in Hp.
Qed.

(** No reachable path of the field processing reads the environment. *)
Lemma processField_env e e' fd f : processField e' fd f = processField e fd f.
Proof. reflexivity. Qed.

Lemma buildFieldData_env e e' d : buildFieldData e' d = buildFieldData e d.
Proof.
  unfold buildFieldData. destruct (get d "custom_fields"); try reflexivity.
  generalize (initialFieldData d). induction l as [|f l IH]; intros fd; simpl.
  - reflexivity.
  - rewrite (processField_env e e'). destruct (processField e fd f); [apply IH|reflexivity].
Qed.

Lemma apply_field_update_maps t fd r :
  apply_field_update t fd r !! "custom_fields"%string = Some (CJson (doc (customFields fd))) /\
  apply_field_update t fd r !! "relationships"%string = Some (CJson (relationships fd)) /\
  apply_field_update t fd r !! "field_values"%string = Some (CJson (doc (fieldValues fd))).
Proof. unfold apply_field_update. repeat split; cols; reflexivity. Qed.

Ltac placeholder_cols :=
  unfold placeholderRow, make_row; cbn [List.fold_right fst snd]; cols.

Lemma placeholderRow_maps e taskId d :
  placeholderRow e taskId d !! "custom_fields"%string = Some (CJson (JObj [])) /\
  placeholderRow e taskId d !! "relationships"%string = Some (CJson (JObj [])) /\
  placeholderRow e taskId d !! "field_values"%string = Some (CJson (JObj [])).
Proof. repeat split; placeholder_cols; reflexivity. Qed.

Lemma doc_empty : doc ∅ = JObj [].
Proof. unfold doc. by rewrite map_to_list_empty. Qed.

(** C10: whatever the task, its custom fields, their mappings and their
    values, the value map [syncTaskCustomFields] writes is the empty
    document.  Normalisation is called without a mapping and answers null
    for every field, so the field data never holds a value; the row a
    successful sync returns has [field_values = {}]; and in every outcome the
    stored [field_values] of the task is the empty document, or what it was
    before the call, or the row is gone. *)
Theorem C10_value_map_always_empty e taskId s :
  (forall field, normalizeFieldValue field None = JNull) /\
  (forall d fd, buildFieldData e d = Ok fd -> fieldValues fd = ∅) /\
  (forall r, fst (syncTaskCustomFields e taskId s) = Success (Some r) ->
     r !! "field_values"%string = Some (CJson (JObj []))) /\
  (stored (snd (syncTaskCustomFields e taskId s)) taskId "field_values"
     = Some (CJson (JObj []))
   \/ stored (snd (syncTaskCustomFields e taskId s)) taskId "field_values"
     = stored s taskId "field_values"
   \/ clickup_task (snd (syncTaskCustomFields e taskId s)) !! taskId = None).
Proof.
  split; [reflexivity|].
  split; [intros d fd Hb; by destruct (buildFieldData_frame _ _ _ Hb)|].
  destruct (syncTaskCustomFields e taskId s) as [res s'] eqn:ES. simpl.
  destruct (sync_shape _ _ _ _ _ ES)
    as [(ex & _ & -> & ->)|(d & Hd & Hother & Hch & r0 & Hl & Hcases)].
  { split; [discriminate|]. right. by left. }
  assert (Hr0 : r0 !! "field_values"%string = Some (CJson (JObj []))
                \/ r0 !! "field_values"%string = stored s taskId "field_values").
  { assert (r0 !! "field_values"%string =
            default (placeholderRow e taskId d) (clickup_task s !! taskId)
              !! "field_values"%string) as ->.
    { destruct Hl as [->|(a & b & ->)]; [done|]. unfold link_row. by cols. }
    unfold stored. destruct (clickup_task s !! taskId) as [r|]; simpl.
    - by right.
    - left. apply placeholderRow_maps. }
  destruct Hcases as [(f & -> & Hr)|[(-> & Hr & Hv)|(fd & Hb & -> & Hr & Hv)]].
  - split; [discriminate|]. unfold stored at 1 2. rewrite Hr. simpl.
    destruct Hr0 as [->| ->]; [by left|by right; left].
  - split; [discriminate|]. by right; right.
  - destruct (apply_field_update_maps (now e) fd r0) as (_ & _ & Hfv).
    apply buildFieldData_frame in Hb as (Hb & _). rewrite Hb, doc_empty in Hfv.
    split; [by intros r [= <-]|]. left. unfold stored. rewrite Hr. done.
Qed.



Lemma linkable_frame rs r0 c :
  linkable rs r0 -> c <> "task_type_id"%string -> c <> "task_type_name"%string ->
  r0 !! c = rs !! c.
Proof.
  intros [->|(a & b & ->)] H1 H2; [done|].
  unfold link_row. by rewrite !lookup_set_col_ne.
Qed.


Lemma updateTaskRelationships_cases t taskId rel s :
  (updateTaskRelationships t taskId rel s = (Ok None, s) /\
   clickup_task s !! taskId = None) \/
  (exists r a b, clickup_task s !! taskId = Some r /\
     snd (updateTaskRelationships t taskId rel s) =
       with_tasks s (<[taskId :=
          set_col "updated_at" (Some (CTime t))
            (set_col "task_type_id" a (set_col "parent_id" b r))]>
          (clickup_task s))).
Proof.
  unfold updateTaskRelationships.
  destruct (clickup_task s !! taskId) as [r|]; [right|by left].
  by eexists r, _, _.
Qed.

(** C4, as amended: an exported operation (the sync, the type refresh,
    the type linkage, the field-data UPDATE, the relationship update) never
    changes [_airbyte_raw_id] of a row that exists before and after it; it
    leaves [_airbyte_extracted_at] as it was unless it runs the field-data
    UPDATE on that row, and the field-data UPDATE sets
    [_airbyte_extracted_at] to the current time. *)
Theorem C4_provenance_amended e op s id r r' :
  clickup_task s !! id = Some r ->
  clickup_task (run e op s) !! id = Some r' ->
  r' !! "_airbyte_raw_id"%string = r !! "_airbyte_raw_id"%string /\
  (r' !! "_airbyte_extracted_at"%string = r !! "_airbyte_extracted_at"%string \/
   writes_fields op id /\
   r' !! "_airbyte_extracted_at"%string = Some (CTime (now e))) /\
  (forall fd, op = OpUpdateTaskCustomFields id fd ->
     r' !! "_airbyte_extracted_at"%string = Some (CTime (now e))).
Proof.
  intros Hr.
  assert (Hsame : forall op', (forall fd, op' <> OpUpdateTaskCustomFields id fd) ->
            clickup_task s !! id = Some r' ->
            r' !! "_airbyte_raw_id"%string = r !! "_airbyte_raw_id"%string /\
            (r' !! "_airbyte_extracted_at"%string = r !! "_airbyte_extracted_at"%string \/
             writes_fields op' id /\
             r' !! "_airbyte_extracted_at"%string = Some (CTime (now e))) /\
            (forall fd, op' = OpUpdateTaskCustomFields id fd ->
               r' !! "_airbyte_extracted_at"%string = Some (CTime (now e)))).
  { intros op' Hop Hr'. assert (r' = r) as -> by congruence.
    split; [done|]. split; [by left|]. intros fd Hfd. by destruct (Hop fd). }
  destruct op as [taskId| |taskId typeId|taskId fd|taskId rel]; simpl.
  - destruct (syncTaskCustomFields e taskId s) as [res s'] eqn:ES. simpl.
    destruct (sync_shape _ _ _ _ _ ES)
      as [(ex & _ & -> & ->)|(d & Hd & Hother & Hch & r0 & Hl & Hcases)].
    { apply (Hsame (OpSyncTaskCustomFields taskId)). intros fd; discriminate. }
    destruct (decide (id = taskId)) as [->|Hne].
    + rewrite Hr in Hl. simpl in Hl.
      destruct Hcases as [(f & -> & Hrow)|[(-> & Hrow & Hv)|(fd & Hb & -> & Hrow & Hv)]];
        rewrite Hrow; intros [= <-].
      * rewrite !(linkable_frame r r0) by (done || discriminate).
        split; [done|]. split; [by left|]. discriminate.
      * unfold apply_field_update. cols.
        rewrite !(linkable_frame r r0) by (done || discriminate).
        split; [done|]. split; [by right|]. discriminate.
    + rewrite Hother by done.
      apply (Hsame (OpSyncTaskCustomFields taskId)). intros fd; discriminate.
  - destruct (syncTaskTypes e s) as [o s'] eqn:ET. simpl.
    destruct (syncTaskTypes_frame _ _ _ _ ET) as (-> & _).
    apply (Hsame OpSyncTaskTypes). intros fd; discriminate.
  - destruct (updateTaskTypeRelationships taskId typeId s) as [o s'] eqn:EL. simpl.
    destruct (updateTaskTypeRelationships_cases _ _ _ _ _ EL)
      as [(ex & -> & ->)|[(-> & -> & Hn)|(r1 & a & b & Hr1 & -> & ->)]].
    + apply (Hsame (OpUpdateTaskTypeRelationships taskId typeId)). intros fd; discriminate.
    + apply (Hsame (OpUpdateTaskTypeRelationships taskId typeId)). intros fd; discriminate.
    + simpl. destruct (decide (id = taskId)) as [->|Hne].
      * rewrite lookup_insert_eq. intros [= <-]. assert (r1 = r) as -> by congruence.
        unfold link_row. cols. split; [done|]. split; [by left|]. discriminate.
      * rewrite lookup_insert_ne by done.
        apply (Hsame (OpUpdateTaskTypeRelationships taskId typeId)). intros fd; discriminate.
  - unfold updateTaskCustomFields.
    destruct (clickup_task s !! taskId) as [r1|] eqn:Hr1; simpl.
    + destruct (decide (id = taskId)) as [->|Hne].
      * rewrite lookup_insert_eq. intros [= <-]. assert (r1 = r) as -> by congruence.
        unfold apply_field_update. cols. split; [done|]. split; [by right|]. done.
      * rewrite lookup_insert_ne by done.
        apply (Hsame (OpUpdateTaskCustomFields taskId fd)). congruence.
    + intros Hr'. destruct (decide (id = taskId)) as [->|Hne]; [congruence|].
      revert Hr'. apply (Hsame (OpUpdateTaskCustomFields taskId fd)). congruence.
  - destruct (updateTaskRelationships_cases (now e) taskId rel s)
      as [[-> Hn]|(r1 & a & b & Hr1 & ->)].
    + simpl. apply (Hsame (OpUpdateTaskRelationships taskId rel)). intros fd; discriminate.
    + cbn [clickup_task with_tasks]. destruct (decide (id = taskId)) as [->|Hne].
      * rewrite lookup_insert_eq. intros [= <-]. assert (r1 = r) as -> by congruence.
        cols. split; [done|]. split; [by left|]. discriminate.
      * rewrite lookup_insert_ne by done.
        apply (Hsame (OpUpdateTaskRelationships taskId rel)). intros fd; discriminate.
Qed.

Lemma assoc_obj_set_ne k k' v l :
  k <> k' -> assoc k (obj_set k' v l) = assoc k l.
Proof.
  intros Hne. induction l as [|[k0 v0] l IH]; simpl.
  - by rewrite decide_False.
  - destruct (decide (k' = k0)) as [->|Hk'].
    + simpl. by rewrite !decide_False.
    + simpl. destruct (decide (k = k0)); [done|apply IH].
Qed.

Lemma get_normalizeTaskDetails data k :
  u k <> u "custom_type" -> u k <> u "parent" -> u k <> u "custom_fields" ->
  get (normalizeTaskDetails data) k = get (JObj data) k.
Proof.
  intros H1 H2 H3. unfold normalizeTaskDetails, get.
  by rewrite !assoc_obj_set_ne.
Qed.


Lemma syncVerifiedTask_steps e taskId d :
  syncVerifiedTask e taskId d =
    bind (syncTaskTypes e) (fun _ =>
    bind (link_step taskId d) (fun _ => persist e taskId d)).
Proof. reflexivity. Qed.

Lemma link_step_spec taskId d x rs :
  clickup_task x !! taskId = Some rs ->
  if link_ok d (task_types x)
  then exists r0, linkable rs r0 /\
         link_step taskId d x = (Ok tt, with_tasks x (<[taskId := r0]> (clickup_task x)))
  else link_step taskId d x = (Throw (DbError "23503"), x).
Proof.
  intros Hr. unfold link_ok, link_step.
  destruct (truthy _).
  - unfold bind, updateTaskTypeRelationships, transaction, ret. rewrite Hr.
    destruct (pg_text _) as [k|].
    + destruct (task_types x !! k) as [ty|] eqn:Ek.
      * rewrite bool_decide_eq_true_2 by (apply elem_of_dom; eauto).
        eexists. split; [right; by eexists _, _|]. reflexivity.
      * rewrite bool_decide_eq_false_2; [reflexivity|].
        intros Hin. apply elem_of_dom in Hin as [? ?]. congruence.
    + eexists. split; [right; by exists None, None|]. reflexivity.
  - exists rs. split; [by left|]. unfold ret. f_equal.
    destruct x. unfold with_tasks. simpl in *. f_equal. symmetry. by apply insert_id.
Qed.

Lemma persist_spec e taskId d z r :
  clickup_task z !! taskId = Some r ->
  persist e taskId d z =
    match prepared e d with
    | Throw ex => (Throw ex, z)
    | Ok fd =>
        if row_vanishes e
        then (Ok (Success None), with_tasks z (delete taskId (clickup_task z)))
        else (Ok (Success (Some (apply_field_update (now e) fd r))),
              with_tasks z (<[taskId := apply_field_update (now e) fd r]>
                              (clickup_task z)))
    end.
Proof.
  intros Hr. unfold persist, prepared, bind at 1, lift at 1.
  destruct (log_custom_fields _) as [[]|]; [|reflexivity].
  unfold bind at 1, lift.
  destruct (buildFieldData e d) as [fd|]; [|reflexivity].
  unfold bind, interference, write, updateTaskCustomFields, ret.
  destruct (row_vanishes e).
  - simpl. rewrite lookup_delete_eq. reflexivity.
  - rewrite Hr. reflexivity.
Qed.

Lemma prepared_at_time e t d : prepared (at_time e t) d = prepared e d.
Proof. unfold prepared. by rewrite (buildFieldData_env e). Qed.

Lemma type_row_at_time e t x :
  match type_row e x with
  | Ok kr => exists r', type_row (at_time e t) x = Ok (fst kr, r')
  | Throw ex => type_row (at_time e t) x = Throw ex
  end.
Proof.
  unfold type_row. destruct (nullish x); [reflexivity|]. simpl.
  destruct (pg_text (get x "id")); [|reflexivity].
  destruct (param (get x "name")); [|reflexivity].
  destruct (param (workspaceId e)); [|reflexivity].
  simpl. eauto.
Qed.

Lemma type_rows_at_time e t l :
  match type_rows e l with
  | Ok krs => exists krs', type_rows (at_time e t) l = Ok krs' /\
                List.map fst krs' = List.map fst krs
  | Throw ex => type_rows (at_time e t) l = Throw ex
  end.
Proof.
  induction l as [|x l IH]; simpl; [by exists []|].
  pose proof (type_row_at_time e t x) as Hx.
  destruct (type_row e x) as [kr|ex].
  - destruct Hx as [r' ->].
    destruct (type_rows e l) as [krs|ex].
    + destruct IH as (krs' & -> & Hk). eexists. split; [reflexivity|]. simpl. by f_equal.
    + by rewrite IH.
  - by rewrite Hx.
Qed.

Lemma upserted_dom krs T :
  dom (upserted krs T) = list_to_set (List.map fst krs) ∪ dom T.
Proof.
  revert T. induction krs as [|kr krs IH]; intros T.
  - simpl. set_solver.
  - unfold upserted in *. simpl. rewrite IH, dom_insert_L. set_solver.
Qed.

Lemma filter_keys_dom (keys : list (list N)) (T : gmap (list N) (gmap string cell)) :
  dom (filter (fun kv : list N * gmap string cell => fst kv ∈ keys) T)
  = dom T ∩ list_to_set keys.
Proof.
  apply set_eq. intros k. rewrite elem_of_intersection, !elem_of_dom, elem_of_list_to_set.
  split.
  - intros [r Hr]. apply map_lookup_filter_Some in Hr as [Hr Hk]. eauto.
  - intros [[r Hr] Hk]. exists r. by apply map_lookup_filter_Some.
Qed.

Lemma filter_notin_empty (keys : list (list N)) (T : gmap (list N) (gmap string cell)) :
  dom T ⊆ list_to_set keys ->
  filter (fun kv : list N * gmap string cell => fst kv ∉ keys) T = ∅.
Proof.
  intros Hsub. apply map_empty. intros k. apply map_lookup_filter_None.
  right. intros r Hr Hk. apply Hk. simpl.
  assert (Hin : k ∈ (list_to_set keys : gset (list N)))
    by (apply Hsub, elem_of_dom; eauto).
  by apply elem_of_list_to_set in Hin.
Qed.

Lemma references_empty r : ~ references ∅ r.
Proof.
  unfold references. destruct (type_ref r); [|tauto].
  rewrite lookup_empty. by intros [? ?].
Qed.

(** A refresh that committed commits again, whatever became of the task
    rows, and stores the same set of types. *)
Lemma syncTaskTypes_again e t x v xB y :
  syncTaskTypes e x = (Ok v, xB) ->
  task_types y = task_types xB ->
  exists T, syncTaskTypes (at_time e t) y = (Ok v, with_types y T) /\
            dom T = dom (task_types xB).
Proof.
  rewrite !syncTaskTypes_refreshed. unfold refreshed.
  change (task_type_endpoint (at_time e t)) with (task_type_endpoint e).
  destruct (getCustomTaskTypes _) as [types|]; [|discriminate].
  destruct (iterate types) as [l|]; [|discriminate].
  pose proof (type_rows_at_time e t l) as Hrows.
  pose proof (type_rows_keys e l) as Hkeys.
  destruct (type_rows e l) as [krs|]; [|discriminate].
  destruct Hrows as (krs' & -> & Hfst).
  specialize (Hkeys _ eq_refl).
  assert (Hkeys' : List.map fst krs' = type_keys l) by congruence.
  destruct (0 <? length l)%nat.
  - case_decide; [discriminate|]. intros [= <- <-] HT. simpl in HT.
    assert (Hdom : dom (task_types y) = list_to_set (type_keys l)).
    { rewrite HT, filter_keys_dom, upserted_dom, Hkeys. set_solver. }
    rewrite decide_False.
    + eexists. split; [reflexivity|]. simpl.
      rewrite !filter_keys_dom, !upserted_dom, Hkeys, Hkeys', Hdom. set_solver.
    + rewrite filter_notin_empty.
      * intros (i & r & _ & Href). by apply references_empty in Href.
      * rewrite upserted_dom, Hkeys', Hdom. set_solver.
  - intros [= <- <-] HT. simpl in HT. eexists. split; [reflexivity|].
    simpl. rewrite !upserted_dom, HT, upserted_dom. rewrite Hkeys, Hkeys'. set_solver.
Qed.

Lemma syncTaskTypes_throw_again e t x ex x' :
  syncTaskTypes e x = (Throw ex, x') ->
  syncTaskTypes (at_time e t) x = (Throw ex, x).
Proof.
  rewrite !syncTaskTypes_refreshed. unfold refreshed.
  change (task_type_endpoint (at_time e t)) with (task_type_endpoint e).
  destruct (getCustomTaskTypes _) as [types|]; [|by intros [= <- <-]].
  destruct (iterate types) as [l|]; [|by intros [= <- <-]].
  pose proof (type_rows_at_time e t l) as Hrows.
  pose proof (type_rows_keys e l) as Hkeys.
  destruct (type_rows e l) as [krs|]; [|rewrite Hrows; by intros [= <- <-]].
  destruct Hrows as (krs' & -> & Hfst).
  specialize (Hkeys _ eq_refl).
  assert (Hkeys' : List.map fst krs' = type_keys l) by congruence.
  destruct (0 <? length l)%nat; [|discriminate].
  case_decide as Hex; [|discriminate]. intros [= <- <-].
  rewrite decide_True; [reflexivity|].
  destruct Hex as (i & r & Hi & Href). exists i, r. split; [done|].
  unfold references in *. destruct (type_ref r) as [k|]; [|done].
  destruct Href as [ty Hty]. apply map_lookup_filter_Some in Hty as [Hty Hk].
  assert (is_Some (upserted krs' (task_types x) !! k)) as [ty' Hty'].
  { apply elem_of_dom. rewrite upserted_dom.
    assert (k ∈ dom (upserted krs (task_types x))) as Hin by (apply elem_of_dom; eauto).
    rewrite upserted_dom in Hin. rewrite Hfst. done. }
  exists ty'. by apply map_lookup_filter_Some.
Qed.

Lemma snd_sync e taskId s d :
  fst (getTaskDetails (task_endpoint e)) = Ok d ->
  snd (syncTaskCustomFields e taskId s)
  = snd (syncVerifiedTask e taskId d (ensured e taskId d s)).
Proof.
  intros Hd. unfold syncTaskCustomFields.
  destruct (syncTaskBody_fetched e taskId d s Hd) as [-> _].
  by destruct (syncVerifiedTask _ _ _ _) as [[?|?] ?].
Qed.

Lemma snd_sync_throw e taskId s ex :
  fst (getTaskDetails (task_endpoint e)) = Throw ex ->
  snd (syncTaskCustomFields e taskId s) = s.
Proof.
  intros Hd. unfold syncTaskCustomFields, syncTaskBody, bind, lift.
  by rewrite Hd.
Qed.

Lemma ensured_present e taskId d s r :
  clickup_task s !! taskId = Some r -> ensured e taskId d s = s.
Proof. intros Hr. unfold ensured. by rewrite Hr. Qed.

Lemma run_cases e taskId d y ry :
  clickup_task y !! taskId = Some ry ->
  match syncTaskTypes e y with
  | (Throw _, _) => snd (syncVerifiedTask e taskId d y) = y
  | (Ok _, yB) =>
      if link_ok d (task_types yB) then
        exists r0, linkable ry r0 /\
          snd (syncVerifiedTask e taskId d y) =
            match prepared e d with
            | Throw _ => with_tasks yB (<[taskId := r0]> (clickup_task y))
            | Ok fd =>
                if row_vanishes e
                then with_tasks yB (delete taskId (clickup_task y))
                else with_tasks yB
                       (<[taskId := apply_field_update (now e) fd r0]>
                          (clickup_task y))
            end
      else snd (syncVerifiedTask e taskId d y) = yB
  end.
Proof.
  intros Hr.
  destruct (syncTaskTypes e y) as [[v|ex] yB] eqn:ET;
    destruct (syncTaskTypes_frame _ _ _ _ ET) as (Ht & Hc & Hthrow).
  2:{ rewrite syncVerifiedTask_steps. unfold bind at 1. rewrite ET.
      simpl. by apply (Hthrow ex). }
  assert (HrB : clickup_task yB !! taskId = Some ry) by (by rewrite Ht).
  pose proof (link_step_spec taskId d yB ry HrB) as Hlink.
  destruct (link_ok d (task_types yB)).
  - destruct Hlink as (r0 & Hl & Hlink). exists r0. split; [done|].
    rewrite syncVerifiedTask_steps. unfold bind at 1. rewrite ET.
    unfold bind at 1. rewrite Hlink.
    rewrite (persist_spec e taskId d _ r0) by (simpl; apply lookup_insert_eq).
    rewrite Ht.
    destruct (prepared e d) as [fd|]; [|reflexivity].
    destruct (row_vanishes e); simpl; unfold with_tasks; simpl.
    + by rewrite delete_insert_eq.
    + by rewrite insert_insert_eq.
  - rewrite syncVerifiedTask_steps. unfold bind at 1. rewrite ET.
    unfold bind at 1. by rewrite Hlink.
Qed.

Lemma stored_maps_row z taskId r :
  clickup_task z !! taskId = Some r ->
  stored_maps z taskId =
    (r !! "custom_fields"%string, r !! "relationships"%string,
     r !! "field_values"%string).
Proof. intros Hr. unfold stored_maps, stored. by rewrite Hr. Qed.

Lemma stored_maps_absent z taskId :
  clickup_task z !! taskId = None -> stored_maps z taskId = (None, None, None).
Proof. intros Hr. unfold stored_maps, stored. by rewrite Hr. Qed.

Lemma stored_maps_tasks z z' taskId :
  clickup_task z' !! taskId = clickup_task z !! taskId ->
  stored_maps z' taskId = stored_maps z taskId.
Proof. intros Hr. unfold stored_maps, stored. by rewrite Hr. Qed.

Lemma linkable_maps r r0 :
  linkable r r0 ->
  (r0 !! "custom_fields"%string, r0 !! "relationships"%string,
   r0 !! "field_values"%string)
  = (r !! "custom_fields"%string, r !! "relationships"%string,
     r !! "field_values"%string).
Proof. intros Hl. by rewrite !(linkable_frame r r0) by (done || discriminate). Qed.

Lemma link_ok_dom d T T' : dom T = dom T' -> link_ok d T = link_ok d T'.
Proof. intros Hd. unfold link_ok. by rewrite Hd. Qed.

Lemma sync_again_same_maps e t taskId s :
  let s1 := snd (syncTaskCustomFields e taskId s) in
  let s2 := snd (syncTaskCustomFields (at_time e t) taskId s1) in
  stored_maps s2 taskId = stored_maps s1 taskId.
Proof.
  intros s1 s2. subst s2.
  destruct (fst (getTaskDetails (task_endpoint e))) as [d|ex] eqn:Hd.
  2:{ rewrite (snd_sync_throw (at_time e t) taskId s1 ex) by exact Hd. done. }
  assert (Hd' : fst (getTaskDetails (task_endpoint (at_time e t))) = Ok d) by exact Hd.
  rewrite (snd_sync _ _ _ _ Hd').
  assert (Hs1 : s1 = snd (syncVerifiedTask e taskId d (ensured e taskId d s)))
    by (subst s1; by apply snd_sync).
  destruct (syncTaskBody_fetched e taskId d s Hd) as (_ & rs & Hrs & _).
  set (xA := ensured e taskId d s) in *.
  pose proof (run_cases e taskId d xA rs Hrs) as Hrun.
  destruct (syncTaskTypes e xA) as [[v|ex] xB] eqn:ET.
  2:{ (* the refresh throws, and throws again *)
    rewrite Hrun in Hs1. rewrite Hs1.
    rewrite (ensured_present _ _ _ _ _ Hrs).
    pose proof (run_cases (at_time e t) taskId d xA rs Hrs) as Hrun2.
    rewrite (syncTaskTypes_throw_again _ t _ _ _ ET) in Hrun2.
    by rewrite Hrun2. }
  destruct (syncTaskTypes_frame _ _ _ _ ET) as (Ht & Hc & _).
  destruct (link_ok d (task_types xB)) eqn:Hok.
  - destruct Hrun as (r0 & Hl & Hrun). rewrite Hrun in Hs1.
    destruct (prepared e d) as [fd|ex] eqn:Hp.
    + destruct (row_vanishes e) eqn:Hv.
      * (* the row vanishes in both runs *)
        assert (Hrow1 : clickup_task s1 !! taskId = None)
          by (rewrite Hs1; simpl; apply lookup_delete_eq).
        rewrite (stored_maps_absent s1) by done.
        destruct (syncTaskBody_fetched (at_time e t) taskId d s1 Hd')
          as (_ & p & Hp2 & _).
        set (y := ensured (at_time e t) taskId d s1) in *.
        pose proof (run_cases (at_time e t) taskId d y p Hp2) as Hrun2.
        assert (HTy : task_types y = task_types xB).
        { subst y. rewrite (proj2 (ensured_changes _ _ _ _)). by rewrite Hs1. }
        destruct (syncTaskTypes_again e t xA v xB y ET HTy) as (T & ET2 & HdT).
        rewrite ET2 in Hrun2. simpl task_types in Hrun2.
        rewrite (link_ok_dom d T (task_types xB) HdT), Hok in Hrun2.
        destruct Hrun2 as (r0' & Hl' & ->).
        rewrite prepared_at_time, Hp. simpl row_vanishes. rewrite Hv.
        apply stored_maps_absent. simpl. apply lookup_delete_eq.
      * (* the UPDATE writes the same documents again *)
        assert (Hrow1 : clickup_task s1 !! taskId
                        = Some (apply_field_update (now e) fd r0))
          by (rewrite Hs1; simpl; apply lookup_insert_eq).
        rewrite (stored_maps_row s1 _ _ Hrow1).
        rewrite (ensured_present _ _ _ _ _ Hrow1).
        pose proof (run_cases (at_time e t) taskId d s1 _ Hrow1) as Hrun2.
        assert (HTy : task_types s1 = task_types xB) by (by rewrite Hs1).
        destruct (syncTaskTypes_again e t xA v xB s1 ET HTy) as (T & ET2 & HdT).
        rewrite ET2 in Hrun2. simpl task_types in Hrun2.
        rewrite (link_ok_dom d T (task_types xB) HdT), Hok in Hrun2.
        destruct Hrun2 as (r0' & Hl' & ->).
        rewrite prepared_at_time, Hp. simpl row_vanishes. rewrite Hv.
        rewrite (stored_maps_row _ taskId (apply_field_update t fd r0'))
          by (simpl; apply lookup_insert_eq).
        destruct (apply_field_update_maps t fd r0') as (-> & -> & ->).
        by destruct (apply_field_update_maps (now e) fd r0) as (-> & -> & ->).
    + (* the field processing throws in both runs *)
      assert (Hrow1 : clickup_task s1 !! taskId = Some r0)
        by (rewrite Hs1; simpl; apply lookup_insert_eq).
      rewrite (stored_maps_row s1 _ _ Hrow1).
      rewrite (ensured_present _ _ _ _ _ Hrow1).
      pose proof (run_cases (at_time e t) taskId d s1 _ Hrow1) as Hrun2.
      assert (HTy : task_types s1 = task_types xB) by (by rewrite Hs1).
      destruct (syncTaskTypes_again e t xA v xB s1 ET HTy) as (T & ET2 & HdT).
      rewrite ET2 in Hrun2. simpl task_types in Hrun2.
      rewrite (link_ok_dom d T (task_types xB) HdT), Hok in Hrun2.
      destruct Hrun2 as (r0' & Hl' & ->).
      rewrite prepared_at_time, Hp.
      rewrite (stored_maps_row _ taskId r0') by (simpl; apply lookup_insert_eq).
      by apply linkable_maps.
  - (* the linkage is rejected in both runs *)
    rewrite Hrun in Hs1.
    assert (Hrow1 : clickup_task s1 !! taskId = Some rs) by (by rewrite Hs1, Ht).
    rewrite (ensured_present _ _ _ _ _ Hrow1).
    pose proof (run_cases (at_time e t) taskId d s1 _ Hrow1) as Hrun2.
    assert (HTy : task_types s1 = task_types xB) by (by rewrite Hs1).
    destruct (syncTaskTypes_again e t xA v xB s1 ET HTy) as (T & ET2 & HdT).
    rewrite ET2 in Hrun2. simpl task_types in Hrun2.
    rewrite (link_ok_dom d T (task_types xB) HdT), Hok in Hrun2.
    rewrite Hrun2. by apply stored_maps_tasks.
Qed.

Lemma sync_after_success_same_maps e e2 taskId s r :
  task_endpoint e2 = task_endpoint e ->
  row_vanishes e2 = false ->
  fst (syncTaskCustomFields e taskId s) = Success (Some r) ->
  let s1 := snd (syncTaskCustomFields e taskId s) in
  stored_maps (snd (syncTaskCustomFields e2 taskId s1)) taskId = stored_maps s1 taskId.
Proof.
  intros He2 Hv2 Hres s1. subst s1.
  destruct (syncTaskCustomFields e taskId s) as [res s1] eqn:ES1. simpl in *. subst res.
  destruct (sync_shape _ _ _ _ _ ES1)
    as [(ex & _ & [=] & _)|(d & Hd & _ & _ & r0 & _ & Hcases)].
  destruct Hcases as [(f & [=] & _)|[([=] & _)|(fd & Hb & [= ->] & Hrow & _)]].
  destruct (syncTaskCustomFields e2 taskId s1) as [res2 s2] eqn:ES2. simpl.
  destruct (sync_shape _ _ _ _ _ ES2)
    as [(ex & _ & _ & ->)|(d2 & Hd2 & _ & _ & r2 & Hl2 & Hcases2)]; [done|].
  rewrite He2 in Hd2. assert (d2 = d) as -> by congruence.
  rewrite Hrow in Hl2. simpl in Hl2.
  rewrite (stored_maps_row s1 _ _ Hrow).
  destruct Hcases2 as [(f & _ & Hrow2)|[(_ & _ & Hv)|(fd2 & Hb2 & _ & Hrow2 & _)]].
  - rewrite (stored_maps_row s2 _ _ Hrow2). by apply linkable_maps.
  - congruence.
  - rewrite (buildFieldData_env e e2) in Hb2. assert (fd2 = fd) as -> by congruence.
    rewrite (stored_maps_row s2 _ _ Hrow2).
    destruct (apply_field_update_maps (now e2) fd r2) as (-> & -> & ->).
    by destruct (apply_field_update_maps (now e) fd r0) as (-> & -> & ->).
Qed.

(** C2: a second [syncTaskCustomFields] of a task, run right after the
    first against the same upstream (the same answers of the task and type
    endpoints, the same configuration) at any later instant, leaves the
    stored [custom_fields], [relationships] and [field_values] of the task
    exactly as the first call left them.  When the first call succeeded the
    same holds whatever the type endpoint answers the second time, as long
    as the task detail is unchanged and no other writer deletes the row. *)
Theorem C2_sync_twice_same_maps e t taskId s :
  let s1 := snd (syncTaskCustomFields e taskId s) in
  stored_maps (snd (syncTaskCustomFields (at_time e t) taskId s1)) taskId
    = stored_maps s1 taskId /\
  (forall e2 r,
     task_endpoint e2 = task_endpoint e ->
     row_vanishes e2 = false ->
     fst (syncTaskCustomFields e taskId s) = Success (Some r) ->
     stored_maps (snd (syncTaskCustomFields e2 taskId s1)) taskId
       = stored_maps s1 taskId).
Proof.
  intros s1. split.
  - apply sync_again_same_maps.
  - intros e2 r He2 Hv2 Hres. by apply (sync_after_success_same_maps e e2 taskId s r).
Qed.




(** C1: the sample task has a custom field named "Client" followed by a
    pictograph, with the value "Acme"; its clean name is "Client", which the
    mapping table sends to the column [client]; the sync succeeds, and the
    value map it stores is empty. *)
Theorem C1_mapped_value_not_staged :
  let e := sample_env (JStr (u "Fix pump")) [] false in
  let r := syncTaskCustomFields e (u "t1") sample_db in
  clean_name (u "Client " ++ [127919%N]) = u "Client" /\
  m_name <$> mapFieldName (u "Client") = Some (u "client") /\
  get sample_field "value" = JStr (u "Acme") /\
  success (fst r) = true /\
  stored (snd r) (u "t1") "field_values" = Some (CJson (JObj [])).
Proof. cbv zeta. repeat apply conj; vm_compute; reflexivity. Qed.

(** C3: the row of the sample task is there when the sync verifies it and
    is deleted before the UPDATE; the UPDATE matches no row, nothing of it
    is stored, and the sync answers [{success: true, task: null}]. *)
Theorem C3_zero_rows_reported_as_success :
  let e := sample_env (JStr (u "Fix pump")) [] true in
  let r := syncTaskCustomFields e (u "t1") sample_db in
  clickup_task sample_db !! u "t1" = Some sample_row /\
  fst r = Success None /\ success (fst r) = true /\
  clickup_task (snd r) !! u "t1" = None.
Proof. cbv zeta. repeat apply conj; vm_compute; reflexivity. Qed.
End Proofs.

(** * The remote client beyond the detail fetch *)

Lemma retry_loop_attempts {A} (fn : nat -> outcome A) retries delay todo : forall i,
  (attempts (snd (retry_loop fn retries delay todo i)) <= todo)%nat.
Proof.
  induction todo as [|todo IH]; intros i; simpl; [lia|].
  destruct (fn i) as [r|ex]; simpl; [lia|].
  destruct (transient ex && (Z.of_nat i <? Z.of_nat retries - 1)); simpl; [|lia].
  specialize (IH (S i)).
  destruct (retry_loop fn retries delay todo (S i)) as [res evs]. simpl in *. lia.
Qed.

Lemma retry_loop_slept {A} (fn : nat -> outcome A) retries delay todo : forall i,
  0 <= delay -> (i + todo = retries)%nat ->
  (todo = 0%nat -> slept (snd (retry_loop fn retries delay todo i)) = 0) /\
  ((1 <= todo)%nat ->
   2 * slept (snd (retry_loop fn retries delay todo i))
   <= delay * (Z.of_nat retries * (Z.of_nat retries - 1)
               - Z.of_nat i * (Z.of_nat i + 1))).
Proof.
  induction todo as [|todo IH]; intros i Hd Hi.
  - split; [reflexivity | lia].
  - split; [lia | intros _]. simpl.
    assert (Hpos : 0 <= delay * (Z.of_nat retries * (Z.of_nat retries - 1)
                                 - Z.of_nat i * (Z.of_nat i + 1))) by nia.
    destruct (fn i) as [r|ex]; simpl; [lia|].
    destruct (transient ex && (Z.of_nat i <? Z.of_nat retries - 1)) eqn:Hc;
      simpl; [|lia].
    apply andb_prop in Hc as [_ Hlt]. apply Z.ltb_lt in Hlt.
    destruct (IH (S i) Hd ltac:(lia)) as [_ IH1].
    specialize (IH1 ltac:(lia)).
    destruct (retry_loop fn retries delay todo (S i)) as [res evs]. simpl in *. nia.
Qed.

Lemma retry_loop_defined {A} (fn : nat -> outcome A) retries delay todo : forall i,
  (i + todo = retries)%nat -> (1 <= todo)%nat ->
  fst (retry_loop fn retries delay todo i) <> Ok None.
Proof.
  induction todo as [|todo IH]; intros i Hi Ht; [lia|]. simpl.
  destruct (fn i) as [r|ex]; simpl; [discriminate|].
  destruct (transient ex && (Z.of_nat i <? Z.of_nat retries - 1)) eqn:Hc;
    simpl; [|discriminate].
  apply andb_prop in Hc as [_ Hlt]. apply Z.ltb_lt in Hlt.
  specialize (IH (S i) ltac:(lia) ltac:(lia)).
  destruct (retry_loop fn retries delay todo (S i)) as [res evs]. exact IH.
Qed.

(** X1: for every number of retries and every base delay, [retryRequest]
    calls the function at most [retries] times, waits at most
    [delay * retries * (retries - 1) / 2] milliseconds in all, and returns
    undefined exactly when [retries] is zero. *)
Theorem retryRequest_budget {A} (fn : nat -> outcome A) (retries : nat) (delay : Z) :
  0 <= delay ->
  (attempts (snd (retryRequest fn retries delay)) <= retries)%nat /\
  2 * slept (snd (retryRequest fn retries delay))
    <= delay * Z.of_nat retries * (Z.of_nat retries - 1) /\
  (fst (retryRequest fn retries delay) = Ok None <-> retries = 0%nat).
Proof.
  intros Hd. unfold retryRequest. split; [apply retry_loop_attempts|]. split.
  - destruct (retry_loop_slept fn retries delay retries 0%nat Hd eq_refl) as [H0 H1].
    destruct retries as [|n]; [rewrite H0 by reflexivity; lia|].
    specialize (H1 ltac:(lia)). simpl Z.of_nat in H1 at 3 4. lia.
  - split.
    + intros Hres. destruct retries as [|n]; [reflexivity|].
      exfalso. revert Hres. apply retry_loop_defined; lia.
    + intros ->. reflexivity.
Qed.

Lemma bad_gateway_dec (ex : exn) :
  {ex = HttpError (Some 502)} + {ex <> HttpError (Some 502)}.
Proof.
  destruct ex as [[st|]| |]; try (right; discriminate).
  destruct (Z.eq_dec st 502) as [->|Hne]; [by left | right; congruence].
Defined.

Lemma getListTasks_eq (ep : nat -> outcome (list (ustring * jsval))) :
  getListTasks ep =
    match retryRequest ep 3 2000 with
    | (Ok (Some data), evs) => (Ok (get (JObj data) "tasks"), evs)
    | (Ok None, evs) => (Throw TypeError, evs)
    | (Throw error, evs) =>
        if bad_gateway_dec error then (Ok (JArr []), evs) else (Throw error, evs)
    end.
Proof.
  unfold getListTasks.
  destruct (retryRequest ep 3 2000) as [[[d|]|ex] evs]; try reflexivity.
  destruct (bad_gateway_dec ex) as [->|Hne]; [reflexivity|].
  destruct ex as [[st|]| |]; try reflexivity.
  destruct st as [|p|p]; try reflexivity.
  do 10 (try (destruct p as [p|p|]; try reflexivity)).
  by destruct Hne.
Qed.

(** X2: [getListTasks] makes the attempts of the detail fetch and fails with
    the same error, except that a final 502 is never thrown: an upstream
    that answers 502 three times yields the empty list after waits of
    2000 ms and 4000 ms. *)
Theorem getListTasks_bad_gateway (ep : nat -> outcome (list (ustring * jsval))) :
  fst (getListTasks ep) <> Throw (HttpError (Some 502)) /\
  snd (getListTasks ep) = snd (getTaskDetails ep) /\
  (forall ex, ex <> HttpError (Some 502) ->
     (fst (getTaskDetails ep) = Throw ex <-> fst (getListTasks ep) = Throw ex)) /\
  ((forall i, (i < 3)%nat -> ep i = Throw (HttpError (Some 502))) ->
   getListTasks ep =
     (Ok (JArr []), [Attempt 0; Sleep 2000; Attempt 1; Sleep 4000; Attempt 2])).
Proof.
  rewrite getListTasks_eq. unfold getTaskDetails. repeat apply conj.
  - destruct (retryRequest ep 3 2000) as [[[d|]|ex] evs]; simpl; try discriminate.
    destruct (bad_gateway_dec ex); simpl; congruence.
  - destruct (retryRequest ep 3 2000) as [[[d|]|ex] evs]; simpl; try reflexivity.
    by destruct (bad_gateway_dec ex).
  - intros ex Hex.
    destruct (retryRequest ep 3 2000) as [[[d|]|ex'] evs]; simpl; try tauto;
      try (split; discriminate).
    destruct (bad_gateway_dec ex') as [->|Hne]; simpl; [|tauto].
    split; [congruence | discriminate].
  - intros H502. unfold retryRequest. simpl.
    rewrite (H502 0%nat) by lia. simpl.
    rewrite (H502 1%nat) by lia. simpl.
    rewrite (H502 2%nat) by lia. reflexivity.
Qed.

Lemma getSpaceTasks_loop_pages ep (pages : nat -> list jsval) k :
  forall fuel page acc,
  (forall j, (page <= j <= page + k)%nat ->
     exists body, ep j = Ok body /\ get (JObj body) "tasks" = JArr (pages j)) ->
  (forall j, (page <= j < page + k)%nat -> length (pages j) = 100%nat) ->
  length (pages (page + k)%nat) <> 100%nat ->
  (k < fuel)%nat ->
  getSpaceTasks_loop fuel ep page acc =
    Some (Ok (acc ++ concat (List.map pages (seq page (S k)))), page_trace page k).
Proof.
  induction k as [|k IH]; intros fuel page acc Hb Hfull Hlast Hfuel;
    (destruct fuel as [|fuel]; [lia|]); cbn [getSpaceTasks_loop];
    destruct (Hb page ltac:(lia)) as (body & -> & Ht); rewrite Ht;
    cbn [spread]; cbv beta iota.
  - replace (page + 0)%nat with page in Hlast by lia.
    apply Nat.eqb_neq in Hlast. rewrite Hlast. simpl. by rewrite app_nil_r.
  - rewrite (Hfull page) by lia. cbn [Nat.eqb]. cbv beta iota.
    rewrite (IH fuel (S page) (acc ++ pages page)).
    + cbn [seq List.map concat page_trace]. by rewrite <- app_assoc.
    + intros j Hj. apply Hb. lia.
    + intros j Hj. apply Hfull. lia.
    + replace (S page + k)%nat with (page + S k)%nat by lia. exact Hlast.
    + lia.
Qed.

(** X3: [getSpaceTasks] reads the pages in order up to the first one that
    does not hold exactly one hundred tasks, pauses 200 ms between two
    requests and returns the tasks of all the pages read, in order. *)
Theorem getSpaceTasks_pages ep (pages : nat -> list jsval) (k fuel : nat) :
  (forall j, (j <= k)%nat ->
     exists body, ep j = Ok body /\ get (JObj body) "tasks" = JArr (pages j)) ->
  (forall j, (j < k)%nat -> length (pages j) = 100%nat) ->
  length (pages k) <> 100%nat ->
  (k < fuel)%nat ->
  getSpaceTasks fuel ep =
    Some (Ok (concat (List.map pages (seq 0 (S k)))), page_trace 0 k).
Proof.
  intros Hb Hfull Hlast Hfuel. unfold getSpaceTasks.
  rewrite (getSpaceTasks_loop_pages ep pages k); try done.
  - intros j Hj. apply Hb. lia.
  - intros j Hj. apply Hfull. lia.
Qed.

Lemma getSpaceTasks_loop_unbounded ep :
  (forall j, exists body l,
     ep j = Ok body /\ get (JObj body) "tasks" = JArr l /\ length l = 100%nat) ->
  forall fuel page acc, getSpaceTasks_loop fuel ep page acc = None.
Proof.
  intros Hfull. induction fuel as [|fuel IH]; intros page acc; [reflexivity|].
  cbn [getSpaceTasks_loop]. destruct (Hfull page) as (body & l & -> & -> & Hl).
  cbn [spread]. cbv beta iota. rewrite Hl. simpl. by rewrite IH.
Qed.

(** X4: the listing of a space has no page limit: against an upstream whose
    every page holds exactly one hundred tasks the loop never ends, whatever
    the number of iterations allowed. *)
Theorem getSpaceTasks_unbounded ep :
  (forall j, exists body l,
     ep j = Ok body /\ get (JObj body) "tasks" = JArr l /\ length l = 100%nat) ->
  forall fuel, getSpaceTasks fuel ep = None.
Proof.
  intros Hfull fuel. by apply getSpaceTasks_loop_unbounded.
Qed.

Lemma getSpaceTasks_loop_failure ep ex k :
  forall fuel page acc,
  (forall j, (page <= j < page + k)%nat ->
     exists body l,
       ep j = Ok body /\ get (JObj body) "tasks" = JArr l /\ length l = 100%nat) ->
  ep (page + k)%nat = Throw ex ->
  (k < fuel)%nat ->
  getSpaceTasks_loop fuel ep page acc = Some (Throw ex, page_trace page k).
Proof.
  induction k as [|k IH]; intros fuel page acc Hfull Hlast Hfuel;
    (destruct fuel as [|fuel]; [lia|]); cbn [getSpaceTasks_loop].
  - replace (page + 0)%nat with page in Hlast by lia. by rewrite Hlast.
  - destruct (Hfull page ltac:(lia)) as (body & l & -> & -> & Hl).
    cbn [spread]. cbv beta iota. rewrite Hl. simpl.
    rewrite (IH fuel (S page) (acc ++ l)); try done.
    + intros j Hj. apply Hfull. lia.
    + replace (S page + k)%nat with (page + S k)%nat by lia. exact Hlast.
    + lia.
Qed.

(** X5: a page request of [getSpaceTasks] that fails is not tried again,
    also when the error is a 502 or a 429, and the error is thrown in place
    of the tasks of the pages read before it. *)
Theorem getSpaceTasks_failure ep ex (k fuel : nat) :
  (forall j, (j < k)%nat ->
     exists body l,
       ep j = Ok body /\ get (JObj body) "tasks" = JArr l /\ length l = 100%nat) ->
  ep k = Throw ex ->
  (k < fuel)%nat ->
  getSpaceTasks fuel ep = Some (Throw ex, page_trace 0 k).
Proof.
  intros Hfull Hlast Hfuel. unfold getSpaceTasks.
  apply getSpaceTasks_loop_failure; try done.
  intros j Hj. apply Hfull. lia.
Qed.

Lemma assoc_obj_set_eq k v l : assoc k (obj_set k v l) = Some v.
Proof.
  induction l as [|[k' v'] l IH]; simpl.
  - by rewrite decide_True.
  - destruct (decide (k = k')) as [->|Hne]; simpl.
    + by rewrite decide_True.
    + by rewrite decide_False.
Qed.

Lemma normalize_custom_fields data :
  get (normalizeTaskDetails data) "custom_fields"
  = js_or (get (JObj data) "custom_fields") (JArr []).
Proof.
  unfold normalizeTaskDetails, get at 1.
  rewrite !assoc_obj_set_ne by (by vm_compute).
  by rewrite assoc_obj_set_eq.
Qed.

Lemma normalize_parent data :
  get (normalizeTaskDetails data) "parent" = js_or (get (JObj data) "parent") JNull.
Proof.
  unfold normalizeTaskDetails, get at 1.
  rewrite !assoc_obj_set_ne by (by vm_compute).
  by rewrite assoc_obj_set_eq.
Qed.

Lemma normalize_custom_type data :
  get (normalizeTaskDetails data) "custom_type"
  = if truthy (get (JObj data) "custom_type")
    then JObj [(u "id", get (get (JObj data) "custom_type") "id");
               (u "name", get (get (JObj data) "custom_type") "name");
               (u "color", get (get (JObj data) "custom_type") "color")]
    else JNull.
Proof.
  unfold normalizeTaskDetails, get at 1.
  by rewrite assoc_obj_set_eq.
Qed.

(** X6: [getCustomFields] fails exactly as the detail fetch does, and
    otherwise returns the [custom_fields] of the response when that value is
    truthy and a new empty array when it is not: never null or undefined. *)
Theorem getCustomFields_never_null ep :
  match retryRequest ep 3 2000 with
  | (Ok (Some data), evs) =>
      getCustomFields ep
      = (Ok (js_or (get (JObj data) "custom_fields") (JArr [])), evs)
  | (Ok None, evs) => getCustomFields ep = (Throw TypeError, evs)
  | (Throw ex, evs) => getCustomFields ep = (Throw ex, evs)
  end /\
  (forall v, fst (getCustomFields ep) = Ok v -> truthy v = true).
Proof.
  unfold getCustomFields, getTaskDetails.
  destruct (retryRequest ep 3 2000) as [[[data|]|ex] evs]; cbv beta iota;
    try (split; [reflexivity | discriminate]).
  change (truthy (normalizeTaskDetails data)) with true. cbn [negb fst].
  rewrite normalize_custom_fields.
  assert (Ht : forall x, truthy (js_or x (JArr [])) = true).
  { intros x. unfold js_or. by destruct (truthy x) eqn:E. }
  split.
  - f_equal. f_equal. unfold js_or at 1. by rewrite Ht.
  - intros v [= <-]. unfold js_or at 1. by rewrite Ht.
Qed.

(** X7: the object [getTaskDetails] returns has a [parent] that is null or
    truthy, a [custom_type] that is null or an object with exactly the
    keys id, name and color, and every other property of the response body
    unchanged. *)
Theorem getTaskDetails_normal_form ep d :
  fst (getTaskDetails ep) = Ok d ->
  exists data,
    fst (retryRequest ep 3 2000) = Ok (Some data) /\
    (get d "parent" = JNull \/
     (truthy (get d "parent") = true /\ get d "parent" = get (JObj data) "parent")) /\
    (get d "custom_type" = JNull \/
     exists i n c, get d "custom_type"
                   = JObj [(u "id", i); (u "name", n); (u "color", c)]) /\
    (forall k, u k <> u "custom_type" -> u k <> u "parent" ->
               u k <> u "custom_fields" -> get d k = get (JObj data) k).
Proof.
  unfold getTaskDetails.
  destruct (retryRequest ep 3 2000) as [[[data|]|ex] evs] eqn:Hr; simpl;
    try discriminate.
  intros [= <-]. exists data. repeat apply conj; try reflexivity.
  - rewrite normalize_parent. unfold js_or.
    destruct (truthy (get (JObj data) "parent")) eqn:E; [right | left]; done.
  - rewrite normalize_custom_type.
    destruct (truthy (get (JObj data) "custom_type")); [right | left]; eauto.
  - intros k H1 H2 H3. by apply get_normalizeTaskDetails.
Qed.

(** * Name cleaning and the field catalog *)










Section MoreProofs.
Context `{JsBuiltins}.

(** ** The field catalog *)

Lemma dom_obj_assign (k : list N) (v : jsval) (m : gmap (list N) jsval) :
  dom (obj_assign k v m)
  = if bool_decide (k = u "__proto__") then dom m else {[k]} ∪ dom m.
Proof.
  unfold obj_assign. destruct (decide (k = u "__proto__")) as [E|E].
  - by rewrite bool_decide_eq_true_2.
  - rewrite bool_decide_eq_false_2 by done. by rewrite dom_insert_L.
Qed.

Lemma processField_catalogue e fd field :
  match processField e fd field with
  | Ok fd' =>
      bad_name field = false /\
      dom (customFields fd')
      = dom (customFields fd) ∪ list_to_set (defined_names [field])
  | Throw ex => ex = TypeError /\ bad_name field = true
  end.
Proof.
  unfold processField, bad_name. cbn [defined_names].
  destruct (truthy field) eqn:Hf; cbn [negb orb andb].
  2:{ split; [done|]. destruct (get field "name"); set_solver. }
  destruct (get field "name") as [| |b|n|raw|t|l|l] eqn:Hn; cbn [truthy negb];
    try (split; [done | set_solver]).
  - destruct b; cbn [negb andb]; [done | split; [done | set_solver]].
  - destruct (n =? 0); cbn [negb andb]; [split; [done | set_solver] | done].
  - destruct raw as [|c raw]; [split; [done | set_solver]|].
    cbn [negb andb]. cbv zeta.
    set (cn := clean_name (c :: raw)).
    assert (Hd : forall v,
      dom (obj_assign cn v (customFields fd))
      = dom (customFields fd)
        ∪ list_to_set (if negb (bool_decide (cn = u "__proto__"))
                       then cn :: [] else [])).
    { intros v. rewrite dom_obj_assign.
      destruct (bool_decide (cn = u "__proto__")); cbn [negb]; set_solver. }
    destruct (negb (nullish (get field "value"))).
    + destruct (normalizeFieldValue field None);
        try destruct (mapFieldName cn); cbn [customFields set_fieldValues set_customFields];
        (split; [done | apply Hd]).
    + cbn [customFields set_customFields]. split; [done | apply Hd].
Qed.

Lemma defined_names_cons field fields :
  defined_names (field :: fields) = defined_names [field] ++ defined_names fields.
Proof.
  cbn [defined_names]. destruct (get field "name"); try done.
  by destruct (truthy field && _ && _).
Qed.

Lemma processFields_catalogue e fields : forall fd,
  match processFields e fd fields with
  | Ok fd' =>
      existsb bad_name fields = false /\
      dom (customFields fd')
      = dom (customFields fd) ∪ list_to_set (defined_names fields)
  | Throw ex => ex = TypeError /\ existsb bad_name fields = true
  end.
Proof.
  induction fields as [|field fields IH]; intros fd.
  - simpl. split; [done | set_solver].
  - cbn [processFields existsb]. rewrite defined_names_cons.
    pose proof (processField_catalogue e fd field) as Hf.
    destruct (processField e fd field) as [fd1|ex].
    + destruct Hf as [Hb Hd]. rewrite Hb. cbn [orb].
      specialize (IH fd1). destruct (processFields e fd1 fields) as [fd2|ex].
      * destruct IH as [Hb2 Hd2]. split; [done|].
        rewrite Hd2, Hd, list_to_set_app_L. set_solver.
      * exact IH.
    + destruct Hf as [-> ->]. done.
Qed.

(** X9: the field data of a task is built unless some field has a truthy
    name that is not a string, which throws a TypeError; when it is built,
    the keys of its field-definition map are exactly the clean names of the
    fields that have a non-empty name, the name [__proto__] excepted:
    whether a field has a value or a mapping plays no part. *)
Theorem buildFieldData_catalogue e d fields :
  get d "custom_fields" = JArr fields ->
  match buildFieldData e d with
  | Ok fd =>
      existsb bad_name fields = false /\
      dom (customFields fd) = list_to_set (defined_names fields)
  | Throw ex => ex = TypeError /\ existsb bad_name fields = true
  end.
Proof.
  intros Hd. unfold buildFieldData. rewrite Hd.
  pose proof (processFields_catalogue e fields (initialFieldData d)) as Hp.
  destruct (processFields e (initialFieldData d) fields) as [fd|ex]; [|exact Hp].
  destruct Hp as [Hb Hdom]. split; [done|].
  rewrite Hdom. cbn [initialFieldData customFields]. set_solver.
Qed.

(** ** Referential integrity *)

Ltac columns :=
  repeat first
    [ rewrite lookup_set_col_eq
    | rewrite lookup_coalesce_col_eq
    | rewrite lookup_set_col_ne by discriminate
    | rewrite lookup_coalesce_col_ne by discriminate
    | rewrite lookup_insert_eq
    | rewrite lookup_delete_eq
    | rewrite lookup_insert_ne by discriminate
    | rewrite lookup_delete_ne by discriminate ].

Lemma keeps_ret {A} (a : A) : keeps (ret a).
Proof. by intros s Hs. Qed.

Lemma keeps_lift {A} (o : outcome A) : keeps (lift o).
Proof. by intros s Hs. Qed.

Lemma keeps_read {A} (f : db -> A) : keeps (read f).
Proof. by intros s Hs. Qed.

Lemma keeps_bind {A B} (m : M A) (k : A -> M B) :
  keeps m -> (forall a, keeps (k a)) -> keeps (bind m k).
Proof.
  intros Hm Hk s Hs. unfold bind. specialize (Hm s Hs).
  destruct (m s) as [[a|ex] s1]; simpl in *; [by apply Hk | done].
Qed.

Lemma keeps_transaction {A} (m : M A) : keeps m -> keeps (transaction m).
Proof.
  intros Hm s Hs. unfold transaction. specialize (Hm s Hs).
  by destruct (m s) as [[a|ex] s1].
Qed.

Lemma keeps_for_each {A} (f : A -> M unit) l :
  (forall a, keeps (f a)) -> keeps (for_each f l).
Proof.
  intros Hf. induction l as [|a l IH]; simpl; [apply keeps_ret|].
  apply keeps_bind; [apply Hf | by intros _].
Qed.

Lemma integrity_put_row s id r' :
  ref_integrity s ->
  (forall k, type_ref r' = Some k -> is_Some (task_types s !! k)) ->
  ref_integrity (with_tasks s (<[id := r']> (clickup_task s))).
Proof.
  intros Hs Hr id' r k. simpl.
  destruct (decide (id' = id)) as [->|Hne].
  - rewrite lookup_insert_eq. intros [= <-]. apply Hr.
  - rewrite lookup_insert_ne by done. apply Hs.
Qed.

Lemma integrity_delete_row s id :
  ref_integrity s -> ref_integrity (with_tasks s (delete id (clickup_task s))).
Proof.
  intros Hs id' r k. simpl. intros Hl. apply lookup_delete_Some in Hl as [_ Hl].
  by apply (Hs id').
Qed.

Lemma integrity_types s T' :
  ref_integrity s ->
  (forall id r k, clickup_task s !! id = Some r -> type_ref r = Some k ->
     is_Some (task_types s !! k) -> is_Some (T' !! k)) ->
  ref_integrity (with_types s T').
Proof.
  intros Hs HT id r k Hr Hk. simpl in *. apply (HT id r k Hr Hk), (Hs id r k Hr Hk).
Qed.

Lemma type_ref_same (r r' : gmap string cell) :
  r' !! "task_type_id"%string = r !! "task_type_id"%string -> type_ref r' = type_ref r.
Proof. unfold type_ref. by intros ->. Qed.

Lemma type_ref_apply_field_update t fd r :
  type_ref (apply_field_update t fd r) = type_ref r.
Proof. apply type_ref_same. unfold apply_field_update. by columns. Qed.

Lemma type_ref_placeholderRow e taskId d : type_ref (placeholderRow e taskId d) = None.
Proof.
  unfold type_ref, placeholderRow, make_row. cbn [fold_right fst snd].
  columns. by rewrite lookup_empty.
Qed.

Lemma keeps_updateTaskCustomFields t taskId fd :
  keeps (updateTaskCustomFields t taskId fd).
Proof.
  intros s Hs. unfold updateTaskCustomFields.
  destruct (clickup_task s !! taskId) as [r|] eqn:Hr; [|done]. simpl.
  apply integrity_put_row; [done|]. intros k. rewrite type_ref_apply_field_update.
  by apply (Hs taskId).
Qed.

Lemma keeps_interference e taskId : keeps (interference e taskId).
Proof.
  intros s Hs. unfold interference, write. simpl.
  destruct (row_vanishes e); [by apply integrity_delete_row | done].
Qed.

Lemma keeps_ensureTaskRow e taskId d : keeps (ensureTaskRow e taskId d).
Proof.
  intros s Hs. rewrite ensureTaskRow_spec. simpl. unfold ensured.
  destruct (clickup_task s !! taskId); [done|].
  apply integrity_put_row; [done|]. intros k.
  by rewrite type_ref_placeholderRow.
Qed.

Lemma keeps_upsert_type e t : keeps (upsert_type e t).
Proof.
  intros s Hs. rewrite upsert_type_eq. destruct (type_row e t) as [kr|ex]; [|done].
  simpl. apply integrity_types; [done|]. intros _ _ k _ _ Hk.
  destruct (decide (k = fst kr)) as [->|Hne].
  - rewrite lookup_insert_eq. by eexists.
  - by rewrite lookup_insert_ne.
Qed.

Lemma keeps_delete_types_not_in keys : keeps (delete_types_not_in keys).
Proof.
  intros s Hs. unfold delete_types_not_in.
  destruct (decide (map_Exists _ (clickup_task s))) as [Hex|Hex]; [done|].
  simpl. apply integrity_types; [done|]. intros id r k Hr Hk [ty Hty].
  exists ty. apply map_lookup_filter_Some. split; [done|]. simpl.
  destruct (decide (k ∈ keys)) as [Hin|Hin]; [done|].
  exfalso. apply Hex. exists id, r. split; [done|].
  unfold references. rewrite Hk. exists ty.
  apply map_lookup_filter_Some. by split.
Qed.

Lemma keeps_syncTaskTypes e : keeps (syncTaskTypes e).
Proof.
  unfold syncTaskTypes. apply keeps_transaction.
  apply keeps_bind; [apply keeps_lift | intros types].
  apply keeps_bind; [apply keeps_lift | intros l].
  apply keeps_bind; [apply keeps_for_each, keeps_upsert_type | intros _].
  apply keeps_bind; [|intros _; apply keeps_ret].
  destruct (0 <? length l)%nat; [apply keeps_delete_types_not_in | apply keeps_ret].
Qed.

Lemma keeps_updateTaskTypeRelationships taskId typeId :
  keeps (updateTaskTypeRelationships taskId typeId).
Proof.
  unfold updateTaskTypeRelationships. apply keeps_transaction. intros s Hs.
  destruct (clickup_task s !! taskId) as [r|] eqn:Hr; [|done].
  destruct (pg_text typeId) as [k|] eqn:Hk.
  - destruct (task_types s !! k) as [ty|] eqn:Hty; [|done]. simpl.
    apply integrity_put_row; [done|]. intros k'. unfold type_ref. columns.
    simpl. intros [= <-]. by eexists.
  - simpl. apply integrity_put_row; [done|]. intros k'. unfold type_ref.
    by columns.
Qed.

Lemma type_id_by_name_stored (T : gmap (list N) (gmap string cell)) name c :
  type_id_by_name T name = Some c ->
  exists k ty, c = CVal (JStr k) /\ T !! k = Some ty.
Proof.
  unfold type_id_by_name. destruct (pg_text name) as [n|]; [|done].
  destruct (List.find _ (map_to_list T)) as [[k ty]|] eqn:Hf; [|done].
  intros [= <-]. apply List.find_some in Hf as [Hin _].
  apply list_elem_of_In, elem_of_map_to_list in Hin. by exists k, ty.
Qed.

Lemma keeps_updateTaskRelationships t taskId rel :
  keeps (updateTaskRelationships t taskId rel).
Proof.
  intros s Hs. unfold updateTaskRelationships.
  destruct (clickup_task s !! taskId) as [r|] eqn:Hr; [|done]. simpl.
  apply integrity_put_row; [done|]. intros k. unfold type_ref. columns.
  destruct (type_id_by_name (task_types s) (get rel "custom_type")) as [c|] eqn:Hc;
    [|done].
  apply type_id_by_name_stored in Hc as (k' & ty & -> & Hty). simpl.
  intros [= <-]. by eexists.
Qed.

Lemma keeps_syncTaskBody e taskId : keeps (syncTaskBody e taskId).
Proof.
  unfold syncTaskBody. apply keeps_bind; [apply keeps_lift | intros d].
  destruct (negb (truthy d)); [apply keeps_ret|].
  apply keeps_bind; [apply keeps_ensureTaskRow | intros _].
  apply keeps_bind; [apply keeps_read | intros [r|]]; [|apply keeps_ret].
  unfold syncVerifiedTask.
  apply keeps_bind; [apply keeps_syncTaskTypes | intros _].
  apply keeps_bind.
  { destruct (truthy _); [|apply keeps_ret].
    apply keeps_bind; [apply keeps_updateTaskTypeRelationships | intros _].
    apply keeps_ret. }
  intros _. apply keeps_bind; [apply keeps_lift | intros _].
  apply keeps_bind; [apply keeps_lift | intros fd].
  apply keeps_bind; [apply keeps_interference | intros _].
  apply keeps_bind; [apply keeps_updateTaskCustomFields | intros r'].
  apply keeps_ret.
Qed.

Lemma keeps_cleanOldData cutoff : keeps (cleanOldData cutoff).
Proof.
  unfold cleanOldData. apply keeps_transaction. intros s Hs id r k. simpl.
  intros Hr Hk. apply map_lookup_filter_Some in Hr as [Hr Hexp]. simpl in Hexp.
  destruct (Hs id r k Hr Hk) as [ty Hty]. exists ty.
  apply map_lookup_filter_Some. split; [done|]. simpl.
  exists id, r. split; [|done]. apply map_lookup_filter_Some. by split.
Qed.

Lemma keeps_syncTaskRelationships e taskId : keeps (syncTaskRelationships e taskId).
Proof.
  unfold syncTaskRelationships. apply keeps_bind; [apply keeps_lift | intros d].
  destruct (negb (truthy d)); [apply keeps_ret|].
  apply keeps_bind; [apply keeps_updateTaskRelationships | intros _; apply keeps_ret].
Qed.

(** X10: no operation leaves a task row pointing to a type that is not
    stored: if every [task_type_id] names a stored type before a sync, a
    catalog refresh, a linkage, a field or relationship update or a clean-up,
    the same holds after it, whatever the operation returns or throws. *)
Theorem referential_integrity_kept e s :
  ref_integrity s ->
  (forall op, ref_integrity (run e op s)) /\
  (forall taskId, ref_integrity (snd (syncTaskRelationships e taskId s))) /\
  (forall cutoff, ref_integrity (snd (cleanOldData cutoff s))).
Proof.
  intros Hs. repeat apply conj.
  - intros [taskId| |taskId typeId|taskId fd|taskId rel]; simpl.
    + unfold syncTaskCustomFields.
      pose proof (keeps_syncTaskBody e taskId s Hs) as Hb.
      by destruct (syncTaskBody e taskId s) as [[r|ex] s'].
    + by apply keeps_syncTaskTypes.
    + by apply keeps_updateTaskTypeRelationships.
    + by apply keeps_updateTaskCustomFields.
    + by apply keeps_updateTaskRelationships.
  - intros taskId. by apply keeps_syncTaskRelationships.
  - intros cutoff. by apply keeps_cleanOldData.
Qed.

(** ** The clean-up *)


Lemma cleanOldData_eq cutoff s :
  cleanOldData cutoff s =
    (Ok true,
     {| clickup_task :=
          filter (fun kv => expired cutoff (snd kv) = false) (clickup_task s);
        task_types :=
          filter (fun kv => map_Exists (fun _ r => type_ref r = Some (fst kv))
                    (filter (fun kv => expired cutoff (snd kv) = false)
                       (clickup_task s)))
                 (task_types s);
        field_changes := field_changes s |}).
Proof. reflexivity. Qed.


(** X12: the clean-up deletes every type that no remaining task row points
    to: on a storage none of whose tasks is linked to a type, a clean-up
    that follows a catalog refresh leaves no type at all. *)
Theorem cleanOldData_erases_idle_catalog e cutoff s :
  (forall id r, clickup_task s !! id = Some r -> type_ref r = None) ->
  task_types (snd (cleanOldData cutoff (snd (syncTaskTypes e s)))) = ∅.
Proof.
  intros Hidle. rewrite cleanOldData_eq. cbn [snd task_types].
  destruct (syncTaskTypes e s) as [o s1] eqn:Hs.
  destruct (syncTaskTypes_frame e s o s1 Hs) as (Htasks & _ & _). cbn [snd].
  rewrite Htasks. apply map_eq. intros k. rewrite lookup_empty.
  apply eq_None_not_Some. intros [ty Hty].
  apply map_lookup_filter_Some in Hty as [_ (id & r & Hr & Hk)].
  apply map_lookup_filter_Some in Hr as [Hr _].
  rewrite (Hidle id r Hr) in Hk. discriminate.
Qed.

(** ** The recent changes *)

#[local] Instance newer_first_total : Total newer_first.
Proof.
  intros r1 r2. unfold newer_first.
  destruct (updated_at r1), (updated_at r2); try tauto. lia.
Qed.

#[local] Instance newer_first_trans : Transitive newer_first.
Proof.
  intros r1 r2 r3. unfold newer_first.
  destruct (updated_at r1), (updated_at r2), (updated_at r3); try tauto. lia.
Qed.

Lemma lookup_project cols (r : gmap string cell) c :
  project cols r !! c = if decide (c ∈ cols) then r !! c else None.
Proof.
  unfold project. destruct (decide (c ∈ cols)) as [Hin|Hin].
  - destruct (r !! c) as [x|] eqn:Hr.
    + apply map_lookup_filter_Some. by split.
    + apply map_lookup_filter_None. by left.
  - apply map_lookup_filter_None. right. intros x _. exact Hin.
Qed.

Lemma updated_at_project r : updated_at (project recent_columns r) = updated_at r.
Proof.
  unfold updated_at. rewrite lookup_project.
  rewrite decide_True; [done|]. unfold recent_columns. set_solver.
Qed.

Lemma list_map_fmap {A B} (f : A -> B) l : List.map f l = f <$> l.
Proof. induction l as [|x l IH]; simpl; [done | by f_equal]. Qed.

(** X13: [getRecentChanges] returns one row for each task row whose
    [updated_at] is at or after the cutoff and none for any other, newest
    first; a returned row carries the six selected columns of the stored
    row and nothing else. *)
Theorem getRecentChanges_newest_first cutoff s :
  StronglySorted newer_first (getRecentChanges cutoff s) /\
  getRecentChanges cutoff s ≡ₚ
    List.map (project recent_columns)
      (List.filter (recent cutoff) (List.map snd (map_to_list (clickup_task s)))) /\
  (forall row, row ∈ getRecentChanges cutoff s <->
     exists id r, clickup_task s !! id = Some r /\ recent cutoff r = true /\
                  row = project recent_columns r) /\
  (forall row, row ∈ getRecentChanges cutoff s ->
     (exists t, updated_at row = Some t /\ cutoff <= t) /\
     (forall c, is_Some (row !! c) -> c ∈ recent_columns)).
Proof.
  assert (Hperm : getRecentChanges cutoff s ≡ₚ
    List.map (project recent_columns)
      (List.filter (recent cutoff) (List.map snd (map_to_list (clickup_task s))))).
  { unfold getRecentChanges. rewrite !list_map_fmap.
    apply fmap_Permutation, merge_sort_Permutation. }
  assert (Hmem : forall row, row ∈ getRecentChanges cutoff s <->
     exists id r, clickup_task s !! id = Some r /\ recent cutoff r = true /\
                  row = project recent_columns r).
  { intros row. rewrite Hperm, list_elem_of_In, in_map_iff. split.
    - intros (r & <- & Hr). apply filter_In in Hr as [Hr Hrec].
      apply in_map_iff in Hr as ([id r'] & <- & Hr).
      apply list_elem_of_In, elem_of_map_to_list in Hr. by exists id, r'.
    - intros (id & r & Hr & Hrec & ->). exists r. split; [done|].
      apply filter_In. split; [|done]. apply in_map_iff. exists (id, r).
      split; [done|]. by apply list_elem_of_In, elem_of_map_to_list. }
  repeat apply conj; [|exact Hperm|exact Hmem|].
  - unfold getRecentChanges. rewrite list_map_fmap.
    apply (StronglySorted_fmap _ newer_first newer_first).
    + intros r1 r2. unfold newer_first. by rewrite !updated_at_project.
    + apply StronglySorted_merge_sort; apply _.
  - intros row Hrow. apply Hmem in Hrow as (id & r & Hr & Hrec & ->). split.
    + rewrite updated_at_project. unfold recent in Hrec.
      destruct (updated_at r) as [t|]; [|done]. exists t. split; [done|].
      by apply Z.leb_le.
    + intros c [x Hx]. rewrite lookup_project in Hx.
      by destruct (decide (c ∈ recent_columns)).
Qed.

(** ** The relationship updater *)

Lemma type_id_by_name_found (T : gmap (list N) (gmap string cell)) name c :
  type_id_by_name T name = Some c ->
  exists k ty v, c = CVal (JStr k) /\ T !! k = Some ty /\
    ty !! "name"%string = Some (CVal v) /\ pg_text v = pg_text name /\
    pg_text name <> None.
Proof.
  unfold type_id_by_name. destruct (pg_text name) as [n|]; [|done].
  destruct (List.find _ (map_to_list T)) as [[k ty]|] eqn:Hf; [|done].
  intros [= <-]. apply List.find_some in Hf as [Hin Hp]. cbn [snd] in Hp.
  apply list_elem_of_In, elem_of_map_to_list in Hin.
  destruct (ty !! "name"%string) as [[v| |]|] eqn:Hn; try done.
  apply bool_decide_eq_true in Hp. by exists k, ty, v.
Qed.

(** X14: the row [updateTaskRelationships] returns is the row it stored
    (the columns its UPDATE names are taken to exist); a truthy parent is
    stored only when a task row with that id exists, and the type link is
    stored only as the id of a stored type whose name is the given one. *)
Theorem updateTaskRelationships_guard t taskId rel s row :
  fst (updateTaskRelationships t taskId rel s) = Ok (Some row) ->
  clickup_task (snd (updateTaskRelationships t taskId rel s)) !! taskId = Some row /\
  task_types (snd (updateTaskRelationships t taskId rel s)) = task_types s /\
  row !! "updated_at"%string = Some (CTime t) /\
  (forall v, row !! "parent_id"%string = Some (CVal v) -> truthy v = true ->
     v = get rel "parent_id" /\
     exists k, pg_text v = Some k /\ is_Some (clickup_task s !! k)) /\
  (forall c, row !! "task_type_id"%string = Some c ->
     exists k ty v, c = CVal (JStr k) /\ task_types s !! k = Some ty /\
       ty !! "name"%string = Some (CVal v) /\
       pg_text v = pg_text (get rel "custom_type")).
Proof.
  unfold updateTaskRelationships.
  destruct (clickup_task s !! taskId) as [r|] eqn:Hr; [|discriminate].
  cbn [fst snd]. intros [= <-]. repeat apply conj.
  - cbn [clickup_task with_tasks]. by rewrite lookup_insert_eq.
  - reflexivity.
  - by columns.
  - intros v. columns. unfold param.
    destruct (truthy (get rel "parent_id")) eqn:Ht.
    + destruct (pg_text (get rel "parent_id") ≫= _) as [p|] eqn:Hp; [|discriminate].
      destruct (nullish (get rel "parent_id")); [discriminate|].
      intros [= <-] _. split; [done|].
      destruct (pg_text (get rel "parent_id")) as [k|]; [|discriminate].
      exists k. split; [done|]. simpl in Hp. by eexists.
    + destruct (nullish (get rel "parent_id")); [discriminate|].
      intros [= <-]. congruence.
  - intros c. columns. intros Hc.
    apply type_id_by_name_found in Hc as (k & ty & v & -> & Hty & Hn & Hv & _).
    by exists k, ty, v.
Qed.

Lemma syncTaskRelationships_cases e taskId s :
  (exists ex, fst (getTaskDetails (task_endpoint e)) = Throw ex /\
     syncTaskRelationships e taskId s = (Throw ex, s)) \/
  (exists d, fst (getTaskDetails (task_endpoint e)) = Ok d /\
     fst (syncTaskRelationships e taskId s) = Ok tt /\
     snd (syncTaskRelationships e taskId s) =
       snd (updateTaskRelationships (now e) taskId
              (JObj [ (u "parent_id", get d "parent");
                      (u "custom_type", get_opt (get d "custom_type") "name");
                      (u "updated_at", JStr (toISOString (now e))) ]) s)).
Proof.
  unfold syncTaskRelationships, bind, lift.
  destruct (fst (getTaskDetails (task_endpoint e))) as [d|ex] eqn:Hd.
  - right. exists d. split; [done|].
    destruct (getTaskDetails_Ok _ _ Hd) as [data ->].
    change (truthy (normalizeTaskDetails data)) with true. cbn [negb].
    unfold updateTaskRelationships.
    by destruct (clickup_task s !! taskId).
  - left. by exists ex.
Qed.

(** X15: [syncTaskRelationships] throws what the detail fetch throws and
    then changes nothing; in every case it creates and deletes no row,
    leaves the types, the ledger and every other task row as they were, and
    of the row of the task changes at most [parent_id], [task_type_id] and
    [updated_at]: the stored type name is not brought in line with a new
    type link. *)
Theorem syncTaskRelationships_frame e taskId s :
  let s' := snd (syncTaskRelationships e taskId s) in
  (forall ex, fst (getTaskDetails (task_endpoint e)) = Throw ex ->
     syncTaskRelationships e taskId s = (Throw ex, s)) /\
  task_types s' = task_types s /\
  field_changes s' = field_changes s /\
  dom (clickup_task s') = dom (clickup_task s) /\
  (forall id', id' <> taskId -> clickup_task s' !! id' = clickup_task s !! id') /\
  (forall c, c <> "parent_id"%string -> c <> "task_type_id"%string ->
     c <> "updated_at"%string -> stored s' taskId c = stored s taskId c).
Proof.
  cbv zeta.
  destruct (syncTaskRelationships_cases e taskId s)
    as [(ex & Hd & Hs) | (d & Hd & Hf & Hs)].
  - rewrite Hs. cbn [snd]. repeat apply conj; try done.
    intros ex' Hd'. congruence.
  - rewrite Hs. split; [intros ex Hd'; congruence|].
    destruct (updateTaskRelationships_cases (now e) taskId
                (JObj [ (u "parent_id", get d "parent");
                        (u "custom_type", get_opt (get d "custom_type") "name");
                        (u "updated_at", JStr (toISOString (now e))) ]) s)
      as [[-> _] | (r & a & b & Hr & ->)]; [done|].
    cbn [task_types field_changes clickup_task with_tasks]. repeat apply conj; try done.
    + rewrite dom_insert_L. apply elem_of_dom_2 in Hr. set_solver.
    + intros id' Hne. by rewrite lookup_insert_ne.
    + intros c H1 H2 H3. unfold stored. cbn [clickup_task with_tasks].
      rewrite lookup_insert_eq, Hr. cbn [mbind option_bind].
      by rewrite !lookup_set_col_ne by done.
Qed.

(** ** The catalog refresh of the sync service *)

Lemma SyncService_upsert_type_throws e t s :
  exists ex, SyncService.upsert_type e t s = (Throw ex, s).
Proof.
  unfold SyncService.upsert_type. destruct (nullish t); [by eexists|].
  assert (Hw : not_null_ok (SyncService.type_row e t) = false).
  { unfold not_null_ok. apply andb_false_iff. right.
    apply bool_decide_eq_false_2. unfold SyncService.type_row, make_row.
    cbn [fold_right fst snd]. columns. rewrite lookup_empty. by intros [? ?]. }
  rewrite Hw. by eexists.
Qed.

(** X16: under the migrated schema, whose [task_types.workspace_id] is NOT
    NULL, [SyncService.syncTaskTypes] never stores anything: its INSERT
    names no workspace, the first statement is rejected, the transaction is
    rolled back and the error is logged and dropped; the call returns
    normally with the storage as it was. *)
Theorem SyncService_syncTaskTypes_inert e s :
  SyncService.syncTaskTypes e s = (Ok tt, s).
Proof.
  unfold SyncService.syncTaskTypes. cbv zeta. unfold bind at 1, lift at 1.
  destruct (getCustomTaskTypes (task_type_endpoint e)) as [types|ex]; [|done].
  destruct (has_no_elements types) eqn:Hn; [done|].
  unfold transaction, bind, lift.
  destruct (iterate types) as [l|ex] eqn:Hi; [|done].
  destruct l as [|t l].
  - destruct types as [| | | |[|c str]| |[|x l]|]; simpl in Hi, Hn; done.
  - cbn [for_each]. unfold bind.
    by destruct (SyncService_upsert_type_throws e t s) as [ex ->].
Qed.

(** ** The type linkage *)

(** X20: [updateTaskTypeRelationships] either stores on the task row the id
    of a stored type together with the name of that type (or clears both
    when the id is null), or changes nothing: it skips a task without a row
    and is rejected with a foreign-key error for an id that is not stored. *)
Theorem updateTaskTypeRelationships_consistent taskId typeId s :
  match updateTaskTypeRelationships taskId typeId s with
  | (Ok (Some row), s') =>
      clickup_task s' !! taskId = Some row /\ task_types s' = task_types s /\
      match pg_text typeId with
      | Some k =>
          exists ty, getTaskTypeById typeId s' = Some ty /\
            row !! "task_type_id"%string = Some (CVal (JStr k)) /\
            row !! "task_type_name"%string = ty !! "name"%string
      | None =>
          row !! "task_type_id"%string = None /\
          row !! "task_type_name"%string = None
      end
  | (Ok None, s') => s' = s /\ clickup_task s !! taskId = None
  | (Throw ex, s') =>
      s' = s /\ ex = DbError "23503" /\ is_Some (clickup_task s !! taskId) /\
      pg_text typeId <> None /\ getTaskTypeById typeId s = None
  end.
Proof.
  unfold updateTaskTypeRelationships, transaction, getTaskTypeById.
  destruct (clickup_task s !! taskId) as [r|] eqn:Hr; [|done].
  destruct (pg_text typeId) as [k|] eqn:Hk; cbn [mbind option_bind].
  - destruct (task_types s !! k) as [ty|] eqn:Hty.
    + cbn [clickup_task task_types with_tasks]. rewrite lookup_insert_eq.
      repeat split. exists ty. rewrite Hty. by columns.
    + by repeat split; eauto.
  - cbn [clickup_task task_types with_tasks]. rewrite lookup_insert_eq.
    repeat split; by columns.
Qed.

(** ** What a sync leaves alone *)

(** X18: a sync of one task neither creates, changes nor deletes the row of
    any other task; when the detail fetch fails it reports the failure and
    changes nothing at all. *)
Theorem sync_touches_one_row e taskId s :
  (forall id', id' <> taskId ->
     clickup_task (snd (syncTaskCustomFields e taskId s)) !! id'
     = clickup_task s !! id') /\
  (forall ex, fst (getTaskDetails (task_endpoint e)) = Throw ex ->
     syncTaskCustomFields e taskId s = (Failed (Caught ex), s)).
Proof.
  destruct (syncTaskCustomFields e taskId s) as [res s'] eqn:Hs.
  destruct (sync_shape e taskId s res s' Hs)
    as [(ex & Hd & -> & ->) | (d & Hd & Hother & _)]; cbn [snd].
  - split; [done|]. intros ex' Hd'. congruence.
  - split; [exact Hother|]. intros ex' Hd'. congruence.
Qed.

(** X19: when the catalog refresh of a sync throws, the sync reports that
    error as its failure and everything written before stays: the
    placeholder row of a task that had none is the only change. *)
Theorem sync_refresh_failure e taskId s d ex :
  fst (getTaskDetails (task_endpoint e)) = Ok d ->
  fst (syncTaskTypes e (ensured e taskId d s)) = Throw ex ->
  syncTaskCustomFields e taskId s = (Failed (Caught ex), ensured e taskId d s).
Proof.
  intros Hd Ht. unfold syncTaskCustomFields.
  rewrite (proj1 (syncTaskBody_fetched e taskId d s Hd)).
  unfold syncVerifiedTask. unfold bind at 1.
  destruct (syncTaskTypes e (ensured e taskId d s)) as [o s1] eqn:Hs.
  cbn [fst] in Ht. subst o.
  destruct (syncTaskTypes_frame e _ _ _ Hs) as (_ & _ & Hsame).
  by rewrite (Hsame ex eq_refl).
Qed.

(** ** The change ledger and the failures of a sync *)

Lemma silent_ret {A} (a : A) : silent (ret a).
Proof. by intros s. Qed.

Lemma silent_lift {A} (o : outcome A) : silent (lift o).
Proof. by intros s. Qed.

Lemma silent_read {A} (f : db -> A) : silent (read f).
Proof. by intros s. Qed.

Lemma silent_bind {A B} (m : M A) (k : A -> M B) :
  silent m -> (forall a, silent (k a)) -> silent (bind m k).
Proof.
  intros Hm Hk s. unfold bind. specialize (Hm s).
  destruct (m s) as [[a|ex] s1]; simpl in *; [by rewrite Hk | done].
Qed.

Lemma silent_transaction {A} (m : M A) : silent m -> silent (transaction m).
Proof.
  intros Hm s. unfold transaction. specialize (Hm s).
  by destruct (m s) as [[a|ex] s1].
Qed.

Lemma silent_for_each {A} (f : A -> M unit) l :
  (forall a, silent (f a)) -> silent (for_each f l).
Proof.
  intros Hf. induction l as [|a l IH]; simpl; [apply silent_ret|].
  apply silent_bind; [apply Hf | by intros _].
Qed.

Lemma silent_syncTaskTypes e : silent (syncTaskTypes e).
Proof.
  intros s. destruct (syncTaskTypes e s) as [o s'] eqn:Hs.
  by destruct (syncTaskTypes_frame e s o s' Hs) as (_ & ? & _).
Qed.

Lemma silent_updateTaskTypeRelationships taskId typeId :
  silent (updateTaskTypeRelationships taskId typeId).
Proof.
  unfold updateTaskTypeRelationships. apply silent_transaction. intros s.
  destruct (clickup_task s !! taskId); [|done].
  destruct (pg_text typeId) as [k|]; [|done].
  by destruct (task_types s !! k).
Qed.

Lemma silent_updateTaskCustomFields t taskId fd :
  silent (updateTaskCustomFields t taskId fd).
Proof. intros s. unfold updateTaskCustomFields. by destruct (clickup_task s !! taskId). Qed.

Lemma silent_updateTaskRelationships t taskId rel :
  silent (updateTaskRelationships t taskId rel).
Proof. intros s. unfold updateTaskRelationships. by destruct (clickup_task s !! taskId). Qed.

Lemma silent_syncTaskBody e taskId : silent (syncTaskBody e taskId).
Proof.
  unfold syncTaskBody. apply silent_bind; [apply silent_lift | intros d].
  destruct (negb (truthy d)); [apply silent_ret|].
  apply silent_bind.
  { intros s. rewrite ensureTaskRow_spec. apply ensured_changes. }
  intros _. apply silent_bind; [apply silent_read | intros [r|]]; [|apply silent_ret].
  unfold syncVerifiedTask.
  apply silent_bind; [apply silent_syncTaskTypes | intros _].
  apply silent_bind.
  { destruct (truthy _); [|apply silent_ret].
    apply silent_bind; [apply silent_updateTaskTypeRelationships | intros _].
    apply silent_ret. }
  intros _. apply silent_bind; [apply silent_lift | intros _].
  apply silent_bind; [apply silent_lift | intros fd].
  apply silent_bind.
  { intros s. unfold interference, write. simpl. by destruct (row_vanishes e). }
  intros _. apply silent_bind; [apply silent_updateTaskCustomFields | intros r'].
  apply silent_ret.
Qed.

(** X17: nothing the service exports writes the change ledger: a sync, a
    catalog refresh, a linkage, a field or relationship update and a
    clean-up all leave [field_changes] exactly as it was, so the changes
    they make to task rows are not recorded. *)
Theorem ledger_never_written e s :
  (forall op, field_changes (run e op s) = field_changes s) /\
  (forall taskId,
     field_changes (snd (syncTaskRelationships e taskId s)) = field_changes s) /\
  (forall cutoff, field_changes (snd (cleanOldData cutoff s)) = field_changes s) /\
  field_changes (snd (SyncService.syncTaskTypes e s)) = field_changes s.
Proof.
  repeat apply conj.
  - intros [taskId| |taskId typeId|taskId fd|taskId rel]; simpl.
    + unfold syncTaskCustomFields.
      pose proof (silent_syncTaskBody e taskId s) as Hb.
      by destruct (syncTaskBody e taskId s) as [[r|ex] s'].
    + apply silent_syncTaskTypes.
    + apply silent_updateTaskTypeRelationships.
    + apply silent_updateTaskCustomFields.
    + apply silent_updateTaskRelationships.
  - intros taskId. revert s. unfold syncTaskRelationships.
    apply silent_bind; [apply silent_lift | intros d].
    destruct (negb (truthy d)); [apply silent_ret|].
    apply silent_bind; [apply silent_updateTaskRelationships | intros _].
    apply silent_ret.
  - done.
  - unfold SyncService.syncTaskTypes. cbv zeta.
    match goal with |- context [match ?b s with _ => _ end] =>
      assert (Hb : silent b); [|specialize (Hb s); destruct (b s) as [[a|ex] s']; exact Hb]
    end.
    apply silent_bind; [apply silent_lift | intros types].
    destruct (has_no_elements types); [apply silent_ret|].
    apply silent_transaction.
    apply silent_bind; [apply silent_lift | intros l].
    apply silent_bind.
    { apply silent_for_each. intros t s0. unfold SyncService.upsert_type.
      destruct (nullish t); [done|]. destruct (negb _); [done|].
      by destruct (pg_text (get t "id")). }
    intros _. apply silent_bind; [|intros _; apply silent_ret].
    intros s0. unfold delete_types_not_in. by case_decide.
Qed.

(** X21: the detail fetch never yields a falsy value, so a sync never
    reports that the task was not found upstream: a task that is missing
    upstream surfaces as the caught error of the request, and every other
    failure of a sync is a caught error as well. *)
Theorem not_found_unreachable e taskId s :
  (forall ep d, fst (getTaskDetails ep) = Ok d -> truthy d = true) /\
  fst (syncTaskCustomFields e taskId s) <> Failed TaskNotFoundInClickUp /\
  (forall f, fst (syncTaskCustomFields e taskId s) = Failed f ->
     exists ex, f = Caught ex).
Proof.
  assert (Hf : forall f, fst (syncTaskCustomFields e taskId s) = Failed f ->
     exists ex, f = Caught ex).
  { intros f. unfold syncTaskCustomFields.
    destruct (fst (getTaskDetails (task_endpoint e))) as [d|ex] eqn:Hd.
    - destruct (syncTaskBody_fetched e taskId d s Hd) as (-> & rs & Hrs & _).
      destruct (syncVerifiedTask e taskId d (ensured e taskId d s)) as [res s'] eqn:Hv.
      destruct (syncVerifiedTask_shape e taskId d _ rs res s' Hrs Hv)
        as (_ & _ & r0 & _ & [(ex & -> & _) | [(-> & _) | (fd & _ & -> & _)]]);
        cbn [fst]; try discriminate.
      intros [= <-]. by exists ex.
    - unfold syncTaskBody, bind, lift. rewrite Hd. cbn [fst].
      intros [= <-]. by exists ex. }
  repeat apply conj.
  - intros ep d Hd. by destruct (getTaskDetails_Ok ep d Hd) as [data ->].
  - intros Hn. by destruct (Hf _ Hn).
  - exact Hf.
Qed.

Lemma upserted_twice krs :
  upserted krs (upserted krs ∅) = upserted krs ∅.
Proof.
  apply map_eq. intros k. destruct (decide (k ∈ List.map fst krs)) as [Hin|Hin].
  - by apply upserted_lookup_in.
  - by rewrite upserted_lookup_notin.
Qed.

(** X22: a catalog refresh repeated at once against the same upstream
    answer returns what the first returned and leaves the storage exactly
    as the first left it, whether the first committed or was rolled back. *)
Theorem syncTaskTypes_idempotent e s :
  syncTaskTypes e (snd (syncTaskTypes e s)) = syncTaskTypes e s.
Proof.
  rewrite !syncTaskTypes_refreshed. unfold refreshed.
  destruct (getCustomTaskTypes _) as [types|]; [|done].
  destruct (iterate types) as [l|]; [|done].
  destruct l as [|t l]; [done|].
  pose proof (type_rows_keys e (t :: l)) as Hkeys.
  destruct (type_rows e (t :: l)) as [krs|]; [|done].
  specialize (Hkeys _ eq_refl).
  change (0 <? length (t :: l))%nat with true. cbv iota.
  match goal with
  | |- context [decide (map_Exists ?f (clickup_task s))] =>
      destruct (decide (map_Exists f (clickup_task s))) as [Hfk|Hfk]
  end; cbn [snd].
  - by rewrite decide_True by exact Hfk.
  - cbn [task_types clickup_task with_types].
    rewrite (filter_upserted krs _ _ Hkeys).
    rewrite decide_False.
    + by rewrite upserted_twice, (filter_upserted krs _ _ Hkeys).
    + rewrite filter_notin_empty.
      * intros (i & r & _ & Href). by apply references_empty in Href.
      * rewrite upserted_twice, upserted_dom, Hkeys. set_solver.
Qed.
(** ** Colliding clean names *)

Lemma processFields_app e l1 : forall l2 fd,
  processFields e fd (l1 ++ l2) =
    match processFields e fd l1 with
    | Ok fd1 => processFields e fd1 l2
    | Throw ex => Throw ex
    end.
Proof.
  induction l1 as [|f l1 IH]; intros l2 fd; [done|]. simpl.
  destruct (processField e fd f) as [fd1|ex]; [apply IH | done].
Qed.

Lemma lookup_obj_assign_ne (k k' : list N) (v : jsval) (m : gmap (list N) jsval) :
  k <> k' -> obj_assign k v m !! k' = m !! k'.
Proof.
  intros Hne. unfold obj_assign. destruct (decide (k = u "__proto__")); [done|].
  by rewrite lookup_insert_ne.
Qed.

Lemma processField_keeps e fd f fd' k :
  processField e fd f = Ok fd' -> k ∉ defined_names [f] ->
  customFields fd' !! k = customFields fd !! k.
Proof.
  unfold processField. cbn [defined_names].
  destruct (truthy f) eqn:Hf; cbn [negb orb andb]; [|by intros [= <-]].
  destruct (get f "name") as [| |b|n|raw|t|l|l] eqn:Hn; cbn [truthy negb];
    try (by intros [= <-]); try discriminate.
  - destruct b; cbn [negb]; [discriminate | by intros [= <-]].
  - destruct (n =? 0); cbn [negb]; [by intros [= <-] | discriminate].
  - destruct raw as [|c raw]; [by intros [= <-]|]. cbn [negb andb]. cbv zeta.
    set (cn := clean_name (c :: raw)).
    destruct (bool_decide (cn = u "__proto__")) eqn:Hp; cbn [negb].
    + apply bool_decide_eq_true in Hp. intros Hfd _.
      assert (Hsame : forall v, obj_assign cn v (customFields fd) = customFields fd).
      { intros v. unfold obj_assign. by rewrite decide_True. }
      destruct (negb (nullish (get f "value")));
        [destruct (normalizeFieldValue f None); try destruct (mapFieldName cn)|];
        injection Hfd as <-; cbn [customFields set_fieldValues set_customFields];
        by rewrite Hsame.
    + intros Hfd Hk.
      assert (Hne : cn <> k) by set_solver.
      destruct (negb (nullish (get f "value")));
        [destruct (normalizeFieldValue f None); try destruct (mapFieldName cn)|];
        injection Hfd as <-; cbn [customFields set_fieldValues set_customFields];
        by rewrite lookup_obj_assign_ne.
Qed.

Lemma processFields_keeps e l k : forall fd fd',
  processFields e fd l = Ok fd' -> k ∉ defined_names l ->
  customFields fd' !! k = customFields fd !! k.
Proof.
  induction l as [|f l IH]; intros fd fd'; [by intros [= <-]|].
  rewrite defined_names_cons. cbn [processFields].
  destruct (processField e fd f) as [fd1|ex] eqn:Hf; [|done].
  intros Hl Hk. rewrite (IH fd1 fd' Hl) by set_solver.
  apply (processField_keeps e fd f fd1 k Hf). set_solver.
Qed.

Lemma processField_defines e fd f fd' raw :
  processField e fd f = Ok fd' -> get f "name" = JStr raw -> raw <> [] ->
  clean_name raw <> u "__proto__" ->
  customFields fd' !! clean_name raw
  = Some (JObj [ (u "id", get f "id");
                 (u "type", get f "type");
                 (u "config", js_or (get f "type_config") (JObj []));
                 (u "original_name", JStr raw) ]).
Proof.
  intros Hfd Hn Hraw Hp. unfold processField in Hfd. rewrite Hn in Hfd.
  assert (Hf : truthy f = true) by (destruct f; try done; by destruct l).
  rewrite Hf in Hfd. destruct raw as [|c raw]; [done|].
  cbn [truthy negb orb] in Hfd. cbv zeta in Hfd.
  assert (Hset : forall v, obj_assign (clean_name (c :: raw)) v (customFields fd)
                           !! clean_name (c :: raw) = Some v).
  { intros v. unfold obj_assign. rewrite decide_False by done.
    apply lookup_insert_eq. }
  destruct (negb (nullish (get f "value")));
    [destruct (normalizeFieldValue f None);
       try destruct (mapFieldName (clean_name (c :: raw)))|];
    injection Hfd as <-; cbn [customFields set_fieldValues set_customFields];
    apply Hset.
Qed.

(** X23: the definition stored under a clean name is that of the last
    field with that clean name: of two fields whose names differ only in
    removed code points or outer white space, the earlier one leaves no
    trace in the field-definition map. *)
Theorem last_definition_wins e d l1 f l2 raw fd :
  get d "custom_fields" = JArr (l1 ++ f :: l2) ->
  buildFieldData e d = Ok fd ->
  get f "name" = JStr raw -> raw <> [] ->
  clean_name raw <> u "__proto__" ->
  clean_name raw ∉ defined_names l2 ->
  customFields fd !! clean_name raw
  = Some (JObj [ (u "id", get f "id");
                 (u "type", get f "type");
                 (u "config", js_or (get f "type_config") (JObj []));
                 (u "original_name", JStr raw) ]).
Proof.
  intros Hd Hb Hn Hraw Hp Hl2. unfold buildFieldData in Hb. rewrite Hd in Hb.
  rewrite processFields_app in Hb.
  destruct (processFields e (initialFieldData d) l1) as [fd1|ex]; [|done].
  cbn [processFields] in Hb.
  destruct (processField e fd1 f) as [fd2|ex] eqn:Hf; [|done].
  rewrite (processFields_keeps e l2 _ fd2 fd Hb Hl2).
  by apply (processField_defines e fd1 f fd2 raw).
Qed.

(** ** What a successful sync stores *)

Lemma updateTaskTypeRelationships_linked taskId typeId x o x' :
  updateTaskTypeRelationships taskId typeId x = (Ok o, x') ->
  task_types x' = task_types x /\
  match o with
  | None => x' = x /\ clickup_task x !! taskId = None
  | Some row =>
      clickup_task x' !! taskId = Some row /\
      (forall id', id' <> taskId -> clickup_task x' !! id' = clickup_task x !! id') /\
      match pg_text typeId with
      | Some k =>
          exists ty, task_types x !! k = Some ty /\
            row !! "task_type_id"%string = Some (CVal (JStr k)) /\
            row !! "task_type_name"%string = ty !! "name"%string
      | None =>
          row !! "task_type_id"%string = None /\
          row !! "task_type_name"%string = None
      end
  end.
Proof.
  unfold updateTaskTypeRelationships, transaction.
  destruct (clickup_task x !! taskId) as [r|] eqn:Hr; [|by intros [= <- <-]].
  destruct (pg_text typeId) as [k|] eqn:Hk.
  - destruct (task_types x !! k) as [ty|] eqn:Hty; [|done].
    intros [= <- <-]. cbn [clickup_task task_types with_tasks].
    rewrite lookup_insert_eq. repeat split.
    + intros id' Hne. by rewrite lookup_insert_ne.
    + exists ty. by columns.
  - intros [= <- <-]. cbn [clickup_task task_types with_tasks].
    rewrite lookup_insert_eq. repeat split; try by columns.
    intros id' Hne. by rewrite lookup_insert_ne.
Qed.

Lemma sync_success_row e taskId s d row s' :
  fst (getTaskDetails (task_endpoint e)) = Ok d ->
  syncTaskCustomFields e taskId s = (Success (Some row), s') ->
  exists fd r0 v y1,
    syncTaskTypes e (ensured e taskId d s) = (Ok v, y1) /\
    task_types s' = task_types y1 /\
    buildFieldData e d = Ok fd /\
    row = apply_field_update (now e) fd r0 /\
    clickup_task s' !! taskId = Some row /\
    (if truthy (get_opt (get d "custom_type") "id")
     then match pg_text (get (get d "custom_type") "id") with
          | Some k =>
              exists ty, task_types y1 !! k = Some ty /\
                r0 !! "task_type_id"%string = Some (CVal (JStr k)) /\
                r0 !! "task_type_name"%string = ty !! "name"%string
          | None =>
              r0 !! "task_type_id"%string = None /\
              r0 !! "task_type_name"%string = None
          end
     else clickup_task (ensured e taskId d s) !! taskId = Some r0).
Proof.
  intros Hd. unfold syncTaskCustomFields.
  destruct (syncTaskBody_fetched e taskId d s Hd) as (-> & rs & Hrs & _).
  rewrite syncVerifiedTask_steps. unfold bind at 1.
  destruct (syncTaskTypes e (ensured e taskId d s)) as [[v|ex] y1] eqn:Ht;
    [|discriminate].
  destruct (syncTaskTypes_frame e _ _ _ Ht) as (Htasks & _ & _).
  unfold bind at 1, link_step.
  destruct (truthy (get_opt (get d "custom_type") "id")) eqn:Hid.
  - unfold bind at 1.
    destruct (updateTaskTypeRelationships taskId (get (get d "custom_type") "id") y1)
      as [[o|ex] y2] eqn:Hl; [|discriminate].
    destruct (updateTaskTypeRelationships_linked _ _ _ _ _ Hl) as (Hty & Ho).
    destruct o as [r0|].
    2:{ destruct Ho as [_ Hnone]. rewrite Htasks in Hnone. congruence. }
    destruct Ho as (Hr0 & _ & Hlink). unfold ret.
    rewrite (persist_spec e taskId d y2 r0 Hr0). unfold prepared.
    destruct (log_custom_fields (get d "custom_fields")); [|discriminate].
    destruct (buildFieldData e d) as [fd|] eqn:Hb; [|discriminate].
    destruct (row_vanishes e); [discriminate|].
    intros [= <- <-]. exists fd, r0, v, y1.
    cbn [task_types clickup_task with_tasks]. rewrite lookup_insert_eq.
    repeat split; try done.
  - unfold ret. rewrite (persist_spec e taskId d y1 rs) by (by rewrite Htasks).
    unfold prepared.
    destruct (log_custom_fields (get d "custom_fields")); [|discriminate].
    destruct (buildFieldData e d) as [fd|] eqn:Hb; [|discriminate].
    destruct (row_vanishes e); [discriminate|].
    intros [= <- <-]. exists fd, rs, v, y1.
    cbn [task_types clickup_task with_tasks]. rewrite lookup_insert_eq.
    repeat split; try done.
Qed.

(** X24: the row a successful sync returns is the row it stored; its
    [relationships] document holds the parent and the type name of the
    fetched details (null when there is none), and [updated_at] and
    [date_updated] are the instant of the sync. *)
Theorem sync_stores_relationships e taskId s d row s' :
  fst (getTaskDetails (task_endpoint e)) = Ok d ->
  syncTaskCustomFields e taskId s = (Success (Some row), s') ->
  clickup_task s' !! taskId = Some row /\
  row !! "relationships"%string
  = Some (CJson (JObj [ (u "parent_id", get d "parent");
                        (u "custom_type",
                          js_or (get_opt (get d "custom_type") "name") JNull) ])) /\
  row !! "updated_at"%string = Some (CTime (now e)) /\
  row !! "date_updated"%string = Some (CTime (now e)).
Proof.
  intros Hd Hs.
  destruct (sync_success_row e taskId s d row s' Hd Hs)
    as (fd & r0 & v & y1 & _ & _ & Hb & -> & Hrow & _).
  destruct (buildFieldData_frame e d fd Hb) as (_ & Hrel & _).
  split; [exact Hrow|]. unfold apply_field_update. columns.
  rewrite Hrel. by repeat split.
Qed.

(** X25: after a successful sync of a task whose fetched details name a
    type, the row points to that type, the type is stored, and the row's
    [task_type_name] is the stored name of the type. *)
Theorem sync_links_type e taskId s d row s' :
  fst (getTaskDetails (task_endpoint e)) = Ok d ->
  syncTaskCustomFields e taskId s = (Success (Some row), s') ->
  truthy (get_opt (get d "custom_type") "id") = true ->
  match pg_text (get (get d "custom_type") "id") with
  | Some k =>
      exists ty, task_types s' !! k = Some ty /\
        row !! "task_type_id"%string = Some (CVal (JStr k)) /\
        row !! "task_type_name"%string = ty !! "name"%string
  | None =>
      row !! "task_type_id"%string = None /\
      row !! "task_type_name"%string = None
  end.
Proof.
  intros Hd Hs Hid.
  destruct (sync_success_row e taskId s d row s' Hd Hs)
    as (fd & r0 & v & y1 & _ & Hty & _ & -> & _ & Hlink).
  rewrite Hid in Hlink. rewrite Hty.
  destruct (pg_text (get (get d "custom_type") "id")) as [k|].
  - destruct Hlink as (ty & Hk & Hi & Hn). exists ty.
    unfold apply_field_update. by columns.
  - unfold apply_field_update. by columns.
Qed.
End MoreProofs.

(** * Concrete runs *)

#[local] Existing Instance sample_runtime.

(** Against C4 as stated: the importer left [_airbyte_extracted_at] at
    instant 5; after one sync at instant 1000 the column holds 1000. *)
Lemma C4_counterexample :
  let e := sample_env (JStr (u "Fix pump")) [] false in
  let s' := snd (syncTaskCustomFields e (u "t1") sample_db) in
  stored sample_db (u "t1") "_airbyte_extracted_at" = Some (CTime 5) /\
  stored s' (u "t1") "_airbyte_extracted_at" = Some (CTime 1000) /\
  stored s' (u "t1") "_airbyte_extracted_at"
    <> stored sample_db (u "t1") "_airbyte_extracted_at".
Proof. cbv zeta. repeat apply conj; vm_compute; [reflexivity..|discriminate]. Qed.

(** Against C6 as stated: the remote catalog is empty, the refresh commits,
    and the stale type 9 is still stored. *)
Lemma C6_counterexample :
  let e := sample_env (JStr (u "Fix pump")) [] false in
  let r := syncTaskTypes e sample_db in
  fst r = Ok (JArr []) /\
  task_types (snd r) !! u "9" = Some stale_type /\
  catalog e [] !! u "9" = None.
Proof. cbv zeta. repeat apply conj; vm_compute; reflexivity. Qed.


Lemma C4_witness :
  let e := sample_env (JStr (u "Fix pump")) [] false in
  let fd := initialFieldData (normalizeTaskDetails (sample_body (JStr (u "Fix pump")))) in
  let op := OpUpdateTaskCustomFields (u "t1") fd in
  clickup_task sample_db !! u "t1" = Some sample_row /\
  clickup_task (run e op sample_db) !! u "t1"
    = Some (apply_field_update 1000 fd sample_row) /\
  apply_field_update 1000 fd sample_row !! "_airbyte_raw_id"%string
    = Some (CVal (JStr (u "raw-1"))) /\
  apply_field_update 1000 fd sample_row !! "_airbyte_extracted_at"%string
    = Some (CTime 1000).
Proof.
  intros e fd op.
  assert (H1 : clickup_task sample_db !! u "t1" = Some sample_row) by reflexivity.
  assert (H2 : clickup_task (run e op sample_db) !! u "t1"
               = Some (apply_field_update 1000 fd sample_row)) by reflexivity.
  split; [exact H1|]. split; [exact H2|].
  destruct (C4_provenance_amended e op sample_db (u "t1") sample_row _ H1 H2)
    as (Hraw & _ & Hext).
  split; [exact Hraw|exact (Hext fd eq_refl)].
Defined.


(** The two runs of the coalesce example, through the whole sync: the
    stored name "Old" survives an upstream name of null and gives way to
    "New". *)
Example sync_keeps_old_name :
  stored (snd (syncTaskCustomFields (sample_env JNull [] false) (u "t1") sample_db))
         (u "t1") "name" = Some (CVal (JStr (u "Old"))).
Proof. vm_compute. reflexivity. Qed.

Example sync_stores_new_name :
  stored (snd (syncTaskCustomFields (sample_env (JStr (u "New")) [] false) (u "t1")
                 sample_db))
         (u "t1") "name" = Some (CVal (JStr (u "New"))).
Proof. vm_compute. reflexivity. Qed.

Lemma C6_witness :
  let e := sample_env (JStr (u "Fix pump")) [bug_type] false in
  syncTaskTypes e sample_db = (Ok (JArr [bug_type]), snd (syncTaskTypes e sample_db)) /\
  task_types (snd (syncTaskTypes e sample_db)) = catalog e [bug_type] /\
  task_types (snd (syncTaskTypes e sample_db)) !! u "9" = None.
Proof.
  intros e.
  assert (Hrun : syncTaskTypes e sample_db
                 = (Ok (JArr [bug_type]), snd (syncTaskTypes e sample_db)))
    by (vm_compute; reflexivity).
  split; [exact Hrun|].
  destruct (C6_refresh_amended e sample_db _ _ Hrun) as (l & Hl & Hne & _).
  injection Hl as <-.
  assert (HT : task_types (snd (syncTaskTypes e sample_db)) = catalog e [bug_type])
    by (apply Hne; discriminate).
  split; [exact HT|]. rewrite HT. vm_compute. reflexivity.
Defined.


(** ** Instances of the further statements *)

Lemma retryRequest_budget_witness :
  0 <= 2000 /\
  (attempts (snd (retryRequest
      (fun _ : nat => @Throw jsval (HttpError (Some 429%Z))) 3 2000%Z)) <= 3)%nat /\
  2 * slept (snd (retryRequest
      (fun _ : nat => @Throw jsval (HttpError (Some 429))) 3 2000))
    <= 2000 * Z.of_nat 3 * (Z.of_nat 3 - 1).
Proof.
  assert (H0 : 0 <= 2000) by discriminate.
  split; [exact H0|].
  destruct (retryRequest_budget
              (fun _ : nat => @Throw jsval (HttpError (Some 429))) 3 2000 H0)
    as (Ha & Hs & _).
  split; [exact Ha | exact Hs].
Defined.

Lemma getSpaceTasks_pages_witness :
  (forall j, (j < 2)%nat -> length (paged_tasks j) = 100%nat) /\
  length (paged_tasks 2) <> 100%nat /\
  getSpaceTasks 3 paged_endpoint
  = Some (Ok (List.repeat (JObj []) 207),
          [Request 0; Pause 200; Request 1; Pause 200; Request 2]).
Proof.
  assert (Hb : forall j, (j <= 2)%nat ->
            exists body, paged_endpoint j = Ok body /\
                         get (JObj body) "tasks" = JArr (paged_tasks j))
    by (intros j _; eexists; split; reflexivity).
  assert (Hfull : forall j, (j < 2)%nat -> length (paged_tasks j) = 100%nat)
    by (intros [|[|j]] Hj; [reflexivity | reflexivity | lia]).
  assert (Hlast : length (paged_tasks 2) <> 100%nat) by discriminate.
  split; [exact Hfull|]. split; [exact Hlast|].
  exact (getSpaceTasks_pages paged_endpoint paged_tasks 2 3 Hb Hfull Hlast (le_n 3)).
Defined.

Lemma getSpaceTasks_unbounded_witness :
  getSpaceTasks 1000 (fun _ => Ok (task_page 100)) = None.
Proof.
  apply getSpaceTasks_unbounded. intros j.
  exists (task_page 100), (List.repeat (JObj []) 100).
  repeat split; reflexivity.
Defined.

Lemma getSpaceTasks_failure_witness :
  failing_endpoint 1 = Throw (HttpError (Some 502)) /\
  getSpaceTasks 2 failing_endpoint
  = Some (Throw (HttpError (Some 502)), [Request 0; Pause 200; Request 1]).
Proof.
  assert (Hfull : forall j, (j < 1)%nat ->
            exists body l, failing_endpoint j = Ok body /\
              get (JObj body) "tasks" = JArr l /\ length l = 100%nat).
  { intros [|j] Hj; [|lia].
    exists (task_page 100), (List.repeat (JObj []) 100). repeat split; reflexivity. }
  split; [reflexivity|].
  exact (getSpaceTasks_failure failing_endpoint _ 1 2 Hfull eq_refl (le_n 2)).
Defined.

Lemma getTaskDetails_normal_form_witness :
  let ep := fun _ : nat => Ok (sample_body (JStr (u "Fix pump"))) in
  let d := normalizeTaskDetails (sample_body (JStr (u "Fix pump"))) in
  fst (getTaskDetails ep) = Ok d /\
  (get d "parent" = JNull \/ truthy (get d "parent") = true) /\
  get d "name" = JStr (u "Fix pump").
Proof.
  intros ep d.
  assert (H1 : fst (getTaskDetails ep) = Ok d) by reflexivity.
  split; [exact H1|].
  destruct (getTaskDetails_normal_form ep d H1) as (data & _ & Hp & _).
  split; [|reflexivity].
  destruct Hp as [Hp|[Hp _]]; [left | right]; exact Hp.
Defined.

Lemma buildFieldData_catalogue_witness :
  let e := sample_env (JStr (u "Fix pump")) [] false in
  let d := normalizeTaskDetails (sample_body (JStr (u "Fix pump"))) in
  get d "custom_fields" = JArr [sample_field] /\
  match buildFieldData e d with
  | Ok fd =>
      existsb bad_name [sample_field] = false /\
      dom (customFields fd) = list_to_set (defined_names [sample_field])
  | Throw ex => ex = TypeError /\ existsb bad_name [sample_field] = true
  end.
Proof.
  intros e d.
  assert (H1 : get d "custom_fields" = JArr [sample_field]) by reflexivity.
  split; [exact H1|].
  exact (buildFieldData_catalogue e d [sample_field] H1).
Defined.

Lemma linked_db_integrity : ref_integrity linked_db.
Proof.
  intros id r k Hr Hk. unfold linked_db in Hr. cbn [clickup_task] in Hr.
  apply lookup_singleton_Some in Hr as [<- <-].
  vm_compute in Hk. injection Hk as <-.
  unfold linked_db. cbn [task_types]. rewrite lookup_singleton_eq. by eexists.
Qed.

Lemma referential_integrity_kept_witness :
  ref_integrity linked_db /\
  ref_integrity
    (run (sample_env (JStr (u "Fix pump")) [bug_type] false)
         (OpSyncTaskCustomFields (u "t1")) linked_db).
Proof.
  split; [exact linked_db_integrity|].
  exact (proj1 (referential_integrity_kept
                  (sample_env (JStr (u "Fix pump")) [bug_type] false)
                  linked_db linked_db_integrity)
               (OpSyncTaskCustomFields (u "t1"))).
Defined.

Lemma sample_db_idle id r :
  clickup_task sample_db !! id = Some r -> type_ref r = None.
Proof.
  unfold sample_db. cbn [clickup_task]. intros Hr.
  apply lookup_singleton_Some in Hr as [<- <-]. by vm_compute.
Qed.

Lemma cleanOldData_erases_idle_catalog_witness :
  (forall id r, clickup_task sample_db !! id = Some r -> type_ref r = None) /\
  task_types
    (snd (cleanOldData 50
            (snd (syncTaskTypes (sample_env (JStr (u "Fix pump")) [bug_type] false)
                    sample_db)))) = ∅.
Proof.
  split; [exact sample_db_idle|].
  exact (cleanOldData_erases_idle_catalog
           (sample_env (JStr (u "Fix pump")) [bug_type] false) 50 sample_db
           sample_db_idle).
Defined.

Example orphan_update :
  fst (updateTaskRelationships 7 (u "t1") orphan_relationships sample_db)
  = Ok (Some orphan_row).
Proof. vm_compute. reflexivity. Qed.

Lemma updateTaskRelationships_guard_witness :
  fst (updateTaskRelationships 7 (u "t1") orphan_relationships sample_db)
  = Ok (Some orphan_row) /\
  clickup_task (snd (updateTaskRelationships 7 (u "t1") orphan_relationships
                       sample_db)) !! u "t1" = Some orphan_row /\
  orphan_row !! "updated_at"%string = Some (CTime 7).
Proof.
  split; [exact orphan_update|].
  destruct (updateTaskRelationships_guard 7 (u "t1") orphan_relationships
              sample_db orphan_row orphan_update) as (Hrow & _ & Ht & _).
  split; [exact Hrow | exact Ht].
Defined.

Lemma sync_refresh_failure_witness :
  let d := normalizeTaskDetails (sample_body (JStr (u "Fix pump"))) in
  fst (getTaskDetails (task_endpoint offline_env)) = Ok d /\
  fst (syncTaskTypes offline_env (ensured offline_env (u "t2") d sample_db))
  = Throw (HttpError (Some 500)) /\
  syncTaskCustomFields offline_env (u "t2") sample_db
  = (Failed (Caught (HttpError (Some 500))),
     ensured offline_env (u "t2") d sample_db).
Proof.
  intros d.
  assert (H1 : fst (getTaskDetails (task_endpoint offline_env)) = Ok d)
    by reflexivity.
  assert (H2 : fst (syncTaskTypes offline_env
                      (ensured offline_env (u "t2") d sample_db))
               = Throw (HttpError (Some 500))) by reflexivity.
  split; [exact H1|]. split; [exact H2|].
  exact (sync_refresh_failure offline_env (u "t2") sample_db d _ H1 H2).
Defined.

Example colliding_built :
  exists fd,
    buildFieldData (sample_env (JStr (u "Fix pump")) [] false) colliding_details
    = Ok fd.
Proof. eexists. vm_compute. reflexivity. Qed.

Lemma last_definition_wins_witness :
  exists fd,
    buildFieldData (sample_env (JStr (u "Fix pump")) [] false) colliding_details
    = Ok fd /\
    customFields fd !! u "Client"
    = Some (JObj [ (u "id", JStr (u "f2"));
                   (u "type", JStr (u "text"));
                   (u "config", JObj []);
                   (u "original_name", JStr (u "Client")) ]).
Proof.
  destruct colliding_built as [fd Hb]. exists fd. split; [exact Hb|].
  assert (H1 : u "Client" <> []) by discriminate.
  assert (H2 : clean_name (u "Client") <> u "__proto__") by discriminate.
  assert (H3 : clean_name (u "Client") ∉ defined_names []) by apply not_elem_of_nil.
  exact (last_definition_wins (sample_env (JStr (u "Fix pump")) [] false)
           colliding_details [sample_field] plain_field [] (u "Client") fd
           eq_refl Hb eq_refl H1 H2 H3).
Defined.

Example typed_sync_succeeds :
  exists row s',
    syncTaskCustomFields typed_env (u "t1") sample_db = (Success (Some row), s').
Proof. do 2 eexists. vm_compute. reflexivity. Qed.

Lemma sync_stores_relationships_witness :
  exists row s',
    syncTaskCustomFields typed_env (u "t1") sample_db = (Success (Some row), s') /\
    row !! "relationships"%string
    = Some (CJson (JObj [ (u "parent_id", JStr (u "p0"));
                          (u "custom_type", JStr (u "Bug")) ])) /\
    row !! "updated_at"%string = Some (CTime 1000).
Proof.
  destruct typed_sync_succeeds as (row & s' & Hs). exists row, s'.
  split; [exact Hs|].
  destruct (sync_stores_relationships typed_env (u "t1") sample_db _ row s'
              eq_refl Hs) as (_ & Hrel & Ht & _).
  split; [exact Hrel | exact Ht].
Defined.

Lemma sync_links_type_witness :
  exists row s',
    syncTaskCustomFields typed_env (u "t1") sample_db = (Success (Some row), s') /\
    exists ty, task_types s' !! u "7" = Some ty /\
      row !! "task_type_id"%string = Some (CVal (JStr (u "7"))) /\
      row !! "task_type_name"%string = ty !! "name"%string.
Proof.
  destruct typed_sync_succeeds as (row & s' & Hs). exists row, s'.
  split; [exact Hs|].
  exact (sync_links_type typed_env (u "t1") sample_db _ row s' eq_refl Hs eq_refl).
Defined.
